(** * AI-assisted daily journal: the journal routes and the client analytics

    A shallow embedding of
      - [src/Server/routes/journal.js] (module [RoutesJournal]),
      - its later revision [src/unnamed/part_003] (module [Part003]),
      - the Journal schema of [src/unnamed/part_001],
      - [calculateStreak], [calculateAchievements] and [weeklyData] of
        [src/Website/src/App.jsx] (module [App]).

    JavaScript values are an inductive type, exceptions are an explicit
    outcome, and the handlers run in a state-and-exception monad over the
    document collection, the lazily created provider client and the log of
    prompts sent to the provider.  Everything that lives outside the
    repository (the generative-text provider, [JSON.parse], the casts of the
    document mapper) is a field of the environment record [Env].  Strings
    are the bytes of their UTF-8 encoding; dates are time values in
    milliseconds, read in a time zone given by its offsets ([Zone]); an
    identifier in a request is held as what the cast to ObjectId makes of
    it ([IdParam]). *)

From Stdlib Require Import ZArith List String Ascii Bool Lia Sorted FunInd.
From stdpp Require Import gmap strings.
Import ListNotations.

Local Open Scope string_scope.
Local Open Scope Z_scope.

(** ** JavaScript values *)

#[warnings="-register-all"]
Inductive JSValue : Type :=
| JUndefined
| JNull
| JBool (b : bool)
| JNum (n : Z)
| JStr (s : string)
| JArr (items : list JSValue)
| JObj (fields : list (string * JSValue)).

(** ToBoolean.  Numbers are kept to the integers: of a number only its
    truthiness is ever observed by the routes. *)
Definition truthy (v : JSValue) : bool :=
  match v with
  | JUndefined | JNull => false
  | JBool b => b
  | JNum n => negb (n =? 0)
  | JStr s => negb (String.eqb s "")
  | JArr _ | JObj _ => true
  end.

(** [a || b] *)
Definition js_or (a b : JSValue) : JSValue := if truthy a then a else b.

(** [v !== s] for a string [s] *)
Definition strict_neq_str (v : JSValue) (s : string) : bool :=
  match v with
  | JStr t => negb (String.eqb t s)
  | _ => true
  end.

Fixpoint lookup_field (k : string) (fields : list (string * JSValue)) : JSValue :=
  match fields with
  | [] => JUndefined
  | (k', v) :: rest => if String.eqb k k' then v else lookup_field k rest
  end.

(** ** Exceptions *)

Inductive Error : Type :=
| TypeError (msg : string)
| SyntaxError (msg : string)
| ProviderError (msg : string)
| ValidationError (msg : string)
| CastError (msg : string).

(** [error.message] *)
Definition message (e : Error) : string :=
  match e with
  | TypeError m | SyntaxError m | ProviderError m | ValidationError m | CastError m => m
  end.

Inductive Outcome (A : Type) : Type :=
| Ok (a : A)
| Throw (e : Error).
Arguments Ok {A} a.
Arguments Throw {A} e.

(** [v.k]: reading a property of [null] or [undefined] raises; a primitive
    or an array has no such property. *)
Definition getProp (v : JSValue) (k : string) : Outcome JSValue :=
  match v with
  | JUndefined | JNull => Throw (TypeError "Cannot read properties of null or undefined")
  | JObj fields => Ok (lookup_field k fields)
  | _ => Ok JUndefined
  end.

(** ** Text helpers *)

Definition dq : string := String (ascii_of_nat 34) EmptyString.
Definition nl : string := String (ascii_of_nat 10) EmptyString.
(** [quoted s] is [s] between double quotes. *)
Definition quoted (s : string) : string := dq ++ s ++ dq.

(** ** The Journal schema (src/unnamed/part_001) *)

Definition UserId := nat.
Definition JournalId := nat.

Record Journal : Type := {
  j_id : JournalId;
  j_user : UserId;
  j_title : string;
  j_content : string;
  j_mood : string;
  j_aiSummary : string;
  j_aiMood : string;
  j_tags : list string;
  j_createdAt : Z;
  j_updatedAt : Z
}.

(** [enum: ['happy', 'sad', 'neutral', ...]] of the [mood] path *)
Definition MOODS : list string :=
  ["happy"; "sad"; "neutral"; "excited"; "anxious"; "calm"; "angry"; "grateful"].

Definition in_enum (s : string) : bool := existsb (String.eqb s) MOODS.

(** ** The generative-text provider *)

(** A prompt: the fixed instructions of the template literal and the
    journal entry spliced in after them. *)
Record Prompt : Type := { instructions : string; entry : JSValue }.

Inductive Client : Type := mkClient (key : option string).

(** A [text()] method of the SDK: it returns the text or raises. *)
Inductive TextFn : Type :=
| TextReturns (s : string)
| TextThrows (e : Error).

Inductive SDKResponse : Type :=
| RespString (s : string)          (* typeof resp === 'string' *)
| RespText (t : TextFn)            (* typeof resp.text === 'function' *)
| RespOther (shown : string).      (* anything else; [shown] is String(resp) *)

Inductive OutputItem : Type :=
| ItemContent (parts : list string)   (* o.content is an array; c.text || '' of each part *)
| ItemText (t : string).              (* o?.text || '' *)

Inductive SDKResult : Type :=
| ResFalsy                              (* !result *)
| ResString (s : string)                (* a non-empty string *)
| ResResponse (r : SDKResponse)         (* result.response is truthy *)
| ResOutput (items : list OutputItem)   (* Array.isArray(result.output) *)
| ResTextFn (t : TextFn)                (* typeof result.text === 'function' *)
| ResOther (shown : string).            (* anything else; [shown] is String(result) *)

(** ** The environment: everything outside the repository *)

Record Env : Type := {
  GEMINI_API_KEY : option string;                     (* process.env.GEMINI_API_KEY *)
  newGoogleGenerativeAI : option string -> Outcome Client;
  generateContent : Client -> Prompt -> Outcome SDKResult;
  JSON_parse : string -> Outcome JSValue;
  castOther : JSValue -> option string;               (* String cast of a non-string value *)
  castTags : JSValue -> option (list string);         (* cast of the [String] array path *)
  joinedMessage : list Error -> string                (* message of a ValidationError for
                                                         several failing paths, from the
                                                         errors of each *)
}.

(** ** The Challenge schema (src/Server/models/Challenge.js) *)

(** One record per user and date: the schema declares the unique index
    [{ user: 1, date: 1 }]. *)
Record Challenge : Type := {
  c_user : UserId;
  c_date : Z;
  c_question : string;
  c_answer : string;
  c_questionType : string;
  c_completed : bool
}.

(** ** State and the handler monad *)

Record World : Type := {
  journals : list Journal;     (* the Journal collection, in insertion order *)
  challenges : list Challenge; (* the Challenge collection *)
  next_id : JournalId;         (* the next identifier the store assigns *)
  genAI : option Client;       (* [let genAI = null] of part_003 *)
  calls : list Prompt          (* prompts sent to the provider, oldest first *)
}.

Definition M (A : Type) : Type := World -> World * Outcome A.

Definition ret {A} (a : A) : M A := fun w => (w, Ok a).
Definition bind {A B} (m : M A) (f : A -> M B) : M B :=
  fun w => match m w with
           | (w', Ok a) => f a w'
           | (w', Throw e) => (w', Throw e)
           end.
Definition try_catch {A} (m : M A) (h : Error -> M A) : M A :=
  fun w => match m w with
           | (w', Ok a) => (w', Ok a)
           | (w', Throw e) => h e w'
           end.
Definition lift {A} (o : Outcome A) : M A := fun w => (w, o).

Notation "'let*' x := m 'in' k" := (bind m (fun x => k))
  (at level 10, x name, m at level 100, k at level 200).

(** ** The enrichment result *)

Record Analysis : Type := { summary : JSValue; mood : JSValue }.

Definition fallback : Analysis :=
  {| summary := JStr "AI analysis unavailable"; mood := JStr "neutral" |}.

(** [{ summary: parsed.summary || 'No summary available',
       mood: parsed.mood || 'neutral' }] *)
Definition normalize (parsed : JSValue) : Outcome Analysis :=
  match getProp parsed "summary" with
  | Throw e => Throw e
  | Ok s =>
      match getProp parsed "mood" with
      | Throw e => Throw e
      | Ok m => Ok {| summary := js_or s (JStr "No summary available");
                      mood := js_or m (JStr "neutral") |}
      end
  end.

Definition runText (t : TextFn) : Outcome string :=
  match t with
  | TextReturns s => Ok s
  | TextThrows e => Throw e
  end.

(** The provider call of both revisions:
    [client.getGenerativeModel(..).generateContent(prompt)], logged. *)
Definition callProvider (E : Env) (c : Client) (p : Prompt) : M SDKResult :=
  fun w =>
    ({| journals := journals w; challenges := challenges w;
        next_id := next_id w; genAI := genAI w;
        calls := calls w ++ [p] |},
     generateContent E c p).

(** ** The store: validation by the schema, and the collection *)

(** What [Journal.create] and [journal.save()] are handed, before casting. *)
Record RawDoc : Type := {
  r_title : JSValue;
  r_content : JSValue;
  r_tags : JSValue;
  r_aiSummary : JSValue;
  r_aiMood : JSValue;
  r_mood : JSValue
}.

(** The validated paths of a document. *)
Record Fields : Type := {
  f_title : string;
  f_content : string;
  f_tags : list string;
  f_aiSummary : string;
  f_aiMood : string;
  f_mood : string
}.

Inductive Cast : Type :=
| Absent                 (* null or undefined: the path is unset *)
| CastTo (s : string)
| CastFail.

(** The cast of a [type: String] path: a string is kept as it is, anything
    else is the mapper's business ([castOther]). *)
Definition castString (E : Env) (v : JSValue) : Cast :=
  match v with
  | JUndefined | JNull => Absent
  | JStr s => CastTo s
  | _ => match castOther E v with
         | Some s => CastTo s
         | None => CastFail
         end
  end.

(** Strings are held as the bytes of their UTF-8 encoding. *)
Definition is_char (n : nat) (c : ascii) : bool := Nat.eqb (nat_of_ascii c) n.

(** The white space and line terminators [String.prototype.trim] removes.
    Of one byte: TAB, LF, VT, FF, CR and the space. *)
Definition is_space (c : ascii) : bool :=
  match nat_of_ascii c with
  | 9%nat | 10%nat | 11%nat | 12%nat | 13%nat | 32%nat => true
  | _ => false
  end.

(** Of two bytes: U+00A0 (C2 A0). *)
Definition is_space2 (a b : ascii) : bool := is_char 194 a && is_char 160 b.

(** Of three bytes: U+1680 (E1 9A 80), U+2000 to U+200A (E2 80 80 to 8A),
    U+2028, U+2029, U+202F (E2 80 A8, A9, AF), U+205F (E2 81 9F),
    U+3000 (E3 80 80) and U+FEFF (EF BB BF). *)
Definition is_space3 (a b c : ascii) : bool :=
  (is_char 225 a && is_char 154 b && is_char 128 c)
  || (is_char 226 a && is_char 128 b
      && ((Nat.leb 128 (nat_of_ascii c) && Nat.leb (nat_of_ascii c) 138)
          || is_char 168 c || is_char 169 c || is_char 175 c))
  || (is_char 226 a && is_char 129 b && is_char 159 c)
  || (is_char 227 a && is_char 128 b && is_char 128 c)
  || (is_char 239 a && is_char 187 b && is_char 191 c).

(** What is left of [s] after its leading white space. *)
Function trim_left (s : string) {struct s} : string :=
  match s with
  | EmptyString => EmptyString
  | String a r1 =>
      if is_space a then trim_left r1
      else match r1 with
           | String b r2 =>
               if is_space2 a b then trim_left r2
               else match r2 with
                    | String c r3 => if is_space3 a b c then trim_left r3 else s
                    | EmptyString => s
                    end
           | EmptyString => s
           end
  end.

(** Whether [s] is white space from end to end. *)
Definition blank (s : string) : bool := String.eqb (trim_left s) "".

(** What is left of [s] after its trailing white space. *)
Fixpoint trim_right (s : string) : string :=
  match s with
  | EmptyString => EmptyString
  | String c r => if blank s then EmptyString else String c (trim_right r)
  end.

(** [trim: true] of the schema, and [t.trim()] *)
Definition trim (s : string) : string := trim_right (trim_left s).

Definition required_error (path : string) : Error :=
  ValidationError ("Journal validation failed: " ++ path ++ ": Path `" ++ path ++ "` is required.").
Definition cast_error (path : string) : Error :=
  ValidationError ("Journal validation failed: " ++ path ++ ": Cast to string failed at path " ++ path).
Definition enum_error (v : string) : Error :=
  ValidationError ("Journal validation failed: mood: `" ++ v ++ "` is not a valid enum value for path `mood`.").

(** [required: true] on a string path: set, and not the empty string. *)
Definition check_required (path : string) (dotrim : bool) (c : Cast) : Outcome string :=
  match c with
  | Absent => Throw (required_error path)
  | CastFail => Throw (cast_error path)
  | CastTo s =>
      let s' := if dotrim then trim s else s in
      if String.eqb s' "" then Throw (required_error path) else Ok s'
  end.

(** A path with a default and no validator. *)
Definition check_default (path : string) (dflt : string) (c : Cast) : Outcome string :=
  match c with
  | Absent => Ok dflt
  | CastFail => Throw (cast_error path)
  | CastTo s => Ok s
  end.

(** The [mood] path: default ['neutral'], and the [enum] validator. *)
Definition check_mood (c : Cast) : Outcome string :=
  match c with
  | Absent => Ok "neutral"
  | CastFail => Throw (cast_error "mood")
  | CastTo s => if in_enum s then Ok s else Throw (enum_error s)
  end.

Fixpoint strings_of (items : list JSValue) : option (list string) :=
  match items with
  | [] => Some []
  | JStr s :: rest => option_map (cons s) (strings_of rest)
  | _ => None
  end.

(** The [tags] path: an array of strings is kept (each element trimmed),
    anything else is the mapper's business ([castTags]). *)
Definition castTagList (E : Env) (v : JSValue) : option (list string) :=
  match v with
  | JArr items =>
      match strings_of items with
      | Some l => Some l
      | None => castTags E v
      end
  | _ => castTags E v
  end.

Definition check_tags (E : Env) (v : JSValue) : Outcome (list string) :=
  match v with
  | JUndefined | JNull => Ok []
  | _ => match castTagList E v with
         | Some l => Ok (map trim l)
         | None => Throw (cast_error "tags")
         end
  end.

(** The error of a path that fails. *)
Definition failed {A : Type} (o : Outcome A) : list Error :=
  match o with
  | Ok _ => []
  | Throw e => [e]
  end.

(** The validation of a document: every path is checked.  When one path
    fails the error is that path's; when several fail there is one error
    for all of them, whose message is the mapper's to word. *)
Definition validate (E : Env) (d : RawDoc) : Outcome Fields :=
  let t := check_required "title" true (castString E (r_title d)) in
  let c := check_required "content" false (castString E (r_content d)) in
  let m := check_mood (castString E (r_mood d)) in
  let s := check_default "aiSummary" "" (castString E (r_aiSummary d)) in
  let am := check_default "aiMood" "" (castString E (r_aiMood d)) in
  let tg := check_tags E (r_tags d) in
  match t, c, m, s, am, tg with
  | Ok t, Ok c, Ok m, Ok s, Ok am, Ok tg =>
      Ok {| f_title := t; f_content := c; f_tags := tg;
            f_aiSummary := s; f_aiMood := am; f_mood := m |}
  | _, _, _, _, _, _ =>
      match (failed t ++ failed c ++ failed m ++ failed s ++ failed am ++ failed tg)%list with
      | [e] => Throw e
      | es => Throw (ValidationError (joinedMessage E es))
      end
  end.

(** The document with the validated paths [f]. *)
Definition document (id : JournalId) (u : UserId) (f : Fields) (created updated : Z) : Journal :=
  {| j_id := id; j_user := u;
     j_title := f_title f; j_content := f_content f;
     j_mood := f_mood f; j_aiSummary := f_aiSummary f;
     j_aiMood := f_aiMood f; j_tags := f_tags f;
     j_createdAt := created; j_updatedAt := updated |}.

Definition set_journals (w : World) (l : list Journal) (n : JournalId) : World :=
  {| journals := l; challenges := challenges w; next_id := n;
     genAI := genAI w; calls := calls w |}.

(** [Journal.create(doc)]; [timestamps: true] stamps both dates. *)
Definition Journal_create (E : Env) (u : UserId) (d : RawDoc) (now : Z) : M Journal :=
  fun w =>
    match validate E d with
    | Throw e => (w, Throw e)
    | Ok f =>
        let j := document (next_id w) u f now now in
        (set_journals w (journals w ++ [j]) (S (next_id w)), Ok j)
    end.

(** An identifier as a request or the client carries it: a string.  It is
    held as what the cast to ObjectId makes of it: the ObjectId it renders
    (ObjectIds are numbered in the order the store generates them), or a
    string that renders none. *)
Inductive IdParam : Type :=
| ObjectId (id : JournalId)      (* the 24 hexadecimal digits of [id] *)
| NotObjectId (raw : string).    (* any other string, such as "42" *)

#[global] Instance IdParam_eq_dec : EqDecision IdParam.
Proof. solve_decision. Defined.

(** Whether [id] names the journal [j]: the filter of [findById], and
    [j._id === id] in the client. *)
Definition has_id (id : IdParam) (j : Journal) : bool :=
  match id with
  | ObjectId n => Nat.eqb (j_id j) n
  | NotObjectId _ => false
  end.

(** The CastError of a query on [_id]. *)
Definition objectid_error (raw : string) : Error :=
  CastError ("Cast to ObjectId failed for value " ++ quoted raw
             ++ " (type string) at path " ++ quoted "_id"
             ++ " for model " ++ quoted "Journal").

(** [Journal.findById(id)]: the document or [null]; the query raises when
    [id] cannot be cast to an ObjectId. *)
Definition Journal_findById (id : IdParam) : M (option Journal) :=
  fun w =>
    match id with
    | ObjectId _ => (w, Ok (find (has_id id) (journals w)))
    | NotObjectId raw => (w, Throw (objectid_error raw))
    end.

Definition replace_doc (j' : Journal) (l : list Journal) : list Journal :=
  map (fun x => if has_id (ObjectId (j_id j')) x then j' else x) l.

(** The validated paths a loaded document holds. *)
Definition paths_of (j : Journal) : Fields :=
  {| f_title := j_title j; f_content := j_content j; f_tags := j_tags j;
     f_aiSummary := j_aiSummary j; f_aiMood := j_aiMood j; f_mood := j_mood j |}.

#[global] Instance Fields_eq_dec : EqDecision Fields.
Proof. solve_decision. Defined.

(** An assignment marks a path modified only when the value set, once
    cast and trimmed, differs from the one the document holds. *)
Definition modified (j : Journal) (f : Fields) : bool :=
  negb (bool_decide (f = paths_of j)).

(** The document [journal.save()] leaves: [timestamps: true] refreshes
    [updatedAt] only when some path is modified. *)
Definition saved (j : Journal) (f : Fields) (now : Z) : Journal :=
  if modified j f then document (j_id j) (j_user j) f (j_createdAt j) now else j.

(** [journal.save()] after the handler has assigned the paths of [d]: the
    document is validated; it is written only when some path is modified. *)
Definition journal_save (E : Env) (j : Journal) (d : RawDoc) (now : Z) : M Journal :=
  fun w =>
    match validate E d with
    | Throw e => (w, Throw e)
    | Ok f =>
        if modified j f
        then (set_journals w (replace_doc (saved j f now) (journals w)) (next_id w),
              Ok (saved j f now))
        else (w, Ok j)
    end.

(** [journal.deleteOne()] *)
Definition journal_deleteOne (j : Journal) : M unit :=
  fun w => (set_journals w (List.filter (fun x => negb (has_id (ObjectId (j_id j)) x))
                                         (journals w))
                         (next_id w), Ok tt).

(** ** Requests and responses *)

Record Request : Type := {
  req_user : UserId;                       (* req.user._id, set by [protect] *)
  req_id : IdParam;                        (* req.params.id *)
  req_body : list (string * JSValue)       (* req.body *)
}.

Inductive Payload : Type :=
| PJournal (j : Journal)
| PJournals (l : list Journal)
| PMessage (m : string)
| PStats (s : gmap Z nat)
| PStreak (n : nat)
| PChallenge (success : bool) (msg : string) (points : Z).

Record Response : Type := { status : Z; payload : Payload }.

(** [res.json(x)] and [res.status(n).json(x)] *)
Definition json (p : Payload) : Response := {| status := 200; payload := p |}.
Definition status_json (n : Z) (p : Payload) : Response := {| status := n; payload := p |}.

(** [catch (error) { res.status(500).json({ message: error.message }) }] *)
Definition on_error (e : Error) : M Response :=
  ret (status_json 500 (PMessage (message e))).

(** ** Dates *)

(** A date is its time value: milliseconds since the epoch. *)
Definition day_ms : Z := 1000 * 60 * 60 * 24.

(** The local time zone as the language reads it: the offset in force at
    an instant (LocalTZA(t, true)), and the offset by which a local time is
    read back as an instant (LocalTZA(t, false)).  The two differ around a
    clock change. *)
Record Zone : Type := {
  offset_at : Z -> Z;
  offset_of_local : Z -> Z
}.

(** A zone without clock changes: local time = UTC + [tz]. *)
Definition fixed (tz : Z) : Zone :=
  {| offset_at := fun _ => tz; offset_of_local := fun _ => tz |}.

(** LocalTime(t) and UTC(t) *)
Definition LocalTime (z : Zone) (t : Z) : Z := t + offset_at z t.
Definition UTC (z : Zone) (t : Z) : Z := t - offset_of_local z t.

(** [d.setHours(0, 0, 0, 0)]: the local day of [t] at 00:00, read back. *)
Definition setHours0 (z : Zone) (t : Z) : Z :=
  UTC z (LocalTime z t / day_ms * day_ms).

(** [d.setDate(d.getDate() - k)]: the same local time [k] calendar days
    earlier, read back. *)
Definition setDate_back (z : Zone) (k t : Z) : Z :=
  UTC z (LocalTime z t - k * day_ms).

(** [Math.floor((a - b) / (1000 * 60 * 60 * 24))] *)
Definition floor_days (a b : Z) : Z := (a - b) / day_ms.

(** The day number of the local calendar day of [t]: what
    [toDateString()] distinguishes. *)
Definition local_day (z : Zone) (t : Z) : Z := LocalTime z t / day_ms.

(** The day number of the UTC calendar day of [t]: the key
    [toISOString().split('T')[0]] is its rendering as YYYY-MM-DD. *)
Definition iso_day (t : Z) : Z := t / day_ms.

(** ** The CRUD routes, shared by both revisions *)

Section Routes.

Variable E : Env.
(** The [analyzeWithAI] of the revision. *)
Variable analyze : JSValue -> M Analysis.

Definition field (req : Request) (k : string) : JSValue := lookup_field k (req_body req).

(** [journal.user.toString() !== req.user._id.toString()] *)
Definition not_owner (j : Journal) (req : Request) : bool :=
  negb (Nat.eqb (j_user j) (req_user req)).

Fixpoint insert_desc (j : Journal) (l : list Journal) : list Journal :=
  match l with
  | [] => [j]
  | x :: r => if j_createdAt x <=? j_createdAt j then j :: l else x :: insert_desc j r
  end.

(** [.sort({ createdAt: -1 })] *)
Definition sort_desc (l : list Journal) : list Journal :=
  fold_right insert_desc [] l.

(** [Journal.find(query)] *)
Definition Journal_find (query : Journal -> bool) : M (list Journal) :=
  fun w => (w, Ok (List.filter query (journals w))).

Definition owned_by (u : UserId) (j : Journal) : bool := Nat.eqb (j_user j) u.

(** GET /api/journals *)
Definition get_journals (req : Request) : M Response :=
  try_catch
    (let* found := Journal_find (owned_by (req_user req)) in
     ret (json (PJournals (sort_desc found))))
    on_error.

(** GET /api/journals/:id *)
Definition get_journal (req : Request) : M Response :=
  try_catch
    (let* found := Journal_findById (req_id req) in
     match found with
     | None => ret (status_json 404 (PMessage "Journal not found"))
     | Some journal =>
         if not_owner journal req
         then ret (status_json 403 (PMessage "Not authorized"))
         else ret (json (PJournal journal))
     end)
    on_error.

(** The object handed to [Journal.create]. *)
Definition create_doc (req : Request) (aiAnalysis : Analysis) : RawDoc :=
  {| r_title := field req "title";
     r_content := field req "content";
     r_tags := js_or (field req "tags") (JArr []);
     r_aiSummary := summary aiAnalysis;
     r_aiMood := mood aiAnalysis;
     r_mood := mood aiAnalysis |}.

(** POST /api/journals *)
Definition post_journal (req : Request) (now : Z) : M Response :=
  try_catch
    (let content := field req "content" in
     let* aiAnalysis := analyze content in
     let* journal := Journal_create E (req_user req) (create_doc req aiAnalysis) now in
     ret (status_json 201 (PJournal journal)))
    on_error.

(** [content && content !== journal.content] *)
Definition content_changed (req : Request) (journal : Journal) : bool :=
  truthy (field req "content") && strict_neq_str (field req "content") (j_content journal).

(** [{ summary: journal.aiSummary, mood: journal.aiMood }] *)
Definition retained (journal : Journal) : Analysis :=
  {| summary := JStr (j_aiSummary journal); mood := JStr (j_aiMood journal) |}.

(** The paths of [journal] after the six assignments of PUT. *)
Definition update_doc (journal : Journal) (req : Request) (aiAnalysis : Analysis) : RawDoc :=
  {| r_title := js_or (field req "title") (JStr (j_title journal));
     r_content := js_or (field req "content") (JStr (j_content journal));
     r_tags := js_or (field req "tags") (JArr (map JStr (j_tags journal)));
     r_aiSummary := summary aiAnalysis;
     r_aiMood := mood aiAnalysis;
     r_mood := mood aiAnalysis |}.

(** The part of PUT after the ownership check. *)
Definition put_owned (journal : Journal) (req : Request) (now : Z) : M Response :=
  let* aiAnalysis :=
    (if content_changed req journal
     then analyze (field req "content")
     else ret (retained journal)) in
  let* saved := journal_save E journal (update_doc journal req aiAnalysis) now in
  ret (json (PJournal saved)).

(** PUT /api/journals/:id *)
Definition put_journal (req : Request) (now : Z) : M Response :=
  try_catch
    (let* found := Journal_findById (req_id req) in
     match found with
     | None => ret (status_json 404 (PMessage "Journal not found"))
     | Some journal =>
         if not_owner journal req
         then ret (status_json 403 (PMessage "Not authorized"))
         else put_owned journal req now
     end)
    on_error.

(** DELETE /api/journals/:id *)
Definition delete_journal (req : Request) : M Response :=
  try_catch
    (let* found := Journal_findById (req_id req) in
     match found with
     | None => ret (status_json 404 (PMessage "Journal not found"))
     | Some journal =>
         if not_owner journal req
         then ret (status_json 403 (PMessage "Not authorized"))
         else
           let* _ := journal_deleteOne journal in
           ret (json (PMessage "Journal deleted"))
     end)
    on_error.

(** [stats[date] = (stats[date] || 0) + 1] *)
Definition bump (stats : gmap Z nat) (date : Z) : gmap Z nat :=
  <[date := (default 0%nat (stats !! date) + 1)%nat]> stats.

(** [journals.forEach(journal => ...)] over the dates of the entries *)
Definition group_by_day (js : list Journal) : gmap Z nat :=
  fold_left (fun stats j => bump stats (iso_day (j_createdAt j))) js ∅.

(** The query [{ user, createdAt: { $gte: sevenDaysAgo } }] *)
Definition weekly_query (u : UserId) (sevenDaysAgo : Z) (j : Journal) : bool :=
  owned_by u j && (sevenDaysAgo <=? j_createdAt j).

(** GET /api/journals/stats/weekly *)
Definition get_stats_weekly (z : Zone) (req : Request) (now : Z) : M Response :=
  try_catch
    (let sevenDaysAgo := setDate_back z 7 now in
     let* found := Journal_find (weekly_query (req_user req) sevenDaysAgo) in
     ret (json (PStats (group_by_day found))))
    on_error.

(** POST /api/journals/challenge/submit *)
Definition post_challenge_submit (req : Request) (now : Z) : M Response :=
  try_catch
    (let answer := field req "answer" in
     ret (json (PChallenge true "Challenge completed!" 10)))
    on_error.

End Routes.

(** ** The brace pattern of the lenient decode *)

(** The suffix of [s] that starts at its first opening brace. *)
Fixpoint from_first_open (s : string) : option string :=
  match s with
  | EmptyString => None
  | String c r => if is_char 123 c then Some s else from_first_open r
  end.

(** The prefix of [s] that ends at its last closing brace. *)
Fixpoint through_last_close (s : string) : option string :=
  match s with
  | EmptyString => None
  | String c r =>
      match through_last_close r with
      | Some p => Some (String c p)
      | None => if is_char 125 c then Some (String c EmptyString) else None
      end
  end.

(** [text.match(/\{[\s\S]*\}/)]: leftmost, greedy; [match[0]] or [null]. *)
Definition match_braces (text : string) : option string :=
  match from_first_open text with
  | Some (String c r) =>
      match through_last_close r with
      | Some p => Some (String c p)
      | None => None
      end
  | _ => None
  end.

(** ** src/Server/routes/journal.js: analyzeWithAI *)

Module RoutesJournal.

(** [const genAI = new GoogleGenerativeAI(process.env.GEMINI_API_KEY)] *)
Definition genAI (E : Env) : Client := mkClient (GEMINI_API_KEY E).

Definition prompt (content : JSValue) : Prompt :=
  {| instructions :=
       "Analyze this journal entry and provide: 1) A brief 2-sentence summary, 2) The detected mood (choose from: happy, sad, neutral, excited, anxious, calm, angry, grateful). Format your response as JSON with keys 'summary' and 'mood'."
       ++ nl ++ nl ++ "Journal entry: ";
     entry := content |}.

(** [(await result.response).text()]: any shape but a response with a
    [text] method raises a TypeError. *)
Definition response_text (r : SDKResult) : Outcome string :=
  match r with
  | ResResponse (RespText t) => runText t
  | ResFalsy => Throw (TypeError "Cannot read properties of undefined (reading 'response')")
  | ResResponse _ => Throw (TypeError "response.text is not a function")
  | _ => Throw (TypeError "Cannot read properties of undefined (reading 'text')")
  end.

(** The body of the [try] block. *)
Definition analyze_try (E : Env) (content : JSValue) : M Analysis :=
  let* result := callProvider E (genAI E) (prompt content) in
  let* text := lift (response_text result) in
  let* parsed := lift (JSON_parse E text) in
  lift (normalize parsed).

Definition analyzeWithAI (E : Env) (content : JSValue) : M Analysis :=
  try_catch (analyze_try E content) (fun _ => ret fallback).

(** GET /api/journals/stats/streak: the loop over neighbouring entries. *)
Fixpoint streak_loop (z : Zone) (js : list Journal) (streak : nat) : nat :=
  match js with
  | cur :: ((nxt :: _) as rest) =>
      let current := setHours0 z (j_createdAt cur) in
      let next := setHours0 z (j_createdAt nxt) in
      let diff := floor_days current next in
      if diff =? 1 then streak_loop z rest (S streak) else streak
  | _ => streak
  end.

(** The streak of the entries [js], already sorted by the query. *)
Definition streak_of (z : Zone) (now : Z) (js : list Journal) : nat :=
  match js with
  | [] => 0%nat
  | first :: _ =>
      let today := setHours0 z now in
      let lastEntry := setHours0 z (j_createdAt first) in
      let daysDiff := floor_days today lastEntry in
      if daysDiff >? 1 then 0%nat else streak_loop z js 1
  end.

Definition get_stats_streak (z : Zone) (req : Request) (now : Z) : M Response :=
  try_catch
    (let* found := Journal_find (owned_by (req_user req)) in
     ret (json (PStreak (streak_of z now (sort_desc found)))))
    on_error.

End RoutesJournal.

(** ** src/unnamed/part_003: initGenAI and analyzeWithAI *)

Module Part003.

Definition key_set (k : option string) : bool :=
  match k with
  | Some s => negb (String.eqb s "")
  | None => false
  end.

Definition set_genAI (c : Client) : M unit :=
  fun w => ({| journals := journals w; challenges := challenges w;
               next_id := next_id w; genAI := Some c; calls := calls w |}, Ok tt).

Definition initGenAI (E : Env) : M (option Client) :=
  fun w =>
    match genAI w with
    | Some c => (w, Ok (Some c))
    | None =>
        if negb (key_set (GEMINI_API_KEY E)) then (w, Ok None)
        else try_catch
               (let* c := lift (newGoogleGenerativeAI E (GEMINI_API_KEY E)) in
                let* _ := set_genAI c in
                ret (Some c))
               (fun _ => ret None) w
    end.

Definition prompt (content : JSValue) : Prompt :=
  {| instructions :=
       "Analyze this journal entry and provide:" ++ nl ++
       "1) A brief 1-2 sentence summary." ++ nl ++
       "2) The detected mood (choose from: happy, sad, neutral, excited, anxious, calm, angry, grateful)." ++ nl ++
       "Return valid JSON with keys " ++ quoted "summary" ++ " and " ++ quoted "mood" ++ "." ++ nl ++
       nl ++ "Journal entry:" ++ nl;
     entry := content |}.

Definition item_text (o : OutputItem) : string :=
  match o with
  | ItemContent parts => String.concat "" parts
  | ItemText t => t
  end.

(** "Normalize different possible SDK shapes and extract text" *)
Definition extract_text (r : SDKResult) : Outcome string :=
  match r with
  | ResFalsy => Ok ""
  | ResString s => Ok s
  | ResResponse (RespString s) => Ok s
  | ResResponse (RespText t) => runText t
  | ResResponse (RespOther shown) => Ok shown
  | ResOutput items => Ok (String.concat "" (map item_text items))
  | ResTextFn t => runText t
  | ResOther shown => Ok shown
  end.

(** "Try parse JSON; fallback to extracting JSON substring" *)
Definition parse_lenient (E : Env) (text : string) : M JSValue :=
  try_catch
    (if String.eqb text "" then ret (JObj []) else lift (JSON_parse E text))
    (fun _ =>
       match match_braces text with
       | Some m => try_catch (lift (JSON_parse E m)) (fun _ => ret (JObj []))
       | None => ret (JObj [])
       end).

(** The body of the [try] block. *)
Definition analyze_try (E : Env) (client : Client) (content : JSValue) : M Analysis :=
  let* result := callProvider E client (prompt content) in
  let* text := lift (extract_text result) in
  let* parsed := parse_lenient E text in
  lift (normalize parsed).

Definition analyzeWithAI (E : Env) (content : JSValue) : M Analysis :=
  let* client := initGenAI E in
  match client with
  | None => ret fallback
  | Some c =>
      if negb (truthy content) then ret fallback
      else try_catch (analyze_try E c content) (fun _ => ret fallback)
  end.

(** GET /api/journals/stats/streak: the loop with the moving cursor. *)
Fixpoint streak_walk (z : Zone) (js : list Journal) (cursor : Z) (streak : nat) : nat :=
  match js with
  | [] => streak
  | j :: rest =>
      let entryDate := setHours0 z (j_createdAt j) in
      let diffDays := floor_days cursor entryDate in
      if (diffDays =? 0) || (diffDays =? 1)
      then streak_walk z rest (setDate_back z 1 entryDate) (S streak)
      else streak
  end.

(** The streak of the entries [js], already sorted by the query. *)
Definition streak_of (z : Zone) (now : Z) (js : list Journal) : nat :=
  match js with
  | [] => 0%nat
  | _ => streak_walk z js (setHours0 z now) 0
  end.

Definition get_stats_streak (z : Zone) (req : Request) (now : Z) : M Response :=
  try_catch
    (let* found := Journal_find (owned_by (req_user req)) in
     ret (json (PStreak (streak_of z now (sort_desc found)))))
    on_error.

End Part003.

(** ** src/Website/src/App.jsx: the client analytics *)

Module App.

Record Achievement : Type := { name : string; icon : string; color : string }.

(** [calculateStreak]: the value handed to [setStreak]. *)
Definition calculateStreak (z : Zone) (now : Z) (journals : list Journal) : nat :=
  match journals with
  | [] => 0%nat
  | _ =>
      let sortedJournals := sort_desc journals in
      match sortedJournals with
      | [] => 0%nat
      | first :: _ =>
          let today := setHours0 z now in
          let lastEntry := setHours0 z (j_createdAt first) in
          let daysDiff := floor_days today lastEntry in
          if daysDiff >? 1 then 0%nat
          else RoutesJournal.streak_loop z sortedJournals 1
      end
  end.

(** [if (cond) newAchievements.push(a)] *)
Definition push_if (cond : bool) (a : Achievement) (l : list Achievement) : list Achievement :=
  if cond then l ++ [a] else l.

Definition hasAllMoods (journals : list Journal) : bool :=
  forallb (fun mood => existsb (fun j => String.eqb (j_mood j) mood) journals)
          ["happy"; "sad"; "excited"; "calm"].

(** [calculateAchievements]: the value handed to [setAchievements];
    [streak] is the component state the function reads. *)
Definition calculateAchievements (journals : list Journal) (streak : nat) : list Achievement :=
  let n := length journals in
  let a0 := [] in
  let a1 := push_if (1 <=? n)%nat {| name := "First Entry"; icon := "🎯"; color := "blue" |} a0 in
  let a2 := push_if (5 <=? n)%nat {| name := "Getting Started"; icon := "🌱"; color := "green" |} a1 in
  let a3 := push_if (10 <=? n)%nat {| name := "Dedicated Writer"; icon := "✍️"; color := "purple" |} a2 in
  let a4 := push_if (30 <=? n)%nat {| name := "Journal Master"; icon := "👑"; color := "yellow" |} a3 in
  let a5 := push_if (3 <=? streak)%nat {| name := "3 Day Streak"; icon := "🔥"; color := "orange" |} a4 in
  let a6 := push_if (7 <=? streak)%nat {| name := "Week Warrior"; icon := "⚡"; color := "red" |} a5 in
  let a7 := push_if (30 <=? streak)%nat {| name := "Monthly Legend"; icon := "🏆"; color := "gold" |} a6 in
  push_if (hasAllMoods journals) {| name := "Emotion Explorer"; icon := "🎭"; color := "pink" |} a7.

(** [toLocaleDateString('en-US', { weekday: 'short' })]; day 0 was a Thursday. *)
Definition weekday_short (day : Z) : string :=
  nth (Z.to_nat ((day + 4) mod 7)) ["Sun"; "Mon"; "Tue"; "Wed"; "Thu"; "Fri"; "Sat"] "".

Record Slot : Type := { slot_name : string; entries : nat }.

(** [jDate.toDateString() === date.toDateString()] *)
Definition same_local_day (z : Zone) (a b : Z) : bool := local_day z a =? local_day z b.

(** [weeklyData]: slot [i] is the local day [6 - i] days before today. *)
Definition weeklyData (z : Zone) (now : Z) (journals : list Journal) : list Slot :=
  map (fun i =>
         let date := setDate_back z (6 - Z.of_nat i) now in
         let count := length (List.filter (fun j => same_local_day z (j_createdAt j) date) journals) in
         {| slot_name := weekday_short (local_day z date); entries := count |})
      (seq 0 7).

(** The state of [AppProvider] that the analytics read and write. *)
Record State : Type := {
  st_journals : list Journal;
  st_streak : nat;
  st_achievements : list Achievement
}.

(** [useState([])], [useState(0)], [useState([])] *)
Definition initial : State :=
  {| st_journals := []; st_streak := 0%nat; st_achievements := [] |}.

(** The effect on [[journals]]: [calculateStreak(); calculateAchievements()]
    when there is a journal.  Both run in the closure of the render that
    scheduled the effect, so [calculateAchievements] reads the [streak] of
    that render, not the value just handed to [setStreak]. *)
Definition journals_effect (z : Zone) (now : Z) (st : State) : State :=
  match st_journals st with
  | [] => st
  | _ =>
      {| st_journals := st_journals st;
         st_streak := calculateStreak z now (st_journals st);
         st_achievements := calculateAchievements (st_journals st) (st_streak st) |}
  end.

(** [setJournals(js)], the render and the effect that follow.  The effect
    depends on [journals] alone: the render after [setStreak] does not run
    it again. *)
Definition setJournals (z : Zone) (now : Z) (js : list Journal) (st : State) : State :=
  journals_effect z now
    {| st_journals := js; st_streak := st_streak st;
       st_achievements := st_achievements st |}.

End App.

(** ** The two revisions of the routes, side by side *)

Inductive Revision : Type :=
| JournalJs     (* src/Server/routes/journal.js *)
| Part003Js.    (* src/unnamed/part_003 *)

Definition analyzeWithAI (rev : Revision) (E : Env) : JSValue -> M Analysis :=
  match rev with
  | JournalJs => RoutesJournal.analyzeWithAI E
  | Part003Js => Part003.analyzeWithAI E
  end.

Definition create (rev : Revision) (E : Env) := post_journal E (analyzeWithAI rev E).
Definition update (rev : Revision) (E : Env) := put_journal E (analyzeWithAI rev E).

Definition get_stats_streak (rev : Revision) :=
  match rev with
  | JournalJs => RoutesJournal.get_stats_streak
  | Part003Js => Part003.get_stats_streak
  end.

(** The status of the response a handler run ends with. *)
Definition status_of (x : World * Outcome Response) : option Z :=
  match snd x with
  | Ok r => Some (status r)
  | Throw _ => None
  end.

(** ** Worlds the routes can produce *)

Inductive Call : Type :=
| Create (req : Request) (now : Z)
| Update (req : Request) (now : Z)
| Delete (req : Request).

Definition handle (rev : Revision) (E : Env) (c : Call) : M Response :=
  match c with
  | Create req now => create rev E req now
  | Update req now => update rev E req now
  | Delete req => delete_journal req
  end.

(** The collection starts empty and changes only through the routes,
    whichever revision serves a call and however the provider and the
    decoder behave during it. *)
Inductive reachable : World -> Prop :=
| reachable_empty (w : World) : journals w = [] -> reachable w
| reachable_call (w : World) (rev : Revision) (E : Env) (c : Call) :
    reachable w -> reachable (fst (handle rev E c w)).

(** The enrichment fields of a stored journal agree, and its mood is one
    of the schema's. *)
Definition consistent (j : Journal) : Prop :=
  j_mood j = j_aiMood j /\ in_enum (j_mood j) = true.

(** An update request that does not change the content: [content] is not
    supplied, or is the stored string. *)
Definition same_content (req : Request) (j : Journal) : Prop :=
  field req "content" = JUndefined \/ field req "content" = JStr (j_content j).

(** The world after the update [req] has been applied at each of the times
    [nows] in turn. *)
Definition updates (rev : Revision) (E : Env) (req : Request) (nows : list Z) (w : World) : World :=
  fold_left (fun w now => fst (update rev E req now w)) nows w.

(** What an analyzer owes its callers: a value, never an exception, with
    a truthy mood, and the collections left alone. *)
Definition never_raises (analyze : JSValue -> M Analysis) : Prop :=
  forall content w, exists w' a,
    analyze content w = (w', Ok a) /\
    truthy (mood a) = true /\
    journals w' = journals w /\ challenges w' = challenges w /\ next_id w' = next_id w.

(** A required field of a create request that is missing or empty. *)
Definition missing_or_empty (v : JSValue) : Prop := v = JUndefined \/ v = JStr "".

(** A decoded mood the [mood] path does not accept. *)
Definition rejected_mood (E : Env) (v : JSValue) : Prop :=
  match castString E v with
  | CastTo s => in_enum s = false
  | CastFail => True
  | Absent => False
  end.

(** ** The streak as the specification words it *)

(** Distinct days of a list sorted in descending order. *)
Fixpoint distinct_days (days : list Z) : list Z :=
  match days with
  | a :: ((b :: _) as rest) => if a =? b then distinct_days rest else a :: distinct_days rest
  | _ => days
  end.

(** From the day [prev] already counted, count each next day that is
    exactly one day earlier; stop at the first gap. *)
Fixpoint count_run (prev : Z) (days : list Z) : nat :=
  match days with
  | [] => 0%nat
  | d :: rest => if prev - d =? 1 then S (count_run d rest) else 0%nat
  end.

(** [days]: the local calendar days of the entries, most recent first. *)
Definition streak_spec (today : Z) (days : list Z) : nat :=
  match distinct_days days with
  | [] => 0%nat
  | first :: rest => if today - first >=? 2 then 0%nat else S (count_run first rest)
  end.

(** The local calendar days of the entries [js]. *)
Definition days_of (z : Zone) (js : list Journal) : list Z :=
  map (fun j => local_day z (j_createdAt j)) js.

(** The instant at which the local day [d] begins in the zone [fixed offset]. *)
Definition midnight_of (offset d : Z) : Z := d * day_ms - offset.

(** The loop of part_003 read on day numbers: [cursor] is the day the
    cursor date lies on. *)
Fixpoint walk_days (cursor : Z) (days : list Z) (streak : nat) : nat :=
  match days with
  | [] => streak
  | d :: rest =>
      if (cursor - d =? 0) || (cursor - d =? 1)
      then walk_days (d - 1) rest (S streak)
      else streak
  end.

(** ** The weekly aggregate and the achievement table, as reference points *)

(** The entries of [u] created at or after [since] on the UTC day [d]. *)
Definition weekly_count (u : UserId) (since d : Z) (js : list Journal) : nat :=
  length (List.filter (fun j => weekly_query u since j && (iso_day (j_createdAt j) =? d)) js).

(** The entries of [js] on the UTC day [d]. *)
Definition count_on (d : Z) (js : list Journal) : nat :=
  length (List.filter (fun j => iso_day (j_createdAt j) =? d) js).

(** The local days of the seven dates the chart goes through, oldest
    first. *)
Definition chart_days (z : Zone) (now : Z) : list Z :=
  map (fun i => local_day z (setDate_back z (6 - Z.of_nat i) now)) (seq 0 7).

(** The seven days that end with the day [today], oldest first. *)
Definition days_ending (today : Z) : list Z :=
  map (fun i => today - (6 - Z.of_nat i)) (seq 0 7).

(** The entries of [js] on the local day [d]. *)
Definition count_local (z : Zone) (d : Z) (js : list Journal) : nat :=
  length (List.filter (fun j => local_day z (j_createdAt j) =? d) js).

Definition achievement_table (n streak : nat) (allMoods : bool) : list (bool * App.Achievement) :=
  [ ((1 <=? n)%nat, {| App.name := "First Entry"; App.icon := "🎯"; App.color := "blue" |});
    ((5 <=? n)%nat, {| App.name := "Getting Started"; App.icon := "🌱"; App.color := "green" |});
    ((10 <=? n)%nat, {| App.name := "Dedicated Writer"; App.icon := "✍️"; App.color := "purple" |});
    ((30 <=? n)%nat, {| App.name := "Journal Master"; App.icon := "👑"; App.color := "yellow" |});
    ((3 <=? streak)%nat, {| App.name := "3 Day Streak"; App.icon := "🔥"; App.color := "orange" |});
    ((7 <=? streak)%nat, {| App.name := "Week Warrior"; App.icon := "⚡"; App.color := "red" |});
    ((30 <=? streak)%nat, {| App.name := "Monthly Legend"; App.icon := "🏆"; App.color := "gold" |});
    (allMoods, {| App.name := "Emotion Explorer"; App.icon := "🎭"; App.color := "pink" |}) ].

Definition unlocked (js : list Journal) (streak : nat) : list string :=
  map App.name (App.calculateAchievements js streak).

(** ** Vocabulary of the statements *)

(** The world after a run differs from the one before in the log of
    provider calls and the cached client only. *)
Definition same_store (w w' : World) : Prop :=
  journals w' = journals w /\ challenges w' = challenges w /\ next_id w' = next_id w.

(** The answers of the routes. *)
Definition not_found : Response := status_json 404 (PMessage "Journal not found").
Definition forbidden : Response := status_json 403 (PMessage "Not authorized").
(** What the catch-all of every route answers for the error [e]. *)
Definition failure (e : Error) : Response := status_json 500 (PMessage (message e)).
(** What GET, PUT and DELETE answer when the lookup yields no journal:
    404 after [null], the catch-all after the cast error. *)
Definition absent (id : IdParam) : Response :=
  match id with
  | ObjectId _ => not_found
  | NotObjectId raw => failure (objectid_error raw)
  end.

(** The request names a well-formed identifier that no journal has. *)
Definition unknown (req : Request) (w : World) : Prop :=
  exists id, req_id req = ObjectId id /\ forall j, In j (journals w) -> j_id j <> id.

(** What part_003 returns when nothing could be decoded. *)
Definition no_summary : Analysis :=
  {| summary := JStr "No summary available"; mood := JStr "neutral" |}.

(** The enrichment fields of a stored journal. *)
Definition enrichment (j : Journal) : string * string * string :=
  (j_aiSummary j, j_aiMood j, j_mood j).

(** ** Concrete environments and worlds for the examples *)

Module Sample.

(** A decoder that knows the texts of the examples: it answers as
    [JSON.parse] does on the texts listed, and raises on the others used. *)
Definition parse_table (table : list (string * JSValue)) (text : string) : Outcome JSValue :=
  match find (fun p => String.eqb (fst p) text) table with
  | Some (_, v) => Ok v
  | None => Throw (SyntaxError "Unexpected token in JSON")
  end.

(** The String cast of booleans; other non-strings are refused. *)
Definition cast_primitive (v : JSValue) : option string :=
  match v with
  | JBool true => Some "true"
  | JBool false => Some "false"
  | _ => None
  end.

(** A provider that answers every prompt with [reply]. *)
Definition scripted (reply : Outcome SDKResult) (table : list (string * JSValue)) : Env :=
  {| GEMINI_API_KEY := Some "test-key";
     newGoogleGenerativeAI := fun k => Ok (mkClient k);
     generateContent := fun _ _ => reply;
     JSON_parse := parse_table table;
     castOther := cast_primitive;
     castTags := fun _ => None;
     joinedMessage := fun es => String.concat "; " (map message es) |}.

Definition says (text : string) : Outcome SDKResult :=
  Ok (ResResponse (RespText (TextReturns text))).

Definition w0 : World :=
  {| journals := []; challenges := []; next_id := 0%nat; genAI := None; calls := [] |}.

(** The text [{"summary":"<s>","mood":"<m>"}] and its decoding. *)
Definition reply_text (s m : string) : string :=
  "{" ++ quoted "summary" ++ ":" ++ quoted s ++ "," ++ quoted "mood" ++ ":" ++ quoted m ++ "}".
Definition reply_value (s m : string) : JSValue :=
  JObj [("summary", JStr s); ("mood", JStr m)].

(** A provider that answers with summary [s] and mood [m]. *)
Definition answering (s m : string) : Env :=
  scripted (says (reply_text s m)) [(reply_text s m, reply_value s m)].

(** A provider that is down: every call raises. *)
Definition outage : Env := scripted (Throw (ProviderError "503 Service Unavailable")) [].

(** A provider whose answer is prose, with no JSON in it. *)
Definition prose : Env := scripted (says "Sorry, I cannot help with that.") [].

(** A provider that answers with the mood "melancholy". *)
Definition gloomy : Env := answering "A grey day." "melancholy".

Definition alice : UserId := 1%nat.
Definition bob : UserId := 2%nat.

Definition entry_request (u : UserId) (title content : string) : Request :=
  {| req_user := u; req_id := ObjectId 0%nat;
     req_body := [("title", JStr title); ("content", JStr content)] |}.

Definition monday : Request := entry_request alice "Monday" "Rain.".

Definition entry (id : JournalId) (u : UserId) (m : string) (created : Z) : Journal :=
  {| j_id := id; j_user := u; j_title := "Day"; j_content := "Dear diary";
     j_mood := m; j_aiSummary := "A day."; j_aiMood := m; j_tags := [];
     j_createdAt := created; j_updatedAt := created |}.

Definition world_of (js : list Journal) : World :=
  {| journals := js; challenges := []; next_id := length js; genAI := None; calls := [] |}.

(** One stored journal of alice, with mood "happy"; and her request to
    replace its content. *)
Definition diary : World := world_of [entry 0%nat alice "happy" 1].
Definition rewrite_request : Request :=
  {| req_user := alice; req_id := ObjectId 0%nat; req_body := [("content", JStr "Rain again.")] |}.

(** A provider that answers "happy"; the world after alice's first
    create under it, the journal stored, and a request that only retitles it. *)
Definition sunny : Env := answering "A good day." "happy".
Definition sunny_world : World := fst (create Part003Js sunny monday 5 w0).
Definition sunny_entry : Journal :=
  {| j_id := 0%nat; j_user := alice; j_title := "Monday"; j_content := "Rain.";
     j_mood := "happy"; j_aiSummary := "A good day."; j_aiMood := "happy";
     j_tags := []; j_createdAt := 5; j_updatedAt := 5 |}.
Definition retitle : Request :=
  {| req_user := alice; req_id := ObjectId 0%nat; req_body := [("title", JStr "Monday, again")] |}.

(** Bob's request against alice's journal. *)
Definition intruder : Request :=
  {| req_user := bob; req_id := ObjectId 0%nat; req_body := [("title", JStr "Mine now")] |}.

(** Alice's request on the id "42", which is no ObjectId. *)
Definition malformed : Request :=
  {| req_user := alice; req_id := NotObjectId "42";
     req_body := [("title", JStr "Monday, again")] |}.

(** A create request without a title. *)
Definition untitled : Request :=
  {| req_user := alice; req_id := ObjectId 0%nat; req_body := [("content", JStr "Rain.")] |}.

(** Five journals of alice whose moods cover happy, sad, excited and calm. *)
Definition five_moods : list Journal :=
  [entry 0%nat alice "happy" 1; entry 1%nat alice "sad" 2; entry 2%nat alice "excited" 3;
   entry 3%nat alice "calm" 4; entry 4%nat alice "neutral" 5].

(** Five journals of alice, all calm. *)
Definition five_calm : list Journal :=
  [entry 0%nat alice "calm" 1; entry 1%nat alice "calm" 2; entry 2%nat alice "calm" 3;
   entry 3%nat alice "calm" 4; entry 4%nat alice "calm" 5].

(** Midday of day 20000 (UTC), and hours in milliseconds. *)
Definition hour : Z := 3600000.
Definition noon : Z := 20000 * day_ms + 12 * hour.

(** Alice's only journal was created exactly 7 x 24 hours before [noon]. *)
Definition week_old : World := world_of [entry 0%nat alice "calm" (noon - 7 * day_ms)].
Definition stats_request : Request :=
  {| req_user := alice; req_id := ObjectId 0%nat; req_body := [] |}.

(** A zone one hour ahead of UTC until the clocks are set back, which
    happens three days before [noon] at 01:00 UTC, and on UTC from then on.
    Local times of the repeated hour are read as their first occurrence. *)
Definition clocks_back : Z := noon - 3 * day_ms - 11 * hour.
Definition autumn : Zone :=
  {| offset_at := fun t => if t <? clocks_back then hour else 0;
     offset_of_local := fun t => if t <? clocks_back + hour then hour else 0 |}.

(** Alice's only journal was created 168 and a half hours before [noon]. *)
Definition late_entry : World :=
  world_of [entry 0%nat alice "calm" (noon - 7 * day_ms - 1800000)].

(** A zone on UTC until the clocks are set forward by an hour, which
    happens the day before [noon] at 02:00 UTC.  Local times of the skipped
    hour are read with the offset in force before the change. *)
Definition clocks_forward : Z := noon - day_ms - 10 * hour.
Definition spring : Zone :=
  {| offset_at := fun t => if t <? clocks_forward then 0 else hour;
     offset_of_local := fun t => if t <? clocks_forward + hour then 0 else hour |}.

(** Alice wrote twice today (10:00 and 08:00 UTC) and once yesterday. *)
Definition busy_day : World :=
  world_of [entry 0%nat alice "calm" (noon - day_ms - 3 * hour);
            entry 1%nat alice "happy" (noon - 4 * hour);
            entry 2%nat alice "happy" (noon - 2 * hour)].

(** Alice wrote today and two days ago, not yesterday. *)
Definition gap_day : World :=
  world_of [entry 0%nat alice "calm" (noon - 2 * day_ms);
            entry 1%nat alice "happy" (noon - 2 * hour)].

(** The world with one journal of alice on each of the days [offsets]
    before today (oldest first), written at noon. *)
Definition on_days (offsets : list Z) : World :=
  world_of (map (fun k => entry (Z.to_nat k) alice "calm" (noon - k * day_ms)) offsets).

(** The streak the route reports to alice at [noon], in the zone UTC. *)
Definition reported (rev : Revision) (w : World) : World * Outcome Response :=
  get_stats_streak rev (fixed 0) stats_request noon w.

End Sample.

(** ** What the schema guarantees of a stored journal *)

Definition trimmed (s : string) : Prop := trim s = s.

(** The paths of a stored journal as the schema leaves them: a title that
    is trimmed and not empty, a content that is not empty, a mood of the
    enum equal to the aiMood, trimmed tags. *)
Definition well_formed (j : Journal) : Prop :=
  j_title j <> "" /\ trimmed (j_title j) /\ j_content j <> "" /\
  consistent j /\ Forall trimmed (j_tags j).

(** The identifiers of the collection are pairwise distinct and below the
    next one the store assigns. *)
Definition ids_fresh (w : World) : Prop :=
  NoDup (map j_id (journals w)) /\
  Forall (fun j => (j_id j < next_id w)%nat) (journals w).

(** What holds of every world the routes can produce. *)
Definition tidy (w : World) : Prop :=
  Forall well_formed (journals w) /\ ids_fresh w.

(** The journal [j] after an update that only replaces its tags. *)
Definition retagged (j : Journal) (tags : list string) (now : Z) : Journal :=
  {| j_id := j_id j; j_user := j_user j; j_title := j_title j;
     j_content := j_content j; j_mood := j_mood j; j_aiSummary := j_aiSummary j;
     j_aiMood := j_aiMood j; j_tags := tags;
     j_createdAt := j_createdAt j; j_updatedAt := now |}.

(** A request on the journal [id] by the user [u], with the body [body]. *)
Definition request (u : UserId) (id : JournalId) (body : list (string * JSValue)) : Request :=
  {| req_user := u; req_id := ObjectId id; req_body := body |}.

(** ** The mood statistics and the daily trivia *)

(** What the two routes answer with. *)
Inductive Answer : Type :=
| AMoods (counts : gmap string nat)
| ATrivia (date : string) (events : list JSValue)
| AError (msg : string).

Record Reply : Type := { a_status : Z; a_answer : Answer }.

Definition reply (n : Z) (a : Answer) : Reply := {| a_status := n; a_answer := a |}.

(** [catch (error) { res.status(500).json({ message: error.message }) }] *)
Definition reply_error (e : Error) : M Reply := ret (reply 500 (AError (message e))).

(** [acc[m] = (acc[m] || 0) + 1] *)
Definition bump_mood (acc : gmap string nat) (m : string) : gmap string nat :=
  <[m := (default 0%nat (acc !! m) + 1)%nat]> acc.

(** The key an entry is counted under: [journal.mood] in journal.js,
    [j.mood || j.aiMood || 'neutral'] in part_003. *)
Definition mood_key (rev : Revision) (j : Journal) : string :=
  match rev with
  | JournalJs => j_mood j
  | Part003Js =>
      if negb (String.eqb (j_mood j) "") then j_mood j
      else if negb (String.eqb (j_aiMood j) "") then j_aiMood j
      else "neutral"
  end.

(** [journals.reduce((acc, j) => ..., {})] *)
Definition moodCount (rev : Revision) (js : list Journal) : gmap string nat :=
  fold_left (fun acc j => bump_mood acc (mood_key rev j)) js ∅.

(** GET /api/journals/stats/moods *)
Definition get_stats_moods (rev : Revision) (req : Request) : M Reply :=
  try_catch
    (let* found := Journal_find (owned_by (req_user req)) in
     ret (reply 200 (AMoods (moodCount rev found))))
    reply_error.

(** The entries of [js] counted under the key [k]. *)
Definition count_key (rev : Revision) (k : string) (js : list Journal) : nat :=
  length (List.filter (fun j => String.eqb (mood_key rev j) k) js).

(** The sum of the counts of a mood table. *)
Definition total (m : gmap string nat) : nat :=
  map_fold (fun _ n acc => (n + acc)%nat) 0%nat m.

(** How the server renders dates for the trivia: the long month name and
    the day of the month of the local date, and [toLocaleDateString()]. *)
Record Calendar : Type := {
  month_long : Z -> string;
  day_of_month : Z -> string;
  locale_date : Z -> string
}.

(** [`${month} ${day}`] *)
Definition trivia_label (C : Calendar) (now : Z) : string :=
  (month_long C now ++ " " ++ day_of_month C now)%string.

(** The three sentences answered while no client exists (with full stops)
    and after an error (without). *)
Definition offline_facts : list JSValue :=
  [JStr "Every day is a chance to write your story.";
   JStr "Journaling has been practiced for thousands of years.";
   JStr "Today is a perfect day to reflect on your journey."].

Definition fallback_facts : list JSValue :=
  [JStr "Every day is a chance to write your story";
   JStr "Journaling has been practiced for thousands of years";
   JStr "Today is a perfect day to reflect on your journey"].

Definition trivia_prompt (label : string) : Prompt :=
  {| instructions :=
       ("Provide 3 concise interesting historical events, fun facts, or notable birthdays that happened on "
        ++ label ++ ". Return valid JSON with keys "
        ++ quoted "event1" ++ "," ++ quoted "event2" ++ "," ++ quoted "event3" ++ ".")%string;
     entry := JStr "" |}.

(** The text of the trivia reply; [stringify] stands for [JSON.stringify]
    on the shapes without a response, which may give [undefined]. *)
Definition trivia_text (stringify : SDKResult -> option string) (r : SDKResult)
  : Outcome (option string) :=
  match r with
  | ResResponse (RespString s) => Ok (Some s)
  | ResResponse (RespText t) =>
      match runText t with
      | Ok s => Ok (Some s)
      | Throw e => Throw e
      end
  | ResResponse (RespOther shown) => Ok (Some shown)
  | ResString s => Ok (Some s)
  | _ => Ok (stringify r)
  end.

(** The decode of the trivia text: strict, then the brace span, else the
    empty object; [text.match] on [undefined] raises. *)
Definition trivia_parse (E : Env) (text : option string) : M JSValue :=
  match text with
  | None => lift (Throw (TypeError "Cannot read properties of undefined (reading 'match')"))
  | Some t =>
      try_catch
        (lift (JSON_parse E t))
        (fun _ =>
           match match_braces t with
           | Some m => try_catch (lift (JSON_parse E m)) (fun _ => ret (JObj []))
           | None => ret (JObj [])
           end)
  end.

(** [[parsed.event1 || '', parsed.event2 || '', parsed.event3 || ''].filter(Boolean)] *)
Definition trivia_events (parsed : JSValue) : Outcome (list JSValue) :=
  match getProp parsed "event1" with
  | Throw e => Throw e
  | Ok e1 =>
      match getProp parsed "event2" with
      | Throw e => Throw e
      | Ok e2 =>
          match getProp parsed "event3" with
          | Throw e => Throw e
          | Ok e3 =>
              Ok (List.filter truthy
                    [js_or e1 (JStr ""); js_or e2 (JStr ""); js_or e3 (JStr "")])
          end
      end
  end.

(** The module-level [genAI] as the trivia route reads it. *)
Definition read_genAI : M (option Client) := fun w => (w, Ok (genAI w)).

(** GET /api/journals/trivia/daily of part_003 *)
Definition get_trivia_daily (C : Calendar) (stringify : SDKResult -> option string)
           (E : Env) (now : Z) : M Reply :=
  try_catch
    (let label := trivia_label C now in
     let* client := read_genAI in
     match client with
     | None => ret (reply 200 (ATrivia label offline_facts))
     | Some c =>
         let* result := callProvider E c (trivia_prompt label) in
         let* text := lift (trivia_text stringify result) in
         let* parsed := trivia_parse E text in
         let* events := lift (trivia_events parsed) in
         ret (reply 200 (ATrivia label events))
     end)
    (fun _ => ret (reply 200 (ATrivia (locale_date C now) fallback_facts))).

(** ** Strings *)

(** Whether the character with code [n] occurs in [s]. *)
Fixpoint contains (n : nat) (s : string) : bool :=
  match s with
  | EmptyString => false
  | String c r => is_char n c || contains n r
  end.

Definition open_brace : string := String (ascii_of_nat 123) EmptyString.
Definition close_brace : string := String (ascii_of_nat 125) EmptyString.

(** A world in which the client [c] has been created and nothing else
    has happened. *)
Definition world_with_client (c : Client) : World :=
  {| journals := []; challenges := []; next_id := 0%nat; genAI := Some c; calls := [] |}.

(** ** The dashboard of the client (src/Website/src/App.jsx) *)



(** ** The journal list the client keeps (src/Website/src/App.jsx) *)

(** What GET /api/journals answers to the user [u]. *)
Definition listed (u : UserId) (w : World) : list Journal :=
  sort_desc (List.filter (owned_by u) (journals w)).

(** [createJournal]: the new list and the [success] flag; [data] is the
    body of the server's answer, and [data._id] is there exactly when the
    body is a journal. *)
Definition createJournal (data : Payload) (journals : list Journal) : list Journal * bool :=
  match data with
  | PJournal j => (j :: journals, true)
  | _ => (journals, false)
  end.

(** [updateJournal]: [journals.map(j => j._id === id ? data : j)] *)
Definition updateJournal (id : IdParam) (data : Payload) (journals : list Journal)
  : list Journal * bool :=
  match data with
  | PJournal j => (map (fun x => if has_id id x then j else x) journals, true)
  | _ => (journals, false)
  end.

(** [deleteJournal]: the body of the answer is not looked at. *)
Definition deleteJournal (id : IdParam) (data : Payload) (journals : list Journal)
  : list Journal * bool :=
  (List.filter (fun x => negb (has_id id x)) journals, true).

(** The body of the answer a route run ended with. *)
Definition body_of (x : World * Outcome Response) : Payload :=
  match snd x with
  | Ok r => payload r
  | Throw e => PMessage (message e)
  end.

(** ** The tags field of the journal form (src/Website/src/App.jsx) *)

(** [s.split(',')] *)
Fixpoint split_commas (s : string) : list string :=
  match s with
  | EmptyString => [EmptyString]
  | String c r =>
      if is_char 44 c then EmptyString :: split_commas r
      else match split_commas r with
           | h :: t => String c h :: t
           | [] => [String c EmptyString]
           end
  end.

(** [formData.tags.split(',').map(t => t.trim()).filter(Boolean)] *)
Definition parse_tags (s : string) : list string :=
  List.filter (fun t => negb (String.eqb t "")) (map trim (split_commas s)).

(** [journal?.tags?.join(', ') || ''] *)
Definition shown_tags (tags : list string) : string := String.concat ", " tags.

(** A tag as the form produces it: not empty, trimmed, without a comma. *)
Definition clean_tag (t : string) : Prop :=
  t <> "" /\ trim t = t /\ contains 44 t = false.

(** ** The daily challenge of the client (src/Website/src/App.jsx) *)

(** The effect of [DailyChallenge]: the answer shown and whether it is shown
    as submitted; [today] is [new Date().toDateString()], [ls] the
    localStorage. *)
Definition challenge_load (today : string) (ls : gmap string string) : string * bool :=
  match ls !! "dailyChallengeAnswer" with
  | Some saved =>
      if negb (String.eqb saved "")
         && bool_decide (ls !! "dailyChallengeDate" = Some today)
      then (saved, true)
      else ("", false)
  | None => ("", false)
  end.

(** [handleSubmit] of [DailyChallenge]: the localStorage afterwards. *)
Definition challenge_submit (answer today : string) (ls : gmap string string)
  : gmap string string :=
  <["dailyChallengeDate" := today]> (<["dailyChallengeAnswer" := answer]> ls).

(** What [logout] does to the localStorage. *)
Definition logout_storage (ls : gmap string string) : gmap string string :=
  delete "token" ls.

(** [a] is at least as recent as [b]. *)
Definition not_older (a b : Journal) : Prop := j_createdAt b <= j_createdAt a.

(** ** Further worlds for the examples *)

Module Fixture.

(** Alice's create request with two tags, the second in need of trimming. *)
Definition tagged_request : Request :=
  request Sample.alice 0%nat
    [("title", JStr "Monday"); ("content", JStr "Rain.");
     ("tags", JArr [JStr "rain"; JStr " grey "])].

Definition tagged_world : World :=
  fst (create JournalJs Sample.sunny tagged_request 5 Sample.w0).

Definition tagged_entry : Journal :=
  {| j_id := 0%nat; j_user := Sample.alice; j_title := "Monday"; j_content := "Rain.";
     j_mood := "happy"; j_aiSummary := "A good day."; j_aiMood := "happy";
     j_tags := ["rain"; "grey"]; j_createdAt := 5; j_updatedAt := 5 |}.

(** Journals of alice and bob, stored in the order of their creation. *)
Definition shared : World :=
  Sample.world_of
    [Sample.entry 0%nat Sample.alice "calm" 10; Sample.entry 1%nat Sample.bob "sad" 20;
     Sample.entry 2%nat Sample.alice "happy" 30; Sample.entry 3%nat Sample.alice "calm" 40].

(** A calendar and a [JSON.stringify] for the examples: every instant is
    rendered as the first of January, and nothing can be stringified. *)
Definition new_year : Calendar :=
  {| month_long := fun _ => "January"; day_of_month := fun _ => "1";
     locale_date := fun _ => "1/1/2025" |}.
Definition no_stringify (r : SDKResult) : option string := None.

(** A provider that wraps its JSON answer in prose. *)
Definition chatty_text : string :=
  ("Here is the analysis: " ++ Sample.reply_text "A good day." "happy" ++ " Hope it helps.")%string.
Definition chatty : Env :=
  Sample.scripted (Sample.says chatty_text)
    [(Sample.reply_text "A good day." "happy", Sample.reply_value "A good day." "happy")].

End Fixture.

(** * Properties *)

Local Open Scope list_scope.

(** ** Values *)

Lemma js_or_truthy (a b : JSValue) : truthy b = true -> truthy (js_or a b) = true.
Proof. intros Hb. unfold js_or. destruct (truthy a) eqn:Ha; assumption. Qed.

Lemma normalize_mood_truthy (parsed : JSValue) (a : Analysis) :
  normalize parsed = Ok a -> truthy (mood a) = true.
Proof.
  unfold normalize. intros H.
  destruct (getProp parsed "summary"); [|discriminate].
  destruct (getProp parsed "mood"); [|discriminate].
  injection H as <-. simpl. now apply js_or_truthy.
Qed.

(** ** The analyzers: effects on the world *)

Lemma journal_js_try_run (E : Env) (content : JSValue) (w : World) :
  exists w' o, RoutesJournal.analyze_try E content w = (w', o) /\
    same_store w w' /\ calls w' = calls w ++ [RoutesJournal.prompt content] /\
    (forall a, o = Ok a -> truthy (mood a) = true).
Proof.
  unfold RoutesJournal.analyze_try, bind, lift, callProvider. simpl.
  destruct (generateContent E _ _) as [result|e]; simpl.
  2:{ do 2 eexists. split; [reflexivity|]. repeat split; try reflexivity. discriminate. }
  destruct (RoutesJournal.response_text result) as [text|e]; simpl.
  2:{ do 2 eexists. split; [reflexivity|]. repeat split; try reflexivity. discriminate. }
  destruct (JSON_parse E text) as [parsed|e]; simpl.
  2:{ do 2 eexists. split; [reflexivity|]. repeat split; try reflexivity. discriminate. }
  do 2 eexists. split; [reflexivity|]. repeat split; try reflexivity.
  intros a Ha. eapply normalize_mood_truthy; eassumption.
Qed.

(** journal.js: one provider call for every content, and a value. *)
Lemma journal_js_analyze_run (E : Env) (content : JSValue) (w : World) :
  exists w' a, RoutesJournal.analyzeWithAI E content w = (w', Ok a) /\
    same_store w w' /\ calls w' = calls w ++ [RoutesJournal.prompt content] /\
    truthy (mood a) = true /\
    (forall e, RoutesJournal.analyze_try E content w = (w', Throw e) -> a = fallback).
Proof.
  destruct (journal_js_try_run E content w) as (w' & o & Hrun & Hs & Hc & Ht).
  unfold RoutesJournal.analyzeWithAI, try_catch. rewrite Hrun.
  destruct o as [a|e].
  - exists w', a. repeat split; try apply Hs; auto. intros e He. discriminate.
  - exists w', fallback. repeat split; try apply Hs; auto.
Qed.

Lemma initGenAI_run (E : Env) (w : World) :
  exists w' c, Part003.initGenAI E w = (w', Ok c) /\
    same_store w w' /\ calls w' = calls w.
Proof.
  unfold Part003.initGenAI.
  destruct (genAI w) as [c|].
  - exists w, (Some c). repeat split.
  - destruct (Part003.key_set (GEMINI_API_KEY E)); simpl.
    + unfold try_catch, bind, lift, Part003.set_genAI, ret.
      destruct (newGoogleGenerativeAI E (GEMINI_API_KEY E)) as [c|e]; simpl.
      * do 2 eexists. split; [reflexivity|]. now repeat split.
      * do 2 eexists. split; [reflexivity|]. now repeat split.
    + exists w, None. repeat split.
Qed.

Lemma parse_lenient_run (E : Env) (text : string) (w : World) :
  exists v, Part003.parse_lenient E text w = (w, Ok v).
Proof.
  unfold Part003.parse_lenient, try_catch, lift, ret.
  destruct (String.eqb text ""); [eauto|].
  destruct (JSON_parse E text); [eauto|].
  destruct (match_braces text); [|eauto].
  destruct (JSON_parse E s); eauto.
Qed.

Lemma part_003_try_run (E : Env) (c : Client) (content : JSValue) (w : World) :
  exists w' o, Part003.analyze_try E c content w = (w', o) /\
    same_store w w' /\ calls w' = calls w ++ [Part003.prompt content] /\
    (forall a, o = Ok a -> truthy (mood a) = true).
Proof.
  unfold Part003.analyze_try, bind, lift, callProvider. simpl.
  destruct (generateContent E _ _) as [result|e]; simpl.
  2:{ do 2 eexists. split; [reflexivity|]. repeat split; try reflexivity. discriminate. }
  destruct (Part003.extract_text result) as [text|e]; simpl.
  2:{ do 2 eexists. split; [reflexivity|]. repeat split; try reflexivity. discriminate. }
  match goal with |- context [Part003.parse_lenient E text ?w1] =>
    destruct (parse_lenient_run E text w1) as [v ->] end.
  do 2 eexists. split; [reflexivity|]. repeat split; try reflexivity.
  intros a Ha. eapply normalize_mood_truthy; eassumption.
Qed.

(** part_003: a value, with at most one provider call. *)
Lemma part_003_analyze_run (E : Env) (content : JSValue) (w : World) :
  exists w' a, Part003.analyzeWithAI E content w = (w', Ok a) /\
    same_store w w' /\ truthy (mood a) = true.
Proof.
  unfold Part003.analyzeWithAI, bind.
  destruct (initGenAI_run E w) as (w1 & c & -> & Hs & Hc).
  destruct c as [c|].
  2:{ exists w1, fallback. now repeat split; try apply Hs. }
  destruct (truthy content); simpl.
  2:{ exists w1, fallback. now repeat split; try apply Hs. }
  destruct (part_003_try_run E c content w1) as (w' & o & Hrun & Hs' & Hc' & Ht).
  unfold try_catch. rewrite Hrun.
  destruct Hs as (H1 & H2 & H3), Hs' as (H1' & H2' & H3').
  destruct o as [a|e].
  - exists w', a. repeat split; try congruence. now apply Ht.
  - exists w', fallback. repeat split; try congruence.
Qed.

Lemma analyzeWithAI_never_raises (rev : Revision) (E : Env) :
  never_raises (analyzeWithAI rev E).
Proof.
  intros content w. destruct rev; simpl.
  - destruct (journal_js_analyze_run E content w) as (w' & a & H & Hs & _ & Ht & _).
    exists w', a. destruct Hs as (? & ? & ?). auto.
  - destruct (part_003_analyze_run E content w) as (w' & a & H & Hs & Ht).
    exists w', a. destruct Hs as (? & ? & ?). auto.
Qed.

(** ** The store *)

(** [validate] accepts exactly when every check does, and otherwise
    raises a ValidationError for the checks that fail. *)
Lemma validate_cases (E : Env) (d : RawDoc) :
  (exists f, validate E d = Ok f /\
     check_required "title" true (castString E (r_title d)) = Ok (f_title f) /\
     check_required "content" false (castString E (r_content d)) = Ok (f_content f) /\
     check_mood (castString E (r_mood d)) = Ok (f_mood f) /\
     check_default "aiSummary" "" (castString E (r_aiSummary d)) = Ok (f_aiSummary f) /\
     check_default "aiMood" "" (castString E (r_aiMood d)) = Ok (f_aiMood f) /\
     check_tags E (r_tags d) = Ok (f_tags f)) \/
  (exists e, validate E d = Throw e /\
     (failed (check_required "title" true (castString E (r_title d)))
      ++ failed (check_required "content" false (castString E (r_content d)))
      ++ failed (check_mood (castString E (r_mood d)))
      ++ failed (check_default "aiSummary" "" (castString E (r_aiSummary d)))
      ++ failed (check_default "aiMood" "" (castString E (r_aiMood d)))
      ++ failed (check_tags E (r_tags d)) <> [])).
Proof.
  unfold validate.
  destruct (check_required "title" _ _) as [t|e1];
    destruct (check_required "content" _ _) as [c|e2];
    destruct (check_mood _) as [m|e3];
    destruct (check_default "aiSummary" _ _) as [sm|e4];
    destruct (check_default "aiMood" _ _) as [am|e5];
    destruct (check_tags _ _) as [tg|e6];
    try (left; eexists; split; [reflexivity|]; simpl; tauto);
    right; simpl; eexists; (split; [reflexivity|discriminate]).
Qed.

Lemma validate_inv (E : Env) (d : RawDoc) (f : Fields) :
  validate E d = Ok f ->
  check_required "title" true (castString E (r_title d)) = Ok (f_title f) /\
  check_required "content" false (castString E (r_content d)) = Ok (f_content f) /\
  check_mood (castString E (r_mood d)) = Ok (f_mood f) /\
  check_default "aiSummary" "" (castString E (r_aiSummary d)) = Ok (f_aiSummary f) /\
  check_default "aiMood" "" (castString E (r_aiMood d)) = Ok (f_aiMood f).
Proof.
  intros H. destruct (validate_cases E d) as [(f' & Hv & H')|(e & Hv & _)];
    rewrite Hv in H; [|discriminate].
  injection H as <-. tauto.
Qed.

Lemma check_mood_enum (c : Cast) (s : string) : check_mood c = Ok s -> in_enum s = true.
Proof.
  destruct c as [|t|]; simpl; intros H.
  - injection H as <-. reflexivity.
  - destruct (in_enum t) eqn:Ht; [|discriminate]. now injection H as <-.
  - discriminate.
Qed.

(** A truthy value is not an unset path. *)
Lemma truthy_not_absent (E : Env) (v : JSValue) : truthy v = true -> castString E v <> Absent.
Proof.
  destruct v; simpl; try discriminate; intros _;
    try destruct (castOther E _); discriminate.
Qed.

(** When one truthy value is assigned to both [mood] and [aiMood], a
    document that validates is consistent. *)
Lemma validate_consistent (E : Env) (d : RawDoc) (f : Fields) :
  validate E d = Ok f -> r_aiMood d = r_mood d -> castString E (r_mood d) <> Absent ->
  f_mood f = f_aiMood f /\ in_enum (f_mood f) = true.
Proof.
  intros Hv Heq Hn. destruct (validate_inv E d f Hv) as (_ & _ & Hm & _ & Ha).
  split; [|eapply check_mood_enum; eassumption].
  rewrite Heq in Ha.
  destruct (castString E (r_mood d)) as [|s|]; simpl in *; try congruence.
  destruct (in_enum s); congruence.
Qed.

Lemma validate_rejected_mood (E : Env) (d : RawDoc) :
  rejected_mood E (r_mood d) -> exists e, validate E d = Throw e.
Proof.
  unfold rejected_mood. intros H.
  destruct (validate E d) as [f|e] eqn:Hv; [|eauto]. exfalso.
  destruct (validate_inv E d f Hv) as (_ & _ & Hm & _).
  destruct (castString E (r_mood d)) as [|s|]; simpl in *; try easy.
  rewrite H in Hm. discriminate.
Qed.

Lemma find_has_id (id : IdParam) (l : list Journal) (j : Journal) :
  find (has_id id) l = Some j -> id = ObjectId (j_id j) /\ In j l.
Proof.
  intros H. apply find_some in H as [Hin Hid]. split; [|assumption].
  destruct id as [n|raw]; simpl in Hid; [|discriminate].
  apply Nat.eqb_eq in Hid. now subst.
Qed.

(** No journal with the identifier exists exactly when the lookup is null. *)
Lemma find_none_iff (id : JournalId) (l : list Journal) :
  find (has_id (ObjectId id)) l = None <-> (forall j, In j l -> j_id j <> id).
Proof.
  split.
  - intros H j Hin Hid. pose proof (find_none _ _ H j Hin) as Hn.
    simpl in Hn. apply Nat.eqb_neq in Hn. contradiction.
  - intros H. destruct (find (has_id (ObjectId id)) l) as [j|] eqn:Hf; [|reflexivity].
    apply find_has_id in Hf as [Hid Hin]. injection Hid as Hid.
    exfalso. eapply H; [eassumption|]. now symmetry.
Qed.

Lemma find_not_objectid (raw : string) (l : list Journal) :
  find (has_id (NotObjectId raw)) l = None.
Proof. induction l; simpl; auto. Qed.

Lemma find_replace_doc (j j' : Journal) (l : list Journal) :
  find (has_id (ObjectId (j_id j'))) l = Some j ->
  find (has_id (ObjectId (j_id j'))) (replace_doc j' l) = Some j'.
Proof.
  induction l as [|x l IH]; simpl; [discriminate|].
  destruct (Nat.eqb (j_id x) (j_id j')) eqn:Hx.
  - intros _. now rewrite Nat.eqb_refl.
  - intros H. rewrite Hx. auto.
Qed.

Lemma Forall_replace_doc (P : Journal -> Prop) (j' : Journal) (l : list Journal) :
  P j' -> Forall P l -> Forall P (replace_doc j' l).
Proof.
  intros Hj Hl. unfold replace_doc.
  induction Hl as [|x l Hx Hl IH]; simpl; constructor; auto.
  now destruct (Nat.eqb (j_id x) (j_id j')).
Qed.

(** ** The routes, run *)

Lemma post_journal_run (E : Env) (analyze : JSValue -> M Analysis)
      (req : Request) (now : Z) (w w1 : World) (a : Analysis) :
  analyze (field req "content") w = (w1, Ok a) ->
  post_journal E analyze req now w =
    match validate E (create_doc req a) with
    | Ok f =>
        let j := document (next_id w1) (req_user req) f now now in
        (set_journals w1 (journals w1 ++ [j]) (S (next_id w1)),
         Ok (status_json 201 (PJournal j)))
    | Throw e => (w1, Ok (failure e))
    end.
Proof.
  intros Ha. unfold post_journal, try_catch, bind. rewrite Ha.
  unfold Journal_create. destruct (validate E (create_doc req a)); reflexivity.
Qed.

Lemma put_journal_missing (E : Env) (analyze : JSValue -> M Analysis)
      (req : Request) (now : Z) (w : World) (id : JournalId) :
  req_id req = ObjectId id ->
  find (has_id (req_id req)) (journals w) = None ->
  put_journal E analyze req now w = (w, Ok not_found).
Proof.
  intros Hp Hf. unfold put_journal, try_catch, bind, Journal_findById.
  rewrite Hp in Hf |- *. now rewrite Hf.
Qed.

Lemma put_journal_cast (E : Env) (analyze : JSValue -> M Analysis)
      (req : Request) (now : Z) (w : World) (raw : string) :
  req_id req = NotObjectId raw ->
  put_journal E analyze req now w = (w, Ok (failure (objectid_error raw))).
Proof.
  intros Hp. unfold put_journal, try_catch, bind, Journal_findById. now rewrite Hp.
Qed.

Lemma put_journal_none (E : Env) (analyze : JSValue -> M Analysis)
      (req : Request) (now : Z) (w : World) :
  find (has_id (req_id req)) (journals w) = None ->
  put_journal E analyze req now w = (w, Ok (absent (req_id req))).
Proof.
  intros Hf. destruct (req_id req) as [id|raw] eqn:Hp.
  - apply (put_journal_missing E analyze req now w id Hp). now rewrite Hp.
  - apply (put_journal_cast E analyze req now w raw Hp).
Qed.

Lemma put_journal_forbidden (E : Env) (analyze : JSValue -> M Analysis)
      (req : Request) (now : Z) (w : World) (j : Journal) :
  find (has_id (req_id req)) (journals w) = Some j -> not_owner j req = true ->
  put_journal E analyze req now w = (w, Ok forbidden).
Proof.
  intros Hf Ho. unfold put_journal, try_catch, bind, Journal_findById.
  destruct (find_has_id _ _ _ Hf) as [Hp _]. rewrite Hp in Hf |- *.
  now rewrite Hf, Ho.
Qed.

Lemma put_journal_run (E : Env) (analyze : JSValue -> M Analysis)
      (req : Request) (now : Z) (w w1 : World) (j : Journal) (a : Analysis) :
  find (has_id (req_id req)) (journals w) = Some j -> not_owner j req = false ->
  (if content_changed req j then analyze (field req "content") else ret (retained j)) w
    = (w1, Ok a) ->
  put_journal E analyze req now w =
    match validate E (update_doc j req a) with
    | Ok f =>
        if modified j f
        then (set_journals w1 (replace_doc (saved j f now) (journals w1)) (next_id w1),
              Ok (json (PJournal (saved j f now))))
        else (w1, Ok (json (PJournal j)))
    | Throw e => (w1, Ok (failure e))
    end.
Proof.
  intros Hf Ho Ha. unfold put_journal, try_catch, bind, Journal_findById.
  destruct (find_has_id _ _ _ Hf) as [Hp _]. rewrite Hp in Hf |- *.
  rewrite Hf, Ho. unfold put_owned, bind. rewrite Ha.
  unfold journal_save. destruct (validate E (update_doc j req a)) as [f|e]; [|reflexivity].
  now destruct (modified j f).
Qed.

Lemma saved_id (j : Journal) (f : Fields) (now : Z) : j_id (saved j f now) = j_id j.
Proof. unfold saved. now destruct (modified j f). Qed.

Lemma saved_unmodified (j : Journal) (f : Fields) (now : Z) :
  modified j f = false -> saved j f now = j /\ f = paths_of j.
Proof.
  unfold saved, modified. intros H. rewrite H. split; [reflexivity|].
  apply negb_false_iff, bool_decide_eq_true in H. exact H.
Qed.

Lemma get_journal_found (req : Request) (w : World) (j : Journal) :
  find (has_id (req_id req)) (journals w) = Some j ->
  get_journal req w = (w, Ok (if not_owner j req then forbidden else json (PJournal j))).
Proof.
  intros Hf. unfold get_journal, try_catch, bind, Journal_findById.
  destruct (find_has_id _ _ _ Hf) as [Hp _]. rewrite Hp in Hf |- *.
  rewrite Hf. now destruct (not_owner j req).
Qed.

Lemma get_journal_none (req : Request) (w : World) :
  find (has_id (req_id req)) (journals w) = None ->
  get_journal req w = (w, Ok (absent (req_id req))).
Proof.
  intros Hf. unfold get_journal, try_catch, bind, Journal_findById.
  destruct (req_id req) as [id|raw]; [|reflexivity]. now rewrite Hf.
Qed.

Lemma delete_journal_found (req : Request) (w : World) (j : Journal) :
  find (has_id (req_id req)) (journals w) = Some j ->
  delete_journal req w =
    if not_owner j req then (w, Ok forbidden)
    else (set_journals w (List.filter (fun x => negb (has_id (ObjectId (j_id j)) x))
                                      (journals w))
                       (next_id w),
          Ok (json (PMessage "Journal deleted"))).
Proof.
  intros Hf. unfold delete_journal, try_catch, bind, Journal_findById.
  destruct (find_has_id _ _ _ Hf) as [Hp _]. rewrite Hp in Hf |- *.
  rewrite Hf. now destruct (not_owner j req).
Qed.

Lemma delete_journal_none (req : Request) (w : World) :
  find (has_id (req_id req)) (journals w) = None ->
  delete_journal req w = (w, Ok (absent (req_id req))).
Proof.
  intros Hf. unfold delete_journal, try_catch, bind, Journal_findById.
  destruct (req_id req) as [id|raw]; [|reflexivity]. now rewrite Hf.
Qed.

(** What the update hands to [journal.save()] as the enrichment result:
    the analyzer's answer when the content changed, the stored pair
    otherwise; in both cases a value. *)
Lemma update_analysis_run (analyze : JSValue -> M Analysis) (req : Request)
      (j : Journal) (w : World) :
  never_raises analyze ->
  exists w1 a,
    (if content_changed req j then analyze (field req "content") else ret (retained j)) w
      = (w1, Ok a) /\
    journals w1 = journals w /\ challenges w1 = challenges w /\ next_id w1 = next_id w /\
    (content_changed req j = false -> w1 = w /\ a = retained j) /\
    (content_changed req j = true -> truthy (mood a) = true).
Proof.
  intros Htot. destruct (content_changed req j).
  - destruct (Htot (field req "content") w) as (w1 & a & Ha & Ht & H1 & H2 & H3).
    exists w1, a. repeat split; auto; discriminate.
  - exists w, (retained j). repeat split; auto. discriminate.
Qed.

(** ** C1: enrichment never aborts a create or an update *)

(** part_003: a text that neither decode attempt accepts is not an error
    of the [try] block; the empty object stands in for the decoded one. *)
Lemma part_003_undecodable (E : Env) (c : Client) (content : JSValue) (w : World)
      (result : SDKResult) (text : string) (e : Error) :
  generateContent E c (Part003.prompt content) = Ok result ->
  Part003.extract_text result = Ok text ->
  String.eqb text "" = false ->
  JSON_parse E text = Throw e ->
  (forall m, match_braces text = Some m -> exists e', JSON_parse E m = Throw e') ->
  exists w', Part003.analyze_try E c content w = (w', Ok no_summary).
Proof.
  intros Hg Hx Hne Hp Hm.
  unfold Part003.analyze_try, bind, lift, callProvider. rewrite Hg. simpl. rewrite Hx.
  unfold Part003.parse_lenient, try_catch, lift, ret. rewrite Hne, Hp.
  destruct (match_braces text) as [m|] eqn:Hb.
  - destruct (Hm m eq_refl) as [e' ->]. eexists. reflexivity.
  - eexists. reflexivity.
Qed.

Lemma part_003_caught (E : Env) (c : Client) (content : JSValue) (w w' : World) (e : Error) :
  genAI w = Some c -> truthy content = true ->
  Part003.analyze_try E c content w = (w', Throw e) ->
  Part003.analyzeWithAI E content w = (w', Ok fallback).
Proof.
  intros Hc Ht Hrun. unfold Part003.analyzeWithAI, bind, Part003.initGenAI.
  rewrite Hc, Ht. simpl. unfold try_catch. now rewrite Hrun.
Qed.

Lemma journal_js_caught (E : Env) (content : JSValue) (w w' : World) (e : Error) :
  RoutesJournal.analyze_try E content w = (w', Throw e) ->
  RoutesJournal.analyzeWithAI E content w = (w', Ok fallback).
Proof.
  intros Hrun. unfold RoutesJournal.analyzeWithAI, try_catch. now rewrite Hrun.
Qed.

Lemma create_reaches_store (rev : Revision) (E : Env) (req : Request) (now : Z) (w : World) :
  exists w1 a,
    analyzeWithAI rev E (field req "content") w = (w1, Ok a) /\
    ((exists f, validate E (create_doc req a) = Ok f /\
                status_of (create rev E req now w) = Some 201 /\
                journals (fst (create rev E req now w)) =
                  journals w ++ [document (next_id w) (req_user req) f now now])
     \/ (exists e, validate E (create_doc req a) = Throw e /\
                   create rev E req now w = (w1, Ok (failure e)) /\
                   journals w1 = journals w)).
Proof.
  destruct (analyzeWithAI_never_raises rev E (field req "content") w)
    as (w1 & a & Ha & _ & Hj & _ & Hn).
  exists w1, a. split; [assumption|].
  unfold create. rewrite (post_journal_run E _ req now w w1 a Ha).
  destruct (validate E (create_doc req a)) as [f|e].
  - left. exists f. simpl. rewrite Hj, Hn. auto.
  - right. exists e. auto.
Qed.

Lemma update_reaches_store (rev : Revision) (E : Env) (req : Request) (now : Z)
      (w : World) (j : Journal) :
  find (has_id (req_id req)) (journals w) = Some j -> j_user j = req_user req ->
  exists w1 a,
    ((exists f, validate E (update_doc j req a) = Ok f /\
                status_of (update rev E req now w) = Some 200 /\
                find (has_id (req_id req)) (journals (fst (update rev E req now w))) =
                  Some (saved j f now))
     \/ (exists e, validate E (update_doc j req a) = Throw e /\
                   update rev E req now w = (w1, Ok (failure e)) /\
                   journals w1 = journals w)).
Proof.
  intros Hf Hu.
  assert (Ho : not_owner j req = false).
  { unfold not_owner. rewrite Hu, Nat.eqb_refl. reflexivity. }
  destruct (update_analysis_run (analyzeWithAI rev E) req j w
              (analyzeWithAI_never_raises rev E)) as (w1 & a & Ha & Hj & _ & Hn & _ & _).
  exists w1, a. unfold update.
  rewrite (put_journal_run E _ req now w w1 j a Hf Ho Ha).
  destruct (validate E (update_doc j req a)) as [f|e].
  - left. exists f. split; [reflexivity|].
    destruct (modified j f) eqn:Hm.
    + simpl. split; [reflexivity|].
      rewrite Hj. destruct (find_has_id _ _ _ Hf) as [Hid _].
      rewrite Hid in Hf |- *. rewrite <- (saved_id j f now) in Hf |- *.
      now apply find_replace_doc with (j := j).
    + simpl. split; [reflexivity|].
      rewrite Hj, (proj1 (saved_unmodified j f now Hm)). exact Hf.
  - right. exists e. auto.
Qed.

(** C1 (amended).  In both revisions [analyzeWithAI] returns a value for
    every content and every behaviour of the provider and of the decoder,
    and leaves the collections alone.  Every exception raised inside its
    [try] block (provider error, a response without text, a decoded
    [null]; in journal.js also a text that is not JSON) is replaced by the
    fallback [{summary: "AI analysis unavailable", mood: "neutral"}].  In
    part_003 a text that neither decode attempt accepts is not such an
    exception: the result is [{summary: "No summary available", mood:
    "neutral"}].  Hence a create always reaches [Journal.create], and an
    update by the owner always reaches [journal.save()]; each answers 201
    (200) or, exactly when the schema validation of the store rejects the
    document, the catch-all 500 with the collection unchanged. *)
Theorem C1_enrichment_never_aborts (rev : Revision) (E : Env) :
  never_raises (analyzeWithAI rev E) /\
  (forall content w w' e,
      RoutesJournal.analyze_try E content w = (w', Throw e) ->
      RoutesJournal.analyzeWithAI E content w = (w', Ok fallback)) /\
  (forall c content w w' e,
      genAI w = Some c -> truthy content = true ->
      Part003.analyze_try E c content w = (w', Throw e) ->
      Part003.analyzeWithAI E content w = (w', Ok fallback)) /\
  (forall c content w result text e,
      generateContent E c (Part003.prompt content) = Ok result ->
      Part003.extract_text result = Ok text ->
      String.eqb text "" = false ->
      JSON_parse E text = Throw e ->
      (forall m, match_braces text = Some m -> exists e', JSON_parse E m = Throw e') ->
      exists w', Part003.analyze_try E c content w = (w', Ok no_summary)) /\
  (forall req now w, exists w1 a,
      analyzeWithAI rev E (field req "content") w = (w1, Ok a) /\
      ((exists f, validate E (create_doc req a) = Ok f /\
                  status_of (create rev E req now w) = Some 201 /\
                  journals (fst (create rev E req now w)) =
                    journals w ++ [document (next_id w) (req_user req) f now now])
       \/ (exists e, validate E (create_doc req a) = Throw e /\
                     create rev E req now w = (w1, Ok (failure e)) /\
                     journals w1 = journals w))) /\
  (forall req now w j,
      find (has_id (req_id req)) (journals w) = Some j -> j_user j = req_user req ->
      exists w1 a,
        ((exists f, validate E (update_doc j req a) = Ok f /\
                    status_of (update rev E req now w) = Some 200 /\
                    find (has_id (req_id req)) (journals (fst (update rev E req now w))) =
                      Some (saved j f now))
         \/ (exists e, validate E (update_doc j req a) = Throw e /\
                       update rev E req now w = (w1, Ok (failure e)) /\
                       journals w1 = journals w))).
Proof.
  split; [apply analyzeWithAI_never_raises|].
  split; [apply journal_js_caught|].
  split; [apply part_003_caught|].
  split; [apply part_003_undecodable|].
  split; [apply create_reaches_store|apply update_reaches_store].
Qed.

(** The provider is down: journal.js answers with the fallback. *)
Lemma C1_witness :
  exists w',
    RoutesJournal.analyze_try Sample.outage (JStr "Dear diary") Sample.w0
      = (w', Throw (ProviderError "503 Service Unavailable")) /\
    RoutesJournal.analyzeWithAI Sample.outage (JStr "Dear diary") Sample.w0
      = (w', Ok fallback).
Proof.
  eexists. split; [reflexivity|].
  apply (proj1 (proj2 (C1_enrichment_never_aborts JournalJs Sample.outage))
           (JStr "Dear diary") Sample.w0 _ (ProviderError "503 Service Unavailable")).
  reflexivity.
Defined.

(** C1 as stated fails in part_003: the provider answers in prose, the
    strict decode raises, the text holds no braces, and the value returned
    is not the fallback. *)
Lemma C1_counterexample :
  (exists e, JSON_parse Sample.prose "Sorry, I cannot help with that." = Throw e) /\
  match_braces "Sorry, I cannot help with that." = None /\
  (exists w',
      Part003.analyzeWithAI Sample.prose (JStr "Dear diary") Sample.w0
        = (w', Ok no_summary)) /\
  no_summary <> fallback.
Proof.
  split; [eexists; reflexivity|].
  split; [reflexivity|].
  split; [eexists; reflexivity|discriminate].
Qed.

(** ** The collection stays consistent *)

Lemma create_consistent (rev : Revision) (E : Env) (req : Request) (now : Z) (w : World) :
  Forall consistent (journals w) ->
  Forall consistent (journals (fst (create rev E req now w))).
Proof.
  intros Hw.
  destruct (analyzeWithAI_never_raises rev E (field req "content") w)
    as (w1 & a & Ha & Ht & Hj & _ & Hn).
  unfold create. rewrite (post_journal_run E _ req now w w1 a Ha).
  destruct (validate E (create_doc req a)) as [f|e] eqn:Hv; simpl; [|now rewrite Hj].
  rewrite Hj. apply Forall_app. split; [assumption|].
  constructor; [|constructor]. unfold consistent. simpl.
  apply (validate_consistent E _ f Hv); [reflexivity|].
  simpl. now apply truthy_not_absent.
Qed.

Lemma update_consistent (rev : Revision) (E : Env) (req : Request) (now : Z) (w : World) :
  Forall consistent (journals w) ->
  Forall consistent (journals (fst (update rev E req now w))).
Proof.
  intros Hw. unfold update.
  destruct (find (has_id (req_id req)) (journals w)) as [j|] eqn:Hf.
  2:{ now rewrite put_journal_none. }
  destruct (not_owner j req) eqn:Ho.
  { now rewrite (put_journal_forbidden E _ req now w j). }
  destruct (update_analysis_run (analyzeWithAI rev E) req j w
              (analyzeWithAI_never_raises rev E))
    as (w1 & a & Ha & Hj & _ & Hn & Hkeep & Hnew).
  rewrite (put_journal_run E _ req now w w1 j a Hf Ho Ha).
  destruct (validate E (update_doc j req a)) as [f|e] eqn:Hv; simpl; [|now rewrite Hj].
  destruct (modified j f) eqn:Hm; simpl; [|now rewrite Hj].
  rewrite Hj. apply Forall_replace_doc; [|assumption].
  unfold saved. rewrite Hm. unfold consistent. simpl.
  apply (validate_consistent E _ f Hv); [reflexivity|]. simpl.
  destruct (content_changed req j).
  - apply truthy_not_absent. now apply Hnew.
  - destruct (Hkeep eq_refl) as [_ ->]. simpl. discriminate.
Qed.

Lemma delete_consistent (req : Request) (w : World) :
  Forall consistent (journals w) ->
  Forall consistent (journals (fst (delete_journal req w))).
Proof.
  intros Hw.
  destruct (find (has_id (req_id req)) (journals w)) as [j|] eqn:Hf.
  2:{ now rewrite delete_journal_none. }
  rewrite (delete_journal_found req w j Hf).
  destruct (not_owner j req); [assumption|]. simpl.
  apply Forall_forall. intros x Hx. apply list_elem_of_In in Hx.
  apply filter_In in Hx as [Hx _].
  rewrite Forall_forall in Hw. apply Hw. now apply list_elem_of_In.
Qed.

Lemma handle_consistent (rev : Revision) (E : Env) (c : Call) (w : World) :
  Forall consistent (journals w) ->
  Forall consistent (journals (fst (handle rev E c w))).
Proof.
  destruct c; simpl.
  - apply create_consistent.
  - apply update_consistent.
  - apply delete_consistent.
Qed.

Lemma reachable_consistent (w : World) :
  reachable w -> Forall consistent (journals w).
Proof.
  induction 1 as [w Hw|w rev E c Hr IH].
  - rewrite Hw. constructor.
  - now apply handle_consistent.
Qed.

(** ** C2: a decoded mood outside the enum *)

Lemma normalize_fields (parsed s m : JSValue) :
  getProp parsed "summary" = Ok s -> getProp parsed "mood" = Ok m ->
  normalize parsed =
    Ok {| summary := js_or s (JStr "No summary available");
          mood := if truthy m then m else JStr "neutral" |}.
Proof. intros Hs Hm. unfold normalize. now rewrite Hs, Hm. Qed.

Lemma journal_js_decoded (E : Env) (content : JSValue) (w : World)
      (text : string) (parsed : JSValue) (a : Analysis) :
  generateContent E (RoutesJournal.genAI E) (RoutesJournal.prompt content)
    = Ok (ResResponse (RespText (TextReturns text))) ->
  JSON_parse E text = Ok parsed ->
  normalize parsed = Ok a ->
  exists w1, RoutesJournal.analyzeWithAI E content w = (w1, Ok a).
Proof.
  intros Hg Hp Hn.
  unfold RoutesJournal.analyzeWithAI, try_catch, RoutesJournal.analyze_try,
    bind, lift, callProvider.
  rewrite Hg. simpl. rewrite Hp, Hn. eexists. reflexivity.
Qed.

Lemma part_003_decoded (E : Env) (c : Client) (content : JSValue) (w : World)
      (result : SDKResult) (text : string) (parsed : JSValue) (a : Analysis) :
  genAI w = Some c -> truthy content = true ->
  generateContent E c (Part003.prompt content) = Ok result ->
  Part003.extract_text result = Ok text ->
  String.eqb text "" = false ->
  JSON_parse E text = Ok parsed ->
  normalize parsed = Ok a ->
  exists w1, Part003.analyzeWithAI E content w = (w1, Ok a).
Proof.
  intros Hc Ht Hg Hx Hne Hp Hn.
  unfold Part003.analyzeWithAI, bind, Part003.initGenAI. rewrite Hc, Ht. simpl.
  unfold try_catch, Part003.analyze_try, bind, lift, callProvider.
  rewrite Hg. simpl. rewrite Hx.
  unfold Part003.parse_lenient, try_catch, lift. rewrite Hne, Hp. simpl.
  rewrite Hn. eexists. reflexivity.
Qed.

Lemma create_rejected_mood (rev : Revision) (E : Env) (req : Request) (now : Z)
      (w w1 : World) (a : Analysis) :
  analyzeWithAI rev E (field req "content") w = (w1, Ok a) ->
  rejected_mood E (mood a) ->
  exists e, create rev E req now w = (w1, Ok (failure e)) /\ journals w1 = journals w.
Proof.
  intros Ha Hbad.
  destruct (analyzeWithAI_never_raises rev E (field req "content") w)
    as (w1' & a' & Ha' & _ & Hj & _).
  rewrite Ha in Ha'. injection Ha' as <- <-.
  unfold create. rewrite (post_journal_run E _ req now w w1 a Ha).
  destruct (validate_rejected_mood E (create_doc req a) Hbad) as [e ->].
  exists e. auto.
Qed.

Lemma update_rejected_mood (rev : Revision) (E : Env) (req : Request) (now : Z)
      (w w1 : World) (j : Journal) (a : Analysis) :
  find (has_id (req_id req)) (journals w) = Some j -> j_user j = req_user req ->
  content_changed req j = true ->
  analyzeWithAI rev E (field req "content") w = (w1, Ok a) ->
  rejected_mood E (mood a) ->
  exists e, update rev E req now w = (w1, Ok (failure e)) /\ journals w1 = journals w.
Proof.
  intros Hf Hu Hch Ha Hbad.
  assert (Ho : not_owner j req = false).
  { unfold not_owner. rewrite Hu, Nat.eqb_refl. reflexivity. }
  destruct (analyzeWithAI_never_raises rev E (field req "content") w)
    as (w1' & a' & Ha' & _ & Hj & _).
  rewrite Ha in Ha'. injection Ha' as <- <-.
  unfold update. rewrite (put_journal_run E _ req now w w1 j a Hf Ho).
  2:{ now rewrite Hch. }
  destruct (validate_rejected_mood E (update_doc j req a) Hbad) as [e ->].
  exists e. auto.
Qed.

(** C2 (amended).  A decoded mood is replaced by "neutral" only when it
    is missing or falsy; a truthy one is returned by [analyzeWithAI] as it
    is, whether or not it belongs to the enum.  Create and update assign the
    returned value to both [mood] and [aiMood]; when the [mood] path of the
    schema rejects it (its string cast is outside the enum, or it has no
    string cast), the write is refused: the route answers the catch-all 500
    and the collection is unchanged, so nothing is stored, neither the
    value nor "neutral".  Every journal the routes do store has a mood of
    the enum, equal to its aiMood. *)
Theorem C2_out_of_enum_mood_is_rejected_by_the_store (rev : Revision) (E : Env) :
  (forall parsed s m,
      getProp parsed "summary" = Ok s -> getProp parsed "mood" = Ok m ->
      normalize parsed =
        Ok {| summary := js_or s (JStr "No summary available");
              mood := if truthy m then m else JStr "neutral" |}) /\
  (forall content w text parsed a,
      generateContent E (RoutesJournal.genAI E) (RoutesJournal.prompt content)
        = Ok (ResResponse (RespText (TextReturns text))) ->
      JSON_parse E text = Ok parsed ->
      normalize parsed = Ok a ->
      exists w1, RoutesJournal.analyzeWithAI E content w = (w1, Ok a)) /\
  (forall c content w result text parsed a,
      genAI w = Some c -> truthy content = true ->
      generateContent E c (Part003.prompt content) = Ok result ->
      Part003.extract_text result = Ok text ->
      String.eqb text "" = false ->
      JSON_parse E text = Ok parsed ->
      normalize parsed = Ok a ->
      exists w1, Part003.analyzeWithAI E content w = (w1, Ok a)) /\
  (forall req now w w1 a,
      analyzeWithAI rev E (field req "content") w = (w1, Ok a) ->
      rejected_mood E (mood a) ->
      exists e, create rev E req now w = (w1, Ok (failure e)) /\
                journals w1 = journals w) /\
  (forall req now w w1 j a,
      find (has_id (req_id req)) (journals w) = Some j -> j_user j = req_user req ->
      content_changed req j = true ->
      analyzeWithAI rev E (field req "content") w = (w1, Ok a) ->
      rejected_mood E (mood a) ->
      exists e, update rev E req now w = (w1, Ok (failure e)) /\
                journals w1 = journals w) /\
  (forall c w,
      Forall consistent (journals w) ->
      Forall consistent (journals (fst (handle rev E c w)))).
Proof.
  split; [apply normalize_fields|].
  split; [apply journal_js_decoded|].
  split; [apply part_003_decoded|].
  split; [apply create_rejected_mood|].
  split; [apply update_rejected_mood|apply handle_consistent].
Qed.

(** The provider answers "melancholy": the create is refused. *)
Lemma C2_witness :
  exists w1 e,
    rejected_mood Sample.gloomy (JStr "melancholy") /\
    create Part003Js Sample.gloomy (Sample.entry_request Sample.alice "Monday" "Rain.")
           5 Sample.w0 = (w1, Ok (failure e)) /\
    journals w1 = [].
Proof.
  pose proof (proj1 (proj2 (proj2 (proj2
    (C2_out_of_enum_mood_is_rejected_by_the_store Part003Js Sample.gloomy))))) as H.
  edestruct (H (Sample.entry_request Sample.alice "Monday" "Rain.") 5 Sample.w0)
    as (e & He & Hj).
  - reflexivity.
  - reflexivity.
  - eexists _, e. split; [reflexivity|]. split; [exact He|exact Hj].
Defined.

(** C2 as stated fails in both revisions: the decoded mood "melancholy" is
    outside the enum, and neither route stores "neutral".  The create
    answers 500 with the enum error and stores nothing; the update answers
    the same and the stored
    journal keeps the mood "happy". *)
Lemma C2_counterexample :
  in_enum "melancholy" = false /\
  JSON_parse Sample.gloomy (Sample.reply_text "A grey day." "melancholy")
    = Ok (Sample.reply_value "A grey day." "melancholy") /\
  (snd (create JournalJs Sample.gloomy Sample.monday 5 Sample.w0) = Ok (failure (enum_error "melancholy")) /\
   journals (fst (create JournalJs Sample.gloomy Sample.monday 5 Sample.w0)) = []) /\
  (snd (create Part003Js Sample.gloomy Sample.monday 5 Sample.w0) = Ok (failure (enum_error "melancholy")) /\
   journals (fst (create Part003Js Sample.gloomy Sample.monday 5 Sample.w0)) = []) /\
  (snd (update JournalJs Sample.gloomy Sample.rewrite_request 9 Sample.diary) = Ok (failure (enum_error "melancholy")) /\
   map j_mood (journals (fst (update JournalJs Sample.gloomy Sample.rewrite_request 9 Sample.diary)))
     = ["happy"]) /\
  (snd (update Part003Js Sample.gloomy Sample.rewrite_request 9 Sample.diary) = Ok (failure (enum_error "melancholy")) /\
   map j_mood (journals (fst (update Part003Js Sample.gloomy Sample.rewrite_request 9 Sample.diary)))
     = ["happy"]).
Proof. repeat split; vm_compute; reflexivity. Qed.

(** ** C3: an update that does not change the content *)

Lemma same_content_unchanged (req : Request) (j : Journal) :
  same_content req j -> content_changed req j = false.
Proof.
  unfold same_content, content_changed. intros [-> | ->]; simpl; [reflexivity|].
  rewrite String.eqb_refl. simpl. apply andb_false_r.
Qed.

(** [content || journal.content] is the stored content when the content
    did not change. *)
Lemma unchanged_content_value (req : Request) (j : Journal) :
  content_changed req j = false ->
  js_or (field req "content") (JStr (j_content j)) = JStr (j_content j).
Proof.
  unfold content_changed, js_or. intros H.
  destruct (truthy (field req "content")) eqn:Ht; [|reflexivity].
  simpl in H. destruct (field req "content"); simpl in H; try discriminate.
  apply negb_false_iff, String.eqb_eq in H. now subst.
Qed.

Lemma update_keeps (rev : Revision) (E : Env) (req : Request) (now : Z)
      (w : World) (j : Journal) :
  find (has_id (req_id req)) (journals w) = Some j ->
  j_mood j = j_aiMood j ->
  content_changed req j = false ->
  exists j',
    find (has_id (req_id req)) (journals (fst (update rev E req now w))) = Some j' /\
    j_content j' = j_content j /\ enrichment j' = enrichment j.
Proof.
  intros Hf Hm Hch. unfold update.
  destruct (not_owner j req) eqn:Ho.
  { rewrite (put_journal_forbidden E _ req now w j Hf Ho). exists j. auto. }
  destruct (update_analysis_run (analyzeWithAI rev E) req j w
              (analyzeWithAI_never_raises rev E))
    as (w1 & a & Ha & _ & _ & _ & Hkeep & _).
  destruct (Hkeep Hch) as [-> ->].
  rewrite (put_journal_run E _ req now w w j _ Hf Ho Ha).
  destruct (validate E (update_doc j req (retained j))) as [f|e] eqn:Hv; simpl.
  2:{ exists j. auto. }
  destruct (modified j f) eqn:Hmod; simpl.
  2:{ exists j. auto. }
  destruct (validate_inv E _ f Hv) as (_ & Hc & Hmood & Hs & Ham).
  simpl in Hc, Hmood, Hs, Ham.
  rewrite (unchanged_content_value req j Hch) in Hc. simpl in Hc.
  destruct (String.eqb (j_content j) ""); [discriminate|].
  destruct (in_enum (j_aiMood j)); [|discriminate].
  injection Hc as Hc. injection Hmood as Hmood. injection Hs as Hs. injection Ham as Ham.
  destruct (find_has_id _ _ _ Hf) as [Hid _].
  exists (saved j f now). split.
  - rewrite Hid in Hf |- *. rewrite <- (saved_id j f now) in Hf |- *.
    now apply find_replace_doc with (j := j).
  - unfold saved. rewrite Hmod. unfold enrichment. simpl.
    split; [congruence|]. rewrite <- Hs, <- Ham, <- Hmood, Hm.
    reflexivity.
Qed.

Lemma updates_keep (rev : Revision) (E : Env) (req : Request) (nows : list Z) :
  forall (w : World) (j : Journal),
    find (has_id (req_id req)) (journals w) = Some j ->
    j_mood j = j_aiMood j ->
    content_changed req j = false ->
    exists j',
      find (has_id (req_id req)) (journals (updates rev E req nows w)) = Some j' /\
      j_content j' = j_content j /\ enrichment j' = enrichment j.
Proof.
  induction nows as [|now nows IH]; intros w j Hf Hm Hch; simpl.
  - exists j. auto.
  - destruct (update_keeps rev E req now w j Hf Hm Hch) as (j1 & Hf1 & Hc1 & He1).
    unfold enrichment in He1. injection He1 as Hs1 Ha1 Hm1.
    destruct (IH (fst (update rev E req now w)) j1 Hf1) as (j' & Hf' & Hc' & He').
    + congruence.
    + unfold content_changed in *. now rewrite Hc1.
    + exists j'. split; [exact Hf'|]. split; [congruence|].
      rewrite He'. unfold enrichment. congruence.
Qed.

(** C3.  In every world the routes can produce, an update request whose
    content is absent or equal to the stored content, applied once or any
    number of times in a row, leaves the [aiSummary], [aiMood] and [mood] of
    the journal it names as they were (whoever sends it, and whether or not
    the store accepts the other fields). *)
Theorem C3_update_with_unchanged_content_keeps_enrichment
        (rev : Revision) (E : Env) (w : World) (req : Request) (j : Journal) (nows : list Z) :
  reachable w ->
  find (has_id (req_id req)) (journals w) = Some j ->
  same_content req j ->
  exists j',
    find (has_id (req_id req)) (journals (updates rev E req nows w)) = Some j' /\
    j_aiSummary j' = j_aiSummary j /\
    j_aiMood j' = j_aiMood j /\
    j_mood j' = j_mood j.
Proof.
  intros Hr Hf Hsame.
  pose proof (reachable_consistent w Hr) as Hall.
  destruct (find_has_id _ _ _ Hf) as [_ Hin].
  rewrite Forall_forall in Hall.
  destruct (Hall j (proj2 (list_elem_of_In _ _) Hin)) as [Hm _].
  destruct (updates_keep rev E req nows w j Hf Hm (same_content_unchanged req j Hsame))
    as (j' & Hf' & _ & He').
  unfold enrichment in He'. injection He' as Hs Ha Hmd.
  exists j'. auto.
Qed.

(** Alice creates a journal, then retitles it three times. *)
Lemma C3_witness :
  exists j',
    find (has_id (ObjectId 0%nat))
         (journals (updates Part003Js Sample.sunny Sample.retitle [6; 7; 8] Sample.sunny_world))
      = Some j' /\
    j_aiSummary j' = "A good day." /\ j_aiMood j' = "happy" /\ j_mood j' = "happy".
Proof.
  apply (C3_update_with_unchanged_content_keeps_enrichment
           Part003Js Sample.sunny Sample.sunny_world Sample.retitle Sample.sunny_entry
           [6; 7; 8]).
  - apply (reachable_call Sample.w0 Part003Js Sample.sunny (Create Sample.monday 5)).
    apply reachable_empty. reflexivity.
  - reflexivity.
  - left. reflexivity.
Defined.

(** ** C5: Forbidden and NotFound *)

Lemma unknown_iff (req : Request) (w : World) :
  unknown req w <->
  (exists id, req_id req = ObjectId id) /\ find (has_id (req_id req)) (journals w) = None.
Proof.
  unfold unknown. split.
  - intros (id & Hp & Hn). split; [eauto|]. rewrite Hp. now apply find_none_iff.
  - intros ((id & Hp) & Hf). exists id. split; [assumption|].
    rewrite Hp in Hf. now apply find_none_iff.
Qed.

Lemma absent_status (req : Request) (w : World) :
  find (has_id (req_id req)) (journals w) = None ->
  status (absent (req_id req)) = 404 <-> unknown req w.
Proof.
  intros Hf. rewrite unknown_iff. destruct (req_id req) as [id|raw]; simpl.
  - split; [eauto|reflexivity].
  - split; [discriminate|]. intros ((id & H) & _). discriminate.
Qed.

Lemma get_status_404 (req : Request) (w : World) :
  status_of (get_journal req w) = Some 404 <-> unknown req w.
Proof.
  destruct (find (has_id (req_id req)) (journals w)) as [j|] eqn:Hf.
  - rewrite (get_journal_found req w j Hf), unknown_iff, Hf. unfold status_of. simpl.
    destruct (not_owner j req); simpl; split; try discriminate; now intros [_ H].
  - rewrite (get_journal_none req w Hf), <- (absent_status req w Hf).
    unfold status_of. simpl. split; congruence.
Qed.

Lemma delete_status_404 (req : Request) (w : World) :
  status_of (delete_journal req w) = Some 404 <-> unknown req w.
Proof.
  destruct (find (has_id (req_id req)) (journals w)) as [j|] eqn:Hf.
  - rewrite (delete_journal_found req w j Hf), unknown_iff, Hf. unfold status_of.
    destruct (not_owner j req); simpl; split; try discriminate; now intros [_ H].
  - rewrite (delete_journal_none req w Hf), <- (absent_status req w Hf).
    unfold status_of. simpl. split; congruence.
Qed.

Lemma update_status_404 (rev : Revision) (E : Env) (req : Request) (now : Z) (w : World) :
  status_of (update rev E req now w) = Some 404 <-> unknown req w.
Proof.
  unfold update.
  destruct (find (has_id (req_id req)) (journals w)) as [j|] eqn:Hf.
  2:{ rewrite put_journal_none by assumption. rewrite <- (absent_status req w Hf).
      unfold status_of. simpl. split; congruence. }
  rewrite unknown_iff, Hf.
  destruct (not_owner j req) eqn:Ho.
  { rewrite (put_journal_forbidden E _ req now w j Hf Ho).
    split; [discriminate|now intros [_ H]]. }
  destruct (update_analysis_run (analyzeWithAI rev E) req j w
              (analyzeWithAI_never_raises rev E)) as (w1 & a & Ha & _).
  rewrite (put_journal_run E _ req now w w1 j a Hf Ho Ha).
  destruct (validate E (update_doc j req a)) as [f|e].
  - destruct (modified j f); split; try discriminate; now intros [_ H].
  - split; [discriminate|now intros [_ H]].
Qed.

Lemma not_owner_iff (j : Journal) (req : Request) :
  not_owner j req = true <-> j_user j <> req_user req.
Proof.
  unfold not_owner. rewrite negb_true_iff. apply Nat.eqb_neq.
Qed.

(** C5 (amended).  When the journal the request names exists and the
    acting user is not its owner, GET, PUT and DELETE each answer 403 "Not
    authorized" and leave the world as it was.  Each answers 404 exactly
    when the requested id is a well-formed ObjectId that no journal has.
    When the id is not a well-formed ObjectId, the lookup raises its cast
    error and each route answers through the catch-all, with status 500 and
    the message of the error, leaving the world as it was. *)
Theorem C5_forbidden_is_distinguished_from_not_found
        (rev : Revision) (E : Env) (req : Request) (now : Z) (w : World) :
  (forall j,
      find (has_id (req_id req)) (journals w) = Some j ->
      j_user j <> req_user req ->
      get_journal req w = (w, Ok forbidden) /\
      update rev E req now w = (w, Ok forbidden) /\
      delete_journal req w = (w, Ok forbidden)) /\
  (status_of (get_journal req w) = Some 404 <->
   exists id, req_id req = ObjectId id /\
              forall j, In j (journals w) -> j_id j <> id) /\
  (status_of (update rev E req now w) = Some 404 <->
   exists id, req_id req = ObjectId id /\
              forall j, In j (journals w) -> j_id j <> id) /\
  (status_of (delete_journal req w) = Some 404 <->
   exists id, req_id req = ObjectId id /\
              forall j, In j (journals w) -> j_id j <> id) /\
  (forall raw,
      req_id req = NotObjectId raw ->
      get_journal req w = (w, Ok (failure (objectid_error raw))) /\
      update rev E req now w = (w, Ok (failure (objectid_error raw))) /\
      delete_journal req w = (w, Ok (failure (objectid_error raw))) /\
      status (failure (objectid_error raw)) = 500).
Proof.
  split; [|split; [|split; [|split]]].
  - intros j Hf Hu. apply not_owner_iff in Hu. repeat split.
    + now rewrite (get_journal_found req w j Hf), Hu.
    + now apply put_journal_forbidden with (j := j).
    + now rewrite (delete_journal_found req w j Hf), Hu.
  - apply get_status_404.
  - apply update_status_404.
  - apply delete_status_404.
  - intros raw Hp.
    assert (Hf : find (has_id (req_id req)) (journals w) = None)
      by (rewrite Hp; apply find_not_objectid).
    rewrite (get_journal_none req w Hf), (delete_journal_none req w Hf).
    unfold update. rewrite (put_journal_none E _ req now w Hf), Hp.
    repeat split.
Qed.

(** Bob asks for, edits and deletes alice's journal: 403 each time. *)
Lemma C5_witness :
  get_journal Sample.intruder Sample.diary = (Sample.diary, Ok forbidden) /\
  update Part003Js Sample.sunny Sample.intruder 9 Sample.diary = (Sample.diary, Ok forbidden) /\
  delete_journal Sample.intruder Sample.diary = (Sample.diary, Ok forbidden).
Proof.
  apply (proj1 (C5_forbidden_is_distinguished_from_not_found
                  Part003Js Sample.sunny Sample.intruder 9 Sample.diary)
           (Sample.entry 0%nat Sample.alice "happy" 1)).
  - reflexivity.
  - discriminate.
Defined.

(** C5 as stated fails in its last clause: no journal has the id "42",
    and GET, PUT and DELETE of /api/journals/42 answer 500, not 404. *)
Lemma C5_counterexample :
  (forall j, In j (journals Sample.diary) -> has_id (req_id Sample.malformed) j = false) /\
  status_of (get_journal Sample.malformed Sample.diary) = Some 500 /\
  status_of (update JournalJs Sample.sunny Sample.malformed 9 Sample.diary) = Some 500 /\
  status_of (update Part003Js Sample.sunny Sample.malformed 9 Sample.diary) = Some 500 /\
  status_of (delete_journal Sample.malformed Sample.diary) = Some 500 /\
  get_journal Sample.malformed Sample.diary
    = (Sample.diary,
       Ok (status_json 500
             (PMessage ("Cast to ObjectId failed for value " ++ quoted "42"
                        ++ " (type string) at path " ++ quoted "_id"
                        ++ " for model " ++ quoted "Journal")%string))).
Proof. repeat split. Qed.

(** ** C6: empty and whitespace-only content *)

Lemma part_003_falsy_content (E : Env) (content : JSValue) (w : World) :
  truthy content = false ->
  exists w', Part003.analyzeWithAI E content w = (w', Ok fallback) /\ calls w' = calls w.
Proof.
  intros Ht. unfold Part003.analyzeWithAI, bind.
  destruct (initGenAI_run E w) as (w1 & c & -> & _ & Hc).
  exists w1. rewrite Ht. simpl. now destruct c.
Qed.

Lemma part_003_truthy_content (E : Env) (c : Client) (content : JSValue) (w w1 : World) :
  Part003.initGenAI E w = (w1, Ok (Some c)) ->
  truthy content = true ->
  exists w' a, Part003.analyzeWithAI E content w = (w', Ok a) /\
               calls w' = calls w ++ [Part003.prompt content].
Proof.
  intros Hi Ht. unfold Part003.analyzeWithAI, bind.
  destruct (initGenAI_run E w) as (w1' & c' & Hi' & _ & Hc).
  rewrite Hi in Hi'. injection Hi' as <- <-. rewrite Hi, Ht. simpl.
  destruct (part_003_try_run E c content w1) as (w' & o & Hrun & _ & Hc' & _).
  unfold try_catch. rewrite Hrun. rewrite Hc in Hc'.
  destruct o as [a|e]; eauto.
Qed.

Lemma non_empty_truthy (s : string) : s <> "" -> truthy (JStr s) = true.
Proof.
  intros H. simpl. apply negb_true_iff. now apply String.eqb_neq.
Qed.

(** C6 (amended).  part_003 short-circuits on [!content]: for the empty
    string, as for any falsy content, [analyzeWithAI] returns the fallback
    and sends nothing to the provider.  A string that is not empty is not
    trimmed or inspected: whitespace-only or not, once a client is available
    exactly one prompt carrying it is sent.  journal.js has no short-circuit:
    every content, the empty string included, is sent to the provider. *)
Theorem C6_only_falsy_content_short_circuits (E : Env) (w : World) :
  (forall content,
      truthy content = false ->
      exists w', Part003.analyzeWithAI E content w = (w', Ok fallback) /\
                 calls w' = calls w) /\
  (forall c w1 s,
      Part003.initGenAI E w = (w1, Ok (Some c)) ->
      s <> "" ->
      exists w' a, Part003.analyzeWithAI E (JStr s) w = (w', Ok a) /\
                   calls w' = calls w ++ [Part003.prompt (JStr s)]) /\
  (forall content,
      exists w' a, RoutesJournal.analyzeWithAI E content w = (w', Ok a) /\
                   calls w' = calls w ++ [RoutesJournal.prompt content]).
Proof.
  split; [intros content; apply part_003_falsy_content|].
  split.
  - intros c w1 s Hi Hs. apply part_003_truthy_content with (c := c) (w1 := w1); auto.
    now apply non_empty_truthy.
  - intros content.
    destruct (journal_js_analyze_run E content w) as (w' & a & H & _ & Hc & _).
    eauto.
Qed.

(** The empty string under part_003: the fallback, and no call. *)
Lemma C6_witness :
  exists w', Part003.analyzeWithAI Sample.sunny (JStr "") Sample.w0 = (w', Ok fallback) /\
             calls w' = [].
Proof.
  apply (proj1 (C6_only_falsy_content_short_circuits Sample.sunny Sample.w0) (JStr "")).
  reflexivity.
Defined.

(** C6 as stated fails: under part_003 three spaces are sent to the
    provider and its answer is returned; under journal.js so is the empty
    string. *)
Lemma C6_counterexample :
  (exists w',
      Part003.analyzeWithAI Sample.sunny (JStr "   ") Sample.w0
        = (w', Ok {| summary := JStr "A good day."; mood := JStr "happy" |}) /\
      calls w' = [Part003.prompt (JStr "   ")]) /\
  (exists w',
      RoutesJournal.analyzeWithAI Sample.sunny (JStr "") Sample.w0
        = (w', Ok {| summary := JStr "A good day."; mood := JStr "happy" |}) /\
      calls w' = [RoutesJournal.prompt (JStr "")]) /\
  {| summary := JStr "A good day."; mood := JStr "happy" |} <> fallback.
Proof.
  split; [eexists; split; reflexivity|].
  split; [eexists; split; reflexivity|discriminate].
Qed.

(** ** C7: a create request without title or content *)

Lemma validate_missing_required (E : Env) (d : RawDoc) :
  missing_or_empty (r_title d) \/ missing_or_empty (r_content d) ->
  exists e, validate E d = Throw e.
Proof.
  intros H.
  destruct (validate_cases E d) as [(f & _ & Ht & Hc & _)|(e & Hv & _)]; [|eauto].
  exfalso. destruct H as [[H|H]|[H|H]]; rewrite H in *; discriminate.
Qed.

(** Each check refuses with a ValidationError. *)
Lemma check_required_kind (path : string) (dotrim : bool) (c : Cast) (e : Error) :
  check_required path dotrim c = Throw e -> exists msg, e = ValidationError msg.
Proof.
  destruct c as [|s|]; simpl; intros H; try (injection H as <-; eexists; reflexivity).
  destruct (String.eqb _ ""); [|discriminate]. injection H as <-. eexists. reflexivity.
Qed.

Lemma check_mood_kind (c : Cast) (e : Error) :
  check_mood c = Throw e -> exists msg, e = ValidationError msg.
Proof.
  destruct c as [|s|]; simpl; intros H; try discriminate;
    try (injection H as <-; eexists; reflexivity).
  destruct (in_enum s); [discriminate|]. injection H as <-. eexists. reflexivity.
Qed.

Lemma check_default_kind (path dflt : string) (c : Cast) (e : Error) :
  check_default path dflt c = Throw e -> exists msg, e = ValidationError msg.
Proof.
  destruct c; simpl; intros H; try discriminate. injection H as <-. eexists. reflexivity.
Qed.

Lemma check_tags_kind (E : Env) (v : JSValue) (e : Error) :
  check_tags E v = Throw e -> exists msg, e = ValidationError msg.
Proof.
  unfold check_tags. intros H.
  destruct v; try discriminate;
    destruct (castTagList E _); try discriminate;
    injection H as <-; eexists; reflexivity.
Qed.

(** Whatever the schema refuses, it refuses with a ValidationError. *)
Lemma validate_error_kind (E : Env) (d : RawDoc) (e : Error) :
  validate E d = Throw e -> exists msg, e = ValidationError msg.
Proof.
  unfold validate.
  destruct (check_required "title" true _) as [t|e1] eqn:H1;
    destruct (check_required "content" false _) as [c|e2] eqn:H2;
    destruct (check_mood _) as [m|e3] eqn:H3;
    destruct (check_default "aiSummary" "" _) as [sm|e4] eqn:H4;
    destruct (check_default "aiMood" "" _) as [am|e5] eqn:H5;
    destruct (check_tags E (r_tags d)) as [tg|e6] eqn:H6;
    simpl; intros H; try discriminate H; injection H as <-;
    eauto using check_required_kind, check_mood_kind, check_default_kind, check_tags_kind.
Qed.

(** C7 (amended).  The create route does not look at [title] or
    [content] itself.  The enrichment runs first; [Journal.create] then
    fails the schema validation, and the route answers through its single
    catch-all: status 500 with the message of the error, the outcome of
    every other failure of the store, and nothing is stored. *)
Theorem C7_missing_field_is_a_generic_500
        (rev : Revision) (E : Env) (req : Request) (now : Z) (w : World) :
  (missing_or_empty (field req "title") \/ missing_or_empty (field req "content") ->
   exists w1 a msg,
     analyzeWithAI rev E (field req "content") w = (w1, Ok a) /\
     validate E (create_doc req a) = Throw (ValidationError msg) /\
     create rev E req now w = (w1, Ok (failure (ValidationError msg))) /\
     journals w1 = journals w) /\
  (forall e w', on_error e w' = (w', Ok (failure e)) /\ status (failure e) = 500).
Proof.
  destruct (analyzeWithAI_never_raises rev E (field req "content") w)
    as (w1 & a & Ha & _ & Hj & _).
  split.
  - intros Hm.
    destruct (validate_missing_required E (create_doc req a) Hm) as [e He].
    destruct (validate_error_kind E _ e He) as [msg ->].
    exists w1, a, msg. split; [assumption|]. split; [assumption|].
    unfold create. rewrite (post_journal_run E _ req now w w1 a Ha), He. auto.
  - intros e w'. split; reflexivity.
Qed.

(** Alice posts a journal without a title. *)
Lemma C7_witness :
  exists w1 a msg,
    analyzeWithAI JournalJs Sample.sunny (field Sample.untitled "content") Sample.w0
      = (w1, Ok a) /\
    validate Sample.sunny (create_doc Sample.untitled a) = Throw (ValidationError msg) /\
    create JournalJs Sample.sunny Sample.untitled 5 Sample.w0
      = (w1, Ok (failure (ValidationError msg))) /\
    journals w1 = [].
Proof.
  apply (proj1 (C7_missing_field_is_a_generic_500
                  JournalJs Sample.sunny Sample.untitled 5 Sample.w0)).
  left. left. reflexivity.
Defined.

(** C7 as stated fails: for a create without a title the provider is
    called first, and the answer is the one the catch-all gives for the
    error the store raised, with status 500. *)
Lemma C7_counterexample :
  exists w',
    create JournalJs Sample.sunny Sample.untitled 5 Sample.w0
      = (w', Ok (failure (required_error "title"))) /\
    calls w' = [RoutesJournal.prompt (JStr "Rain.")] /\
    on_error (required_error "title") w' = (w', Ok (failure (required_error "title"))) /\
    status_of (create JournalJs Sample.sunny Sample.untitled 5 Sample.w0) = Some 500 /\
    status_of (create Part003Js Sample.sunny Sample.untitled 5 Sample.w0) = Some 500.
Proof. eexists. repeat split. Qed.

(** ** C10: the challenge submission *)

(** C10.  Whatever the request carries, the challenge submission answers
    200 with [{success: true, message: "Challenge completed!", points: 10}]
    and leaves the world as it was: no journal and no challenge record is
    created or changed, so the unique index on (user, date) is never put to
    the test, however often one user submits on a day. *)
Theorem C10_challenge_submit_is_stateless (req : Request) (now : Z) (w : World) :
  post_challenge_submit req now w
    = (w, Ok {| status := 200; payload := PChallenge true "Challenge completed!" 10 |}) /\
  challenges (fst (post_challenge_submit req now (fst (post_challenge_submit req now w))))
    = challenges w.
Proof. split; reflexivity. Qed.

(** ** C8: the weekly aggregate *)

Lemma bump_lookup (stats : gmap Z nat) (date d : Z) :
  bump stats date !! d =
    if date =? d then Some (default 0%nat (stats !! d) + 1)%nat else stats !! d.
Proof.
  unfold bump. destruct (Z.eqb_spec date d) as [->|Hne].
  - now rewrite lookup_insert_eq.
  - now rewrite lookup_insert_ne.
Qed.

Lemma fold_bump_lookup (js : list Journal) :
  forall (acc : gmap Z nat) (d : Z),
    fold_left (fun stats j => bump stats (iso_day (j_createdAt j))) js acc !! d =
      match count_on d js with
      | O => acc !! d
      | S n => Some (default 0%nat (acc !! d) + S n)%nat
      end.
Proof.
  unfold count_on.
  induction js as [|j js IH]; intros acc d; simpl; [reflexivity|].
  rewrite IH, bump_lookup.
  destruct (iso_day (j_createdAt j) =? d); simpl.
  - destruct (length _); simpl; f_equal; lia.
  - reflexivity.
Qed.

Lemma group_by_day_lookup (js : list Journal) (d : Z) :
  group_by_day js !! d =
    match count_on d js with O => None | S n => Some (S n) end.
Proof.
  unfold group_by_day. rewrite fold_bump_lookup, lookup_empty. reflexivity.
Qed.

Lemma count_on_query (u : UserId) (since d : Z) (js : list Journal) :
  count_on d (List.filter (weekly_query u since) js) = weekly_count u since d js.
Proof.
  unfold count_on, weekly_count.
  induction js as [|j js IH]; simpl; [reflexivity|].
  destruct (weekly_query u since j); simpl; [|assumption].
  destruct (iso_day (j_createdAt j) =? d); simpl; now rewrite IH.
Qed.

(** In a zone without clock changes the dates are plain arithmetic. *)
Lemma setHours0_fixed (tz t : Z) : setHours0 (fixed tz) t = t - (t + tz) mod day_ms.
Proof.
  unfold setHours0, UTC, LocalTime. simpl.
  assert (Hd : day_ms <> 0) by (unfold day_ms; lia).
  pose proof (Z.div_mod (t + tz) day_ms Hd). lia.
Qed.

Lemma local_day_fixed (tz t : Z) : local_day (fixed tz) t = (t + tz) / day_ms.
Proof. reflexivity. Qed.

Lemma setDate_back_fixed (tz k t : Z) : setDate_back (fixed tz) k t = t - k * day_ms.
Proof. unfold setDate_back, UTC, LocalTime. simpl. ring. Qed.


(** Slot [i] of the chart counts the entries of the local day [6 - i] days
    before today. *)
(** Slot [i] of the chart counts the entries on the local day of the date
    reached by going [6 - i] calendar days back. *)
Lemma weeklyData_chart_days (z : Zone) (now : Z) (js : list Journal) :
  map App.entries (App.weeklyData z now js) =
    map (fun d => count_local z d js) (chart_days z now).
Proof.
  unfold App.weeklyData, chart_days. rewrite !map_map. apply map_ext. intros i. simpl.
  unfold count_local, App.same_local_day. reflexivity.
Qed.



(** How far [sevenDaysAgo] lies from 7 x 24 hours before now: by the
    difference of the offset in force now and the offset by which the local
    time seven days earlier is read back. *)
Lemma setDate_back_offsets (z : Zone) (k now : Z) :
  setDate_back z k now =
    now - k * day_ms + (offset_at z now - offset_of_local z (LocalTime z now - k * day_ms)).
Proof. unfold setDate_back, UTC, LocalTime. ring. Qed.

(** C8 (amended).  The weekly route counts exactly the caller's entries
    whose [createdAt] is at or after [sevenDaysAgo]: the boundary itself is
    included ([$gte]) and no upper bound is applied.  [sevenDaysAgo] is the
    instant at which the server's local clock showed the present time seven
    calendar days earlier: 7 x 24 hours before now in a zone without clock
    changes, and apart from that by the difference of the two offsets
    otherwise.  The entries are bucketed by UTC calendar day, and a day
    without such an entry has no key.  The 7-slot series of the client
    counts, in slot [i], the entries on the local day of the date [6 - i]
    calendar days back; when these seven dates lie on the seven local days
    that end today, entries on days -1, -1 and -3 make it read 0, 0, 0, 1,
    0, 2, 0. *)
Theorem C8_weekly_aggregate_includes_the_boundary :
  (forall z req now w, exists stats,
      get_stats_weekly z req now w = (w, Ok (json (PStats stats))) /\
      forall d, stats !! d =
                  match weekly_count (req_user req) (setDate_back z 7 now) d (journals w) with
                  | O => None
                  | S n => Some (S n)
                  end) /\
  (forall u since d js,
      weekly_count u since d js =
        length (List.filter (fun j => (Nat.eqb (j_user j) u && (since <=? j_createdAt j))
                                        && (iso_day (j_createdAt j) =? d)) js)) /\
  (forall z now,
      setDate_back z 7 now =
        now - 7 * day_ms
        + (offset_at z now - offset_of_local z (LocalTime z now - 7 * day_ms))) /\
  (forall tz now, setDate_back (fixed tz) 7 now = now - 7 * day_ms) /\
  (forall z now j1 j2 j3,
      chart_days z now = days_ending (local_day z now) ->
      local_day z (j_createdAt j1) = local_day z now - 1 ->
      local_day z (j_createdAt j2) = local_day z now - 1 ->
      local_day z (j_createdAt j3) = local_day z now - 3 ->
      map App.entries (App.weeklyData z now [j1; j2; j3]) = [0; 0; 0; 1; 0; 2; 0]%nat).
Proof.
  split; [|split; [|split; [|split]]].
  - intros z req now w. eexists. split; [reflexivity|]. intros d.
    now rewrite group_by_day_lookup, count_on_query.
  - reflexivity.
  - intros z now. apply setDate_back_offsets.
  - intros tz now. apply setDate_back_fixed.
  - intros z now j1 j2 j3 Hdays H1 H2 H3. rewrite weeklyData_chart_days, Hdays.
    unfold days_ending, count_local. simpl. rewrite H1, H2, H3.
    repeat match goal with
           | |- context [?a =? ?b] => destruct (Z.eqb_spec a b); try lia
           end.
    reflexivity.
Qed.

(** Two entries yesterday and one three days ago, seen from the zone UTC+2. *)
Lemma C8_witness :
  map App.entries
      (App.weeklyData (fixed (2 * Sample.hour)) Sample.noon
         [Sample.entry 0%nat Sample.alice "calm" (Sample.noon - day_ms);
          Sample.entry 1%nat Sample.alice "happy" (Sample.noon - day_ms - Sample.hour);
          Sample.entry 2%nat Sample.alice "sad" (Sample.noon - 3 * day_ms)])
    = [0; 0; 0; 1; 0; 2; 0]%nat.
Proof.
  apply (proj2 (proj2 (proj2 (proj2 C8_weekly_aggregate_includes_the_boundary))));
    reflexivity.
Defined.

(** C8 as stated fails: in the zone UTC an entry created exactly 7 x 24
    hours before now is counted. *)
Lemma C8_counterexample :
  map j_createdAt (journals Sample.week_old) = [Sample.noon - 7 * day_ms] /\
  exists stats,
    get_stats_weekly (fixed 0) Sample.stats_request Sample.noon Sample.week_old
      = (Sample.week_old, Ok (json (PStats stats))) /\
    stats !! iso_day (Sample.noon - 7 * day_ms) = Some 1%nat.
Proof.
  split; [reflexivity|]. eexists. split; [reflexivity|].
  rewrite group_by_day_lookup. reflexivity.
Qed.

(** In the week after the clocks were set back by an hour, [sevenDaysAgo]
    lies 169 hours before now, and an entry 168 and a half hours old is
    counted. *)
Lemma weekly_boundary_across_a_clock_change :
  setDate_back Sample.autumn 7 Sample.noon = Sample.noon - 7 * day_ms - Sample.hour /\
  exists stats,
    get_stats_weekly Sample.autumn Sample.stats_request Sample.noon Sample.late_entry
      = (Sample.late_entry, Ok (json (PStats stats))) /\
    stats !! iso_day (Sample.noon - 7 * day_ms - 1800000) = Some 1%nat.
Proof.
  split; [reflexivity|]. eexists. split; [reflexivity|].
  rewrite group_by_day_lookup. reflexivity.
Qed.

(** ** C9: achievements *)

Lemma calculateAchievements_table (js : list Journal) (streak : nat) :
  App.calculateAchievements js streak =
    map snd (List.filter fst (achievement_table (length js) streak (App.hasAllMoods js))).
Proof.
  unfold App.calculateAchievements, achievement_table, App.push_if.
  destruct (1 <=? length js)%nat, (5 <=? length js)%nat, (10 <=? length js)%nat,
           (30 <=? length js)%nat, (3 <=? streak)%nat, (7 <=? streak)%nat,
           (30 <=? streak)%nat, (App.hasAllMoods js); reflexivity.
Qed.

Lemma qualifying_rows (t : list (bool * App.Achievement)) (x : string) :
  In x (map App.name (map snd (List.filter fst t))) <->
  Exists (fun row => fst row = true /\ App.name (snd row) = x) t.
Proof.
  induction t as [|[b a] t IH]; simpl.
  - split; [contradiction|]. intros H. inversion H.
  - rewrite Exists_cons. simpl. destruct b; simpl; rewrite IH.
    + split; intros [H|H]; auto. destruct H as [_ H]. auto.
    + split; [auto|]. intros [[H _]|H]; [discriminate|assumption].
Qed.

Lemma unlocked_iff (js : list Journal) (streak : nat) (x : string) :
  In x (unlocked js streak) <->
  Exists (fun row => fst row = true /\ App.name (snd row) = x)
         (achievement_table (length js) streak (App.hasAllMoods js)).
Proof.
  unfold unlocked. rewrite calculateAchievements_table. apply qualifying_rows.
Qed.

Lemma hasAllMoods_iff (js : list Journal) :
  App.hasAllMoods js = true <->
  (forall m, In m ["happy"; "sad"; "excited"; "calm"] ->
             exists j, In j js /\ j_mood j = m).
Proof.
  unfold App.hasAllMoods. rewrite forallb_forall.
  split; intros H m Hm.
  - apply H, existsb_exists in Hm as (j & Hj & He). apply String.eqb_eq in He. eauto.
  - destruct (H m Hm) as (j & Hj & He). apply existsb_exists.
    exists j. split; [assumption|]. now apply String.eqb_eq.
Qed.

(** Decide one row of the table against a fixed name. *)
Ltac row_cases :=
  unfold achievement_table;
  repeat rewrite Exists_cons; rewrite Exists_nil; simpl;
  split;
  [ intros H; repeat (destruct H as [H|H]); try contradiction;
    destruct H as [H Hn]; try discriminate Hn; exact H
  | intros H; tauto ].

Lemma unlocked_by_count (js : list Journal) (streak : nat) (x : string) (k : nat) :
  In (x, k) [("First Entry", 1%nat); ("Getting Started", 5%nat);
             ("Dedicated Writer", 10%nat); ("Journal Master", 30%nat)] ->
  In x (unlocked js streak) <-> (k <= length js)%nat.
Proof.
  intros Hx. rewrite unlocked_iff, <- Nat.leb_le. simpl in Hx.
  repeat (destruct Hx as [Hx|Hx]; [injection Hx as <- <-; row_cases|]).
  contradiction.
Qed.

Lemma unlocked_by_streak (js : list Journal) (streak : nat) (x : string) (k : nat) :
  In (x, k) [("3 Day Streak", 3%nat); ("Week Warrior", 7%nat); ("Monthly Legend", 30%nat)] ->
  In x (unlocked js streak) <-> (k <= streak)%nat.
Proof.
  intros Hx. rewrite unlocked_iff, <- Nat.leb_le. simpl in Hx.
  repeat (destruct Hx as [Hx|Hx]; [injection Hx as <- <-; row_cases|]).
  contradiction.
Qed.

Lemma unlocked_by_moods (js : list Journal) (streak : nat) :
  In "Emotion Explorer" (unlocked js streak) <-> App.hasAllMoods js = true.
Proof. rewrite unlocked_iff. row_cases. Qed.

(** [calculateAchievements] as a function of the journals and of the
    streak it reads: it returns, in the order of the table, exactly the rows
    whose condition holds, each decided on its own. *)
Lemma achievements_follow_the_table (js : list Journal) (streak : nat) :
  App.calculateAchievements js streak =
    map snd (List.filter fst (achievement_table (length js) streak (App.hasAllMoods js))) /\
  (In "First Entry" (unlocked js streak) <-> (1 <= length js)%nat) /\
  (In "Getting Started" (unlocked js streak) <-> (5 <= length js)%nat) /\
  (In "Dedicated Writer" (unlocked js streak) <-> (10 <= length js)%nat) /\
  (In "Journal Master" (unlocked js streak) <-> (30 <= length js)%nat) /\
  (In "3 Day Streak" (unlocked js streak) <-> (3 <= streak)%nat) /\
  (In "Week Warrior" (unlocked js streak) <-> (7 <= streak)%nat) /\
  (In "Monthly Legend" (unlocked js streak) <-> (30 <= streak)%nat) /\
  (In "Emotion Explorer" (unlocked js streak) <->
   (forall m, In m ["happy"; "sad"; "excited"; "calm"] ->
              exists j, In j js /\ j_mood j = m)) /\
  (length js = 5%nat -> streak = 2%nat -> App.hasAllMoods js = false ->
   unlocked js streak = ["First Entry"; "Getting Started"]).
Proof.
  split; [apply calculateAchievements_table|].
  repeat (split; [apply unlocked_by_count; simpl; tauto|]).
  repeat (split; [apply unlocked_by_streak; simpl; tauto|]).
  split; [rewrite unlocked_by_moods; apply hasAllMoods_iff|].
  intros Hn Hs Hm. unfold unlocked.
  rewrite calculateAchievements_table, Hn, Hs, Hm. reflexivity.
Qed.

(** Five calm journals read with a streak of 2 unlock two rows; five
    journals whose moods cover happy, sad, excited and calm unlock a third. *)
Lemma five_journals_and_streak_two :
  unlocked Sample.five_calm 2 = ["First Entry"; "Getting Started"] /\
  length Sample.five_moods = 5%nat /\
  unlocked Sample.five_moods 2 = ["First Entry"; "Getting Started"; "Emotion Explorer"].
Proof. repeat split. Qed.

(** C9, where the code leaves the claim.  When the list of journals
    changes to a non-empty one, the provider sets the streak to the streak
    of the new list, but computes the achievements from the streak it held
    before: the three streak rows are decided by the previous streak.  On
    the first load with one entry today, one yesterday and one the day
    before, the streak becomes 3 and the achievements are First Entry alone,
    where the table of the claim, read with n = 3 and s = 3, gives First
    Entry and 3 Day Streak. *)
Theorem C9_achievements_read_the_previous_streak :
  (forall z now j rest st,
      App.st_streak (App.setJournals z now (j :: rest) st)
        = App.calculateStreak z now (j :: rest) /\
      App.st_achievements (App.setJournals z now (j :: rest) st)
        = App.calculateAchievements (j :: rest) (App.st_streak st) /\
      (In "3 Day Streak"
          (map App.name (App.st_achievements (App.setJournals z now (j :: rest) st)))
       <-> (3 <= App.st_streak st)%nat) /\
      (In "Week Warrior"
          (map App.name (App.st_achievements (App.setJournals z now (j :: rest) st)))
       <-> (7 <= App.st_streak st)%nat) /\
      (In "Monthly Legend"
          (map App.name (App.st_achievements (App.setJournals z now (j :: rest) st)))
       <-> (30 <= App.st_streak st)%nat)) /\
  App.st_streak
    (App.setJournals (fixed 0) Sample.noon (journals (Sample.on_days [2; 1; 0])) App.initial)
    = 3%nat /\
  map App.name
      (App.st_achievements
         (App.setJournals (fixed 0) Sample.noon (journals (Sample.on_days [2; 1; 0]))
                          App.initial))
    = ["First Entry"] /\
  unlocked (journals (Sample.on_days [2; 1; 0])) 3 = ["First Entry"; "3 Day Streak"].
Proof.
  split; [|repeat split].
  intros z now j rest st. split; [reflexivity|]. split; [reflexivity|].
  change (map App.name (App.st_achievements (App.setJournals z now (j :: rest) st)))
    with (unlocked (j :: rest) (App.st_streak st)).
  repeat split; apply unlocked_by_streak; simpl; tauto.
Qed.

(** ** C4: the streak *)

Lemma floor_days_midnights (tz a b : Z) :
  floor_days (setHours0 (fixed tz) a) (setHours0 (fixed tz) b) = local_day (fixed tz) a - local_day (fixed tz) b.
Proof.
  rewrite !setHours0_fixed, !local_day_fixed. unfold floor_days.
  assert (Hd : day_ms <> 0) by (unfold day_ms; lia).
  pose proof (Z.div_mod (a + tz) day_ms Hd) as Ha.
  pose proof (Z.div_mod (b + tz) day_ms Hd) as Hb.
  replace (a - (a + tz) mod day_ms - (b - (b + tz) mod day_ms))
    with (((a + tz) / day_ms - (b + tz) / day_ms) * day_ms) by lia.
  now apply Z.div_mul.
Qed.

Lemma journal_js_loop_step (z : Zone) (j k : Journal) (rest : list Journal) (acc : nat) :
  RoutesJournal.streak_loop z (j :: k :: rest) acc =
    if floor_days (setHours0 z (j_createdAt j)) (setHours0 z (j_createdAt k)) =? 1
    then RoutesJournal.streak_loop z (k :: rest) (S acc)
    else acc.
Proof. reflexivity. Qed.

(** journal.js on the days of the entries: the loop counts, from the
    first entry on, each next entry that lies exactly one day earlier. *)
Lemma journal_js_loop_days (tz : Z) (rest : list Journal) :
  forall (j : Journal) (acc : nat),
    RoutesJournal.streak_loop (fixed tz) (j :: rest) acc =
      (acc + count_run (local_day (fixed tz) (j_createdAt j)) (days_of (fixed tz) rest))%nat.
Proof.
  induction rest as [|k rest IH]; intros j acc.
  - simpl. lia.
  - rewrite journal_js_loop_step, floor_days_midnights.
    cbn [days_of map count_run].
    destruct (_ =? 1); [|lia].
    rewrite IH. unfold days_of. lia.
Qed.

(** journal.js computes the streak of the specification whenever no two
    neighbouring entries fall on the same day. *)
Lemma journal_js_streak_on_distinct_days (tz now : Z) (js : list Journal) :
  distinct_days (days_of (fixed tz) js) = days_of (fixed tz) js ->
  RoutesJournal.streak_of (fixed tz) now js = streak_spec (local_day (fixed tz) now) (days_of (fixed tz) js).
Proof.
  intros Hd. unfold streak_spec. rewrite Hd.
  destruct js as [|j rest]; [reflexivity|].
  unfold RoutesJournal.streak_of. rewrite floor_days_midnights.
  cbn [days_of map]. rewrite journal_js_loop_days.
  destruct (Z.gtb_spec (local_day (fixed tz) now - local_day (fixed tz) (j_createdAt j)) 1) as [H|H];
    destruct (Z.geb_spec (local_day (fixed tz) now - local_day (fixed tz) (j_createdAt j)) 2) as [H'|H'];
    try lia; reflexivity.
Qed.

Lemma setHours0_midnight (tz t : Z) : setHours0 (fixed tz) t = midnight_of tz (local_day (fixed tz) t).
Proof.
  rewrite setHours0_fixed, local_day_fixed. unfold midnight_of.
  assert (Hd : day_ms <> 0) by (unfold day_ms; lia).
  pose proof (Z.div_mod (t + tz) day_ms Hd). lia.
Qed.

Lemma floor_days_midnight_of (tz a b : Z) :
  floor_days (midnight_of tz a) (midnight_of tz b) = a - b.
Proof.
  unfold floor_days, midnight_of.
  replace (a * day_ms - tz - (b * day_ms - tz)) with ((a - b) * day_ms) by ring.
  apply Z.div_mul. unfold day_ms. lia.
Qed.

(** part_003 on the days of the entries. *)
Lemma part_003_walk_days (tz : Z) (js : list Journal) :
  forall (cursor : Z) (acc : nat),
    Part003.streak_walk (fixed tz) js (midnight_of tz cursor) acc =
      walk_days cursor (days_of (fixed tz) js) acc.
Proof.
  induction js as [|j js IH]; intros cursor acc; simpl; [reflexivity|].
  rewrite setHours0_midnight, floor_days_midnight_of.
  destruct ((_ =? 0) || (_ =? 1)); [|reflexivity].
  rewrite setDate_back_fixed.
  replace (midnight_of tz (local_day (fixed tz) (j_createdAt j)) - 1 * day_ms)
    with (midnight_of tz (local_day (fixed tz) (j_createdAt j) - 1))
    by (unfold midnight_of; ring).
  apply IH.
Qed.

Lemma part_003_streak_days (tz now : Z) (js : list Journal) :
  Part003.streak_of (fixed tz) now js = walk_days (local_day (fixed tz) now) (days_of (fixed tz) js) 0.
Proof.
  unfold Part003.streak_of. destruct js as [|j js]; [reflexivity|].
  rewrite setHours0_midnight. apply part_003_walk_days.
Qed.

(** A second entry on the day of the most recent one ends the count at 1,
    in both revisions, whatever the earlier days hold. *)
Lemma same_day_entry_cuts_the_streak (tz now : Z) (j k : Journal) (rest : list Journal) :
  local_day (fixed tz) (j_createdAt k) = local_day (fixed tz) (j_createdAt j) ->
  0 <= local_day (fixed tz) now - local_day (fixed tz) (j_createdAt j) <= 1 ->
  RoutesJournal.streak_of (fixed tz) now (j :: k :: rest) = 1%nat /\
  Part003.streak_of (fixed tz) now (j :: k :: rest) = 1%nat.
Proof.
  intros Hk Hj. split.
  - unfold RoutesJournal.streak_of. rewrite floor_days_midnights.
    destruct (Z.gtb_spec (local_day (fixed tz) now - local_day (fixed tz) (j_createdAt j)) 1); [lia|].
    rewrite journal_js_loop_days. cbn [days_of map count_run]. rewrite Hk.
    replace (_ - _ =? 1) with false by (symmetry; apply Z.eqb_neq; lia). reflexivity.
  - rewrite part_003_streak_days. cbn [days_of map walk_days]. rewrite Hk.
    replace ((local_day (fixed tz) now - local_day (fixed tz) (j_createdAt j) =? 0)
             || (local_day (fixed tz) now - local_day (fixed tz) (j_createdAt j) =? 1)) with true
      by (symmetry; apply orb_true_iff; rewrite !Z.eqb_eq; lia).
    replace ((local_day (fixed tz) (j_createdAt j) - 1 - local_day (fixed tz) (j_createdAt j) =? 0)
             || (local_day (fixed tz) (j_createdAt j) - 1 - local_day (fixed tz) (j_createdAt j) =? 1))
      with false
      by (symmetry; apply orb_false_iff; rewrite !Z.eqb_neq; lia).
    reflexivity.
Qed.

(** part_003 counts an entry two days before the one counted last. *)
Lemma part_003_counts_across_a_gap (tz now : Z) (j k : Journal) (rest : list Journal) :
  local_day (fixed tz) (j_createdAt j) = local_day (fixed tz) now ->
  local_day (fixed tz) (j_createdAt k) = local_day (fixed tz) now - 2 ->
  (2 <= Part003.streak_of (fixed tz) now (j :: k :: rest))%nat.
Proof.
  intros Hj Hk. rewrite part_003_streak_days. cbn [days_of map walk_days].
  rewrite Hj, Hk.
  replace ((local_day (fixed tz) now - local_day (fixed tz) now =? 0)
           || (local_day (fixed tz) now - local_day (fixed tz) now =? 1)) with true
    by (symmetry; apply orb_true_iff; rewrite !Z.eqb_eq; lia).
  replace ((local_day (fixed tz) now - 1 - (local_day (fixed tz) now - 2) =? 0)
           || (local_day (fixed tz) now - 1 - (local_day (fixed tz) now - 2) =? 1)) with true
    by (symmetry; apply orb_true_iff; rewrite !Z.eqb_eq; lia).
  generalize (local_day (fixed tz) now - 2 - 1) (days_of (fixed tz) rest).
  assert (Hmono : forall l c n, (n <= walk_days c l n)%nat).
  { induction l as [|d l IH]; intros c n; simpl; [lia|].
    destruct ((_ =? 0) || (_ =? 1)); [|lia].
    specialize (IH (d - 1) (S n)). lia. }
  intros c l. apply Hmono.
Qed.

(** Across a clock change two local midnights are 23 hours apart: with
    one entry yesterday and one today, journal.js and the client stop at 1,
    while the cursor of part_003, which goes back by calendar days, counts 2. *)
Lemma consecutive_days_across_a_clock_change :
  days_of Sample.spring (sort_desc (journals (Sample.on_days [1; 0]))) = [20000; 19999] /\
  floor_days (setHours0 Sample.spring Sample.noon)
             (setHours0 Sample.spring (Sample.noon - day_ms)) = 0 /\
  RoutesJournal.streak_of Sample.spring Sample.noon
    (sort_desc (journals (Sample.on_days [1; 0]))) = 1%nat /\
  App.calculateStreak Sample.spring Sample.noon (journals (Sample.on_days [1; 0])) = 1%nat /\
  Part003.streak_of Sample.spring Sample.noon
    (sort_desc (journals (Sample.on_days [1; 0]))) = 2%nat.
Proof. repeat split; vm_compute; reflexivity. Qed.

(** The five scenarios of the specification, one entry a day: both
    revisions and the client report 3, 1, 0, 0 and 2. *)
Lemma streak_scenarios (rev : Revision) :
  snd (Sample.reported rev (Sample.on_days [2; 1; 0])) = Ok (json (PStreak 3)) /\
  snd (Sample.reported rev (Sample.on_days [3; 0])) = Ok (json (PStreak 1)) /\
  snd (Sample.reported rev (Sample.on_days [3])) = Ok (json (PStreak 0)) /\
  snd (Sample.reported rev (Sample.on_days [])) = Ok (json (PStreak 0)) /\
  snd (Sample.reported rev (Sample.on_days [2; 1])) = Ok (json (PStreak 2)) /\
  map (fun l => App.calculateStreak (fixed 0) Sample.noon (journals (Sample.on_days l)))
      [[2; 1; 0]; [3; 0]; [3]; []; [2; 1]] = [3; 1; 0; 0; 2]%nat.
Proof. destruct rev; repeat split; vm_compute; reflexivity. Qed.

(** C4, at the inputs where the code leaves the claim.  With two entries
    today and one yesterday the distinct days are today and yesterday and
    the streak of the claim is 2; both revisions of the route and the client
    report 1.  With entries today and two days ago the streak of the claim
    is 1; part_003 reports 2. *)
Theorem C4_streak_at_same_day_entries_and_gaps :
  days_of (fixed 0) (sort_desc (journals Sample.busy_day)) = [20000; 20000; 19999] /\
  streak_spec (local_day (fixed 0) Sample.noon) [20000; 20000; 19999] = 2%nat /\
  snd (Sample.reported JournalJs Sample.busy_day) = Ok (json (PStreak 1)) /\
  snd (Sample.reported Part003Js Sample.busy_day) = Ok (json (PStreak 1)) /\
  App.calculateStreak (fixed 0) Sample.noon (journals Sample.busy_day) = 1%nat /\
  days_of (fixed 0) (sort_desc (journals Sample.gap_day)) = [20000; 19998] /\
  streak_spec (local_day (fixed 0) Sample.noon) [20000; 19998] = 1%nat /\
  snd (Sample.reported JournalJs Sample.gap_day) = Ok (json (PStreak 1)) /\
  snd (Sample.reported Part003Js Sample.gap_day) = Ok (json (PStreak 2)).
Proof. repeat split; vm_compute; reflexivity. Qed.

(** * Further properties of the routes and of the client *)

(** ** The white space the schema trims *)

Local Open Scope string_scope.

Lemma append_cons (c : ascii) (a b : string) : String c a ++ b = String c (a ++ b).
Proof. reflexivity. Qed.

Lemma append_nil (b : string) : "" ++ b = b.
Proof. reflexivity. Qed.

Ltac push_append := repeat (rewrite append_cons || rewrite append_nil).

Lemma trim_left_idem (s : string) : trim_left (trim_left s) = trim_left s.
Proof.
  functional induction (trim_left s); auto; simpl.
  - now rewrite e0, e2, e4.
  - now rewrite e0, e2.
  - now rewrite e0.
Qed.

Lemma trim_left_length (s : string) : (String.length (trim_left s) <= String.length s)%nat.
Proof. functional induction (trim_left s); simpl; lia. Qed.

(** White space followed by white space is white space. *)
Lemma blank_app (p w : string) : blank p = true -> trim_left (p ++ w) = trim_left w.
Proof.
  unfold blank. functional induction (trim_left p); intros H;
    try discriminate H; rewrite ?append_cons, ?append_nil; auto.
  - rewrite trim_left_equation, e0. auto.
  - rewrite trim_left_equation, e0, e2. auto.
  - rewrite trim_left_equation, e0, e2, e4. auto.
Qed.

(** What [trim_right] removes is white space. *)
Lemma trim_right_split (s : string) :
  exists w, s = trim_right s ++ w /\ blank w = true.
Proof.
  induction s as [|c r (w & Hr & Hw)].
  - exists "". split; reflexivity.
  - cbn [trim_right]. destruct (blank (String c r)) eqn:Hb.
    + exists (String c r). split; [reflexivity|assumption].
    + exists w. rewrite append_cons, <- Hr. auto.
Qed.

Lemma trim_right_idem (s : string) : trim_right (trim_right s) = trim_right s.
Proof.
  induction s as [|c r IH]; [reflexivity|].
  cbn [trim_right]. destruct (blank (String c r)) eqn:Hb; [reflexivity|].
  cbn [trim_right]. rewrite IH.
  destruct (blank (String c (trim_right r))) eqn:Hb'; [|reflexivity].
  exfalso. destruct (trim_right_split r) as (w & Hr & Hw).
  unfold blank in Hb. rewrite Hr, <- append_cons, (blank_app _ _ Hb') in Hb.
  unfold blank in Hw. congruence.
Qed.

(** A string that does not begin with white space has no prefix that
    does. *)
Lemma trim_left_prefix (u w : string) :
  trim_left (u ++ w) = u ++ w -> trim_left u = u.
Proof.
  intros H.
  assert (Hlen : forall r, (String.length (trim_left r) <= String.length r)%nat)
    by apply trim_left_length.
  destruct u as [|a [|b [|c u]]]; try reflexivity;
    rewrite ?append_cons, ?append_nil in H; rewrite trim_left_equation in H |- *.
  - destruct (is_space a); [|reflexivity].
    exfalso. specialize (Hlen w). rewrite H in Hlen. simpl in Hlen. lia.
  - destruct (is_space a).
    { exfalso. specialize (Hlen (String b w)). rewrite H in Hlen. simpl in Hlen. lia. }
    destruct (is_space2 a b); [|reflexivity].
    exfalso. specialize (Hlen w). rewrite H in Hlen. simpl in Hlen. lia.
  - destruct (is_space a).
    { exfalso. specialize (Hlen (String b (String c (u ++ w)))).
      rewrite H in Hlen. simpl in Hlen. lia. }
    destruct (is_space2 a b).
    { exfalso. specialize (Hlen (String c (u ++ w))).
      rewrite H in Hlen. simpl in Hlen. lia. }
    destruct (is_space3 a b c); [|reflexivity].
    exfalso. specialize (Hlen (u ++ w)). rewrite H in Hlen. simpl in Hlen. lia.
Qed.

Lemma trim_idem (s : string) : trim (trim s) = trim s.
Proof.
  unfold trim.
  assert (H : trim_left (trim_right (trim_left s)) = trim_right (trim_left s)).
  { destruct (trim_right_split (trim_left s)) as (w & Hs & _).
    apply trim_left_prefix with (w := w). rewrite <- Hs. apply trim_left_idem. }
  rewrite H. apply trim_right_idem.
Qed.

Local Close Scope string_scope.

(** ** Every stored journal is well formed, and identifiers are never reused *)

Lemma validate_tags (E : Env) (d : RawDoc) (f : Fields) :
  validate E d = Ok f -> check_tags E (r_tags d) = Ok (f_tags f).
Proof.
  intros H. destruct (validate_cases E d) as [(f' & Hv & H')|(e & Hv & _)];
    rewrite Hv in H; [|discriminate].
  injection H as <-. tauto.
Qed.

Lemma check_required_ok (path : string) (dotrim : bool) (c : Cast) (t : string) :
  check_required path dotrim c = Ok t ->
  t <> "" /\ exists s, c = CastTo s /\ t = if dotrim then trim s else s.
Proof.
  destruct c as [|s|]; simpl; try discriminate.
  destruct (String.eqb_spec (if dotrim then trim s else s) ""); [discriminate|].
  intros H. injection H as <-. eauto.
Qed.

Lemma check_tags_trimmed (E : Env) (v : JSValue) (l : list string) :
  check_tags E v = Ok l -> Forall trimmed l.
Proof.
  assert (Hmap : forall k, Forall trimmed (map trim k)).
  { induction k; simpl; constructor; [apply trim_idem|assumption]. }
  unfold check_tags. intros H.
  destruct v; try (injection H as <-; constructor);
    destruct (castTagList E _); try discriminate; injection H as <-; apply Hmap.
Qed.

Lemma validate_well_formed (E : Env) (d : RawDoc) (f : Fields)
      (id : JournalId) (u : UserId) (created updated : Z) :
  validate E d = Ok f -> r_aiMood d = r_mood d -> castString E (r_mood d) <> Absent ->
  well_formed (document id u f created updated).
Proof.
  intros Hv Heq Hn.
  destruct (validate_inv E d f Hv) as (Ht & Hc & _).
  apply check_required_ok in Ht as (Ht & s & _ & Hs).
  apply check_required_ok in Hc as (Hc & _).
  unfold well_formed, consistent, trimmed. simpl.
  repeat split; auto.
  - rewrite Hs. apply trim_idem.
  - now apply (validate_consistent E d f Hv).
  - now apply (validate_consistent E d f Hv).
  - eapply check_tags_trimmed, validate_tags, Hv.
Qed.

Lemma replace_doc_ids (j' : Journal) (l : list Journal) :
  map j_id (replace_doc j' l) = map j_id l.
Proof.
  unfold replace_doc. rewrite map_map. apply map_ext_in. intros x _.
  simpl. destruct (Nat.eqb_spec (j_id x) (j_id j')); congruence.
Qed.

Lemma filter_ids_NoDup (p : Journal -> bool) (l : list Journal) :
  NoDup (map j_id l) -> NoDup (map j_id (List.filter p l)).
Proof.
  induction l as [|x l IH]; simpl; intros H; [constructor|].
  apply NoDup_cons in H as [Hx Hl].
  destruct (p x); simpl; [|auto].
  apply NoDup_cons. split; [|auto].
  intros Hin. apply Hx. apply list_elem_of_In in Hin. apply list_elem_of_In.
  apply in_map_iff in Hin as (y & Hy & Hin).
  apply filter_In in Hin as [Hin _]. apply in_map_iff. eauto.
Qed.

Lemma create_tidy (rev : Revision) (E : Env) (req : Request) (now : Z) (w : World) :
  tidy w -> tidy (fst (create rev E req now w)).
Proof.
  intros (Hwf & Hnd & Hlt).
  destruct (analyzeWithAI_never_raises rev E (field req "content") w)
    as (w1 & a & Ha & Ht & Hj & _ & Hn).
  unfold create. rewrite (post_journal_run E _ req now w w1 a Ha).
  destruct (validate E (create_doc req a)) as [f|e] eqn:Hv; simpl.
  2:{ unfold tidy, ids_fresh. now rewrite Hj, Hn. }
  unfold tidy, ids_fresh. simpl. rewrite Hj, Hn. repeat split.
  - apply Forall_app. split; [assumption|]. constructor; [|constructor].
    apply (validate_well_formed E _ f _ _ _ _ Hv); [reflexivity|].
    simpl. now apply truthy_not_absent.
  - rewrite map_app. simpl. apply NoDup_app. repeat split; auto.
    + intros x Hx Hin. apply list_elem_of_In in Hx, Hin.
      destruct Hin as [<-|[]]. apply in_map_iff in Hx as (y & Hy & Hin).
      rewrite Forall_forall in Hlt. apply list_elem_of_In, Hlt in Hin. lia.
    + apply NoDup_singleton.
  - apply Forall_app. split.
    + eapply Forall_impl; [exact Hlt|]. simpl. intros. lia.
    + constructor; [simpl; lia|constructor].
Qed.

Lemma update_tidy (rev : Revision) (E : Env) (req : Request) (now : Z) (w : World) :
  tidy w -> tidy (fst (update rev E req now w)).
Proof.
  intros (Hwf & Hnd & Hlt). unfold update.
  destruct (find (has_id (req_id req)) (journals w)) as [j|] eqn:Hf.
  2:{ rewrite put_journal_none by assumption. now repeat split. }
  destruct (not_owner j req) eqn:Ho.
  { rewrite (put_journal_forbidden E _ req now w j Hf Ho). now repeat split. }
  destruct (update_analysis_run (analyzeWithAI rev E) req j w
              (analyzeWithAI_never_raises rev E))
    as (w1 & a & Ha & Hj & _ & Hn & Hkeep & Hnew).
  rewrite (put_journal_run E _ req now w w1 j a Hf Ho Ha).
  destruct (validate E (update_doc j req a)) as [f|e] eqn:Hv; simpl.
  2:{ unfold tidy, ids_fresh. now rewrite Hj, Hn. }
  destruct (modified j f) eqn:Hm; simpl.
  2:{ unfold tidy, ids_fresh. now rewrite Hj, Hn. }
  unfold tidy, ids_fresh. simpl. rewrite Hj, Hn, replace_doc_ids. repeat split; auto.
  - apply Forall_replace_doc; [|assumption]. unfold saved. rewrite Hm.
    apply (validate_well_formed E _ f _ _ _ _ Hv); [reflexivity|]. simpl.
    destruct (content_changed req j).
    + apply truthy_not_absent. now apply Hnew.
    + destruct (Hkeep eq_refl) as [_ ->]. simpl. discriminate.
  - apply Forall_replace_doc; [|assumption]. rewrite saved_id.
    destruct (find_has_id _ _ _ Hf) as [_ Hin].
    rewrite Forall_forall in Hlt. now apply Hlt, list_elem_of_In.
Qed.

Lemma delete_tidy (req : Request) (w : World) :
  tidy w -> tidy (fst (delete_journal req w)).
Proof.
  intros (Hwf & Hnd & Hlt).
  destruct (find (has_id (req_id req)) (journals w)) as [j|] eqn:Hf.
  2:{ rewrite delete_journal_none by assumption. now repeat split. }
  rewrite (delete_journal_found req w j Hf).
  destruct (not_owner j req); [now repeat split|].
  assert (Hsub : forall (P : Journal -> Prop),
             Forall P (journals w) ->
             Forall P (List.filter (fun x => negb (has_id (ObjectId (j_id j)) x))
                                   (journals w))).
  { intros P HP. apply Forall_forall. intros x Hx. apply list_elem_of_In in Hx.
    apply filter_In in Hx as [Hx _]. rewrite Forall_forall in HP.
    now apply HP, list_elem_of_In. }
  unfold tidy, ids_fresh. simpl. repeat split; auto.
  now apply filter_ids_NoDup.
Qed.

Lemma reachable_tidy (w : World) : reachable w -> tidy w.
Proof.
  induction 1 as [w Hw|w rev E c Hr IH].
  - unfold tidy, ids_fresh. rewrite Hw. simpl. repeat split; constructor.
  - destruct c; simpl.
    + now apply create_tidy.
    + now apply update_tidy.
    + now apply delete_tidy.
Qed.

(** X1.  In every world the routes can produce, every stored journal has
    a trimmed, non-empty title, a non-empty content, a mood of the enum that
    equals its aiMood, and trimmed tags. *)
Theorem X1_stored_journals_are_well_formed (w : World) (j : Journal) :
  reachable w -> In j (journals w) ->
  j_title j <> "" /\ trim (j_title j) = j_title j /\ j_content j <> "" /\
  j_mood j = j_aiMood j /\ In (j_mood j) MOODS /\
  (forall t, In t (j_tags j) -> trim t = t).
Proof.
  intros Hr Hin. destruct (reachable_tidy w Hr) as [Hwf _].
  rewrite Forall_forall in Hwf.
  destruct (Hwf j (proj2 (list_elem_of_In _ _) Hin)) as (H1 & H2 & H3 & [H4 H5] & H6).
  repeat split; auto.
  - unfold in_enum in H5. apply existsb_exists in H5 as (m & Hm & He).
    apply String.eqb_eq in He. now subst.
  - intros t Ht. rewrite Forall_forall in H6. now apply H6, list_elem_of_In.
Qed.

Lemma X1_witness :
  j_title Sample.sunny_entry <> "" /\
  trim (j_title Sample.sunny_entry) = j_title Sample.sunny_entry /\
  j_content Sample.sunny_entry <> "" /\
  j_mood Sample.sunny_entry = j_aiMood Sample.sunny_entry /\
  In (j_mood Sample.sunny_entry) MOODS /\
  (forall t, In t (j_tags Sample.sunny_entry) -> trim t = t).
Proof.
  apply (X1_stored_journals_are_well_formed Sample.sunny_world Sample.sunny_entry).
  - apply (reachable_call Sample.w0 Part003Js Sample.sunny (Create Sample.monday 5)).
    apply reachable_empty. reflexivity.
  - left. reflexivity.
Defined.

Lemma find_by_own_id (l : list Journal) (j : Journal) :
  NoDup (map j_id l) -> In j l -> find (has_id (ObjectId (j_id j))) l = Some j.
Proof.
  induction l as [|x l IH]; simpl; intros Hnd Hin; [contradiction|].
  apply NoDup_cons in Hnd as [Hx Hnd].
  destruct Hin as [->|Hin].
  - now rewrite Nat.eqb_refl.
  - destruct (Nat.eqb_spec (j_id x) (j_id j)) as [He|_]; [|auto].
    exfalso. apply Hx, list_elem_of_In, in_map_iff. eauto.
Qed.

(** ** Create, read back, delete *)

Lemma find_app_last (p : Journal -> bool) (l : list Journal) (j : Journal) :
  (forall x, In x l -> p x = false) -> p j = true -> find p (l ++ [j]) = Some j.
Proof.
  induction l as [|x l IH]; simpl; intros Hl Hj; [now rewrite Hj|].
  rewrite (Hl x) by now left. apply IH; auto.
Qed.

(** X3.  When a create answers 201 with a journal, that journal belongs to
    the caller, carries the time of the request as both dates and the
    identifier the store had announced, is appended to the collection, and
    a GET of its identifier by the caller returns exactly it. *)
Theorem X3_created_journal_can_be_read_back
        (rev : Revision) (E : Env) (req : Request) (now : Z) (w w' : World) (j : Journal) :
  reachable w ->
  create rev E req now w = (w', Ok (status_json 201 (PJournal j))) ->
  j_user j = req_user req /\ j_id j = next_id w /\
  j_createdAt j = now /\ j_updatedAt j = now /\
  journals w' = journals w ++ [j] /\ next_id w' = S (next_id w) /\
  get_journal (request (req_user req) (j_id j) []) w' = (w', Ok (json (PJournal j))).
Proof.
  intros Hr Hc. destruct (reachable_tidy w Hr) as (_ & _ & Hlt).
  destruct (analyzeWithAI_never_raises rev E (field req "content") w)
    as (w1 & a & Ha & _ & Hj & _ & Hn).
  unfold create in Hc. rewrite (post_journal_run E _ req now w w1 a Ha) in Hc.
  destruct (validate E (create_doc req a)) as [f|e]; [|discriminate].
  simpl in Hc. injection Hc as <- <-. simpl. rewrite Hj, Hn.
  repeat split.
  match goal with
  | |- get_journal _ ?w' = (_, Ok (json (PJournal ?j0))) =>
      rewrite (get_journal_found _ w' j0)
  end.
  - unfold not_owner. simpl. now rewrite Nat.eqb_refl.
  - simpl. apply find_app_last.
    + intros x Hx. rewrite Forall_forall in Hlt.
      apply list_elem_of_In, Hlt in Hx. simpl. apply Nat.eqb_neq. lia.
    + simpl. apply Nat.eqb_refl.
Qed.

Lemma X3_witness :
  j_user Sample.sunny_entry = req_user Sample.monday /\
  j_id Sample.sunny_entry = next_id Sample.w0 /\
  j_createdAt Sample.sunny_entry = 5 /\ j_updatedAt Sample.sunny_entry = 5 /\
  journals Sample.sunny_world = journals Sample.w0 ++ [Sample.sunny_entry] /\
  next_id Sample.sunny_world = S (next_id Sample.w0) /\
  get_journal (request (req_user Sample.monday) (j_id Sample.sunny_entry) [])
              Sample.sunny_world
    = (Sample.sunny_world, Ok (json (PJournal Sample.sunny_entry))).
Proof.
  apply (X3_created_journal_can_be_read_back
           Part003Js Sample.sunny Sample.monday 5 Sample.w0).
  - apply reachable_empty. reflexivity.
  - reflexivity.
Defined.

Lemma find_after_delete (id : JournalId) (id' : IdParam) (l : list Journal) :
  find (has_id id') (List.filter (fun x => negb (has_id (ObjectId id) x)) l) =
    if bool_decide (id' = ObjectId id) then None else find (has_id id') l.
Proof.
  destruct id' as [n|raw].
  2:{ rewrite !find_not_objectid. now destruct (bool_decide _). }
  induction l as [|x l IH]; [simpl; now destruct (bool_decide _)|].
  cbn [List.filter]. destruct (has_id (ObjectId id) x) eqn:Hx; cbn [negb find].
  - rewrite IH.
    destruct (bool_decide_reflect (ObjectId n = ObjectId id)) as [He|He]; [reflexivity|].
    destruct (has_id (ObjectId n) x) eqn:Hx'; [|reflexivity].
    simpl in Hx, Hx'. apply Nat.eqb_eq in Hx, Hx'. congruence.
  - destruct (has_id (ObjectId n) x) eqn:Hx'; [|apply IH].
    destruct (bool_decide_reflect (ObjectId n = ObjectId id)) as [He|He]; [|reflexivity].
    injection He as ->. congruence.
Qed.

(** X4.  A DELETE by the owner answers 200 "Journal deleted".  From then
    on GET, PUT and DELETE of that identifier answer 404, whoever asks; the
    lookup of every other identifier is as before, and the identifier is not
    handed out again. *)
Theorem X4_deleted_journal_is_gone
        (rev : Revision) (E : Env) (req : Request) (now : Z) (w : World) (j : Journal) :
  find (has_id (req_id req)) (journals w) = Some j ->
  j_user j = req_user req ->
  exists w',
    delete_journal req w = (w', Ok (json (PMessage "Journal deleted"))) /\
    (forall req', req_id req' = req_id req ->
       get_journal req' w' = (w', Ok not_found) /\
       update rev E req' now w' = (w', Ok not_found) /\
       delete_journal req' w' = (w', Ok not_found)) /\
    (forall id, id <> req_id req ->
       find (has_id id) (journals w') = find (has_id id) (journals w)) /\
    next_id w' = next_id w.
Proof.
  intros Hf Hu.
  assert (Ho : not_owner j req = false).
  { unfold not_owner. rewrite Hu. now rewrite Nat.eqb_refl. }
  destruct (find_has_id _ _ _ Hf) as [Hid _].
  rewrite (delete_journal_found req w j Hf), Ho.
  set (w' := set_journals w
               (List.filter (fun x => negb (has_id (ObjectId (j_id j)) x)) (journals w))
               (next_id w)).
  exists w'. split; [reflexivity|].
  assert (Hgone : forall req', req_id req' = req_id req ->
            find (has_id (req_id req')) (journals w') = None).
  { intros req' H. unfold w'. cbn [journals set_journals].
    rewrite find_after_delete, H, Hid. now rewrite bool_decide_eq_true_2. }
  split; [|split; [|reflexivity]].
  - intros req' H. specialize (Hgone req' H).
    rewrite (get_journal_none req' w' Hgone), (delete_journal_none req' w' Hgone).
    unfold update. rewrite (put_journal_none E _ req' now w' Hgone).
    rewrite H, Hid. simpl. auto.
  - intros id Hne. unfold w'. cbn [journals set_journals].
    rewrite find_after_delete. rewrite Hid in Hne. now rewrite bool_decide_eq_false_2.
Qed.

Lemma X4_witness :
  exists w',
    delete_journal (request Sample.alice 0%nat []) Sample.diary
      = (w', Ok (json (PMessage "Journal deleted"))) /\
    (forall req', req_id req' = ObjectId 0%nat ->
       get_journal req' w' = (w', Ok not_found) /\
       update JournalJs Sample.sunny req' 9 w' = (w', Ok not_found) /\
       delete_journal req' w' = (w', Ok not_found)) /\
    (forall id, id <> ObjectId 0%nat ->
       find (has_id id) (journals w') = find (has_id id) (journals Sample.diary)) /\
    next_id w' = next_id Sample.diary.
Proof.
  apply (X4_deleted_journal_is_gone JournalJs Sample.sunny
           (request Sample.alice 0%nat []) 9 Sample.diary
           (Sample.entry 0%nat Sample.alice "happy" 1)); reflexivity.
Defined.

(** ** Partial updates *)

Lemma strings_of_strings (l : list string) : strings_of (map JStr l) = Some l.
Proof. induction l as [|x l IH]; simpl; [reflexivity|]. now rewrite IH. Qed.

Lemma map_trim_trimmed (l : list string) : Forall trimmed l -> map trim l = l.
Proof. induction 1 as [|x l Hx _ IH]; simpl; [reflexivity|]. now rewrite Hx, IH. Qed.

(** An update by the owner that supplies no title and does not change
    the content: the document handed to the store validates as soon as its
    tags do, and only the tags can be modified. *)
Lemma update_of_tags_only (rev : Revision) (E : Env) (req : Request) (now : Z)
      (w : World) (j : Journal) (tags : list string) :
  reachable w ->
  find (has_id (req_id req)) (journals w) = Some j ->
  j_user j = req_user req ->
  truthy (field req "title") = false ->
  content_changed req j = false ->
  check_tags E (js_or (field req "tags") (JArr (map JStr (j_tags j)))) = Ok tags ->
  update rev E req now w =
    if bool_decide (tags = j_tags j)
    then (w, Ok (json (PJournal j)))
    else (set_journals w (replace_doc (retagged j tags now) (journals w)) (next_id w),
          Ok (json (PJournal (retagged j tags now)))).
Proof.
  intros Hr Hf Hu Ht Hch Htags.
  assert (Ho : not_owner j req = false).
  { unfold not_owner. rewrite Hu. now rewrite Nat.eqb_refl. }
  destruct (find_has_id _ _ _ Hf) as [_ Hin].
  destruct (reachable_tidy w Hr) as [Hwf _]. rewrite Forall_forall in Hwf.
  destruct (Hwf j (proj2 (list_elem_of_In _ _) Hin)) as (H1 & H2 & H3 & [H4 H5] & _).
  assert (Henum : in_enum (j_aiMood j) = true) by now rewrite <- H4.
  unfold update.
  rewrite (put_journal_run E _ req now w w j (retained j) Hf Ho)
    by now rewrite Hch.
  set (f := {| f_title := j_title j; f_content := j_content j; f_tags := tags;
               f_aiSummary := j_aiSummary j; f_aiMood := j_aiMood j;
               f_mood := j_aiMood j |}).
  assert (Hv : validate E (update_doc j req (retained j)) = Ok f).
  { unfold validate, update_doc. cbn [r_title r_content r_mood r_aiSummary r_aiMood r_tags
                                       retained summary mood].
    rewrite (unchanged_content_value req j Hch).
    unfold js_or at 1. rewrite Ht. cbn [castString check_required check_mood check_default].
    rewrite H2. apply String.eqb_neq in H1, H3. rewrite H1, H3, Henum, Htags.
    reflexivity. }
  rewrite Hv.
  assert (Hmod : modified j f = negb (bool_decide (tags = j_tags j))).
  { unfold modified. f_equal. apply bool_decide_ext. unfold paths_of, f. split.
    - intros H. now injection H.
    - intros ->. now rewrite H4. }
  rewrite Hmod. destruct (bool_decide (tags = j_tags j)); simpl; [reflexivity|].
  replace (saved j f now) with (retagged j tags now); [reflexivity|].
  unfold saved. rewrite Hmod. unfold document, retagged, f. simpl. now rewrite H4.
Qed.

(** X5.  In every world the routes can produce, a PUT by the owner that
    supplies no title, no tags and no content (or the stored content)
    answers 200 with the journal as it is stored and writes nothing: no path
    is modified, so not even [updatedAt] is refreshed. *)
Theorem X5_update_without_changes_writes_nothing
        (rev : Revision) (E : Env) (req : Request) (now : Z) (w : World) (j : Journal) :
  reachable w ->
  find (has_id (req_id req)) (journals w) = Some j ->
  j_user j = req_user req ->
  truthy (field req "title") = false ->
  truthy (field req "tags") = false ->
  content_changed req j = false ->
  update rev E req now w = (w, Ok (json (PJournal j))).
Proof.
  intros Hr Hf Hu Ht Hg Hch.
  rewrite (update_of_tags_only rev E req now w j (j_tags j)); auto.
  - now rewrite bool_decide_eq_true_2.
  - unfold js_or. rewrite Hg. unfold check_tags, castTagList.
    rewrite strings_of_strings. f_equal. apply map_trim_trimmed.
    destruct (find_has_id _ _ _ Hf) as [_ Hin].
    destruct (reachable_tidy w Hr) as [Hwf _]. rewrite Forall_forall in Hwf.
    now destruct (Hwf j (proj2 (list_elem_of_In _ _) Hin)) as (_ & _ & _ & _ & H).
Qed.

Lemma X5_witness :
  update JournalJs Sample.outage (request Sample.alice 0%nat []) 9 Fixture.tagged_world =
    (Fixture.tagged_world, Ok (json (PJournal Fixture.tagged_entry))).
Proof.
  apply (X5_update_without_changes_writes_nothing
           JournalJs Sample.outage (request Sample.alice 0%nat []) 9
           Fixture.tagged_world Fixture.tagged_entry); try reflexivity.
  apply (reachable_call Sample.w0 JournalJs Sample.sunny (Create Fixture.tagged_request 5)).
  apply reachable_empty. reflexivity.
Defined.

(** X6.  In every world the routes can produce, a PUT by the owner whose
    [tags] is an array of strings, with no title and the content unchanged:
    when the strings, each trimmed, are the stored tags, nothing is written
    and the answer is the journal as stored; otherwise the stored tags are
    replaced by the trimmed strings and [updatedAt] becomes the time of the
    request, all other paths staying.  The empty array, being truthy,
    clears the tags. *)
Theorem X6_update_replaces_tags_even_by_the_empty_array
        (rev : Revision) (E : Env) (req : Request) (now : Z) (w : World) (j : Journal)
        (tags : list string) :
  reachable w ->
  find (has_id (req_id req)) (journals w) = Some j ->
  j_user j = req_user req ->
  truthy (field req "title") = false ->
  field req "tags" = JArr (map JStr tags) ->
  content_changed req j = false ->
  update rev E req now w =
    if bool_decide (map trim tags = j_tags j)
    then (w, Ok (json (PJournal j)))
    else (set_journals w (replace_doc (retagged j (map trim tags) now) (journals w))
                       (next_id w),
          Ok (json (PJournal (retagged j (map trim tags) now)))).
Proof.
  intros Hr Hf Hu Ht Hg Hch.
  apply update_of_tags_only; auto.
  rewrite Hg. unfold js_or. simpl. now rewrite strings_of_strings.
Qed.

Lemma X6_witness :
  update JournalJs Sample.outage (request Sample.alice 0%nat [("tags", JArr [])]) 9
         Fixture.tagged_world =
    if bool_decide (map trim [] = j_tags Fixture.tagged_entry)
    then (Fixture.tagged_world, Ok (json (PJournal Fixture.tagged_entry)))
    else (set_journals Fixture.tagged_world
            (replace_doc (retagged Fixture.tagged_entry (map trim []) 9)
                         (journals Fixture.tagged_world))
            (next_id Fixture.tagged_world),
          Ok (json (PJournal (retagged Fixture.tagged_entry (map trim []) 9)))).
Proof.
  apply (X6_update_replaces_tags_even_by_the_empty_array
           JournalJs Sample.outage (request Sample.alice 0%nat [("tags", JArr [])]) 9
           Fixture.tagged_world Fixture.tagged_entry []); try reflexivity.
  apply (reachable_call Sample.w0 JournalJs Sample.sunny (Create Fixture.tagged_request 5)).
  apply reachable_empty. reflexivity.
Defined.

(** ** The list route *)

Lemma insert_desc_perm (j : Journal) (l : list Journal) :
  Permutation (insert_desc j l) (j :: l).
Proof.
  induction l as [|x l IH]; simpl; [reflexivity|].
  destruct (j_createdAt x <=? j_createdAt j); [reflexivity|].
  rewrite IH. apply perm_swap.
Qed.

Lemma sort_desc_perm (l : list Journal) : Permutation (sort_desc l) l.
Proof.
  induction l as [|x l IH]; simpl; [reflexivity|].
  unfold sort_desc in *. simpl. rewrite insert_desc_perm. now constructor.
Qed.

Lemma insert_desc_sorted (j : Journal) (l : list Journal) :
  Sorted not_older l -> Sorted not_older (insert_desc j l).
Proof.
  induction 1 as [|x l Hl IH Hx]; simpl.
  - repeat constructor.
  - destruct (Z.leb_spec (j_createdAt x) (j_createdAt j)) as [Hle|Hlt].
    + constructor; [now constructor|]. constructor. exact Hle.
    + constructor; [exact IH|].
      destruct l as [|y l]; simpl.
      * constructor. unfold not_older. lia.
      * inversion Hx; subst.
        destruct (j_createdAt y <=? j_createdAt j); constructor;
          unfold not_older in *; lia.
Qed.

Lemma sort_desc_sorted (l : list Journal) : Sorted not_older (sort_desc l).
Proof.
  induction l as [|x l IH]; simpl; [constructor|].
  unfold sort_desc in *. simpl. now apply insert_desc_sorted.
Qed.

(** X7.  GET /api/journals answers 200 with a rearrangement of exactly
    the caller's journals, the most recent first, and changes nothing. *)
Theorem X7_list_returns_the_callers_journals_most_recent_first
        (req : Request) (w : World) :
  exists l,
    get_journals req w = (w, Ok (json (PJournals l))) /\
    Permutation l (List.filter (owned_by (req_user req)) (journals w)) /\
    Sorted not_older l /\
    (forall j, In j l <-> In j (journals w) /\ j_user j = req_user req).
Proof.
  eexists. split; [reflexivity|].
  split; [apply sort_desc_perm|]. split; [apply sort_desc_sorted|].
  intros j. rewrite <- !list_elem_of_In, (sort_desc_perm _), !list_elem_of_In.
  rewrite filter_In. unfold owned_by. now rewrite Nat.eqb_eq.
Qed.

(** ** The mood statistics *)

Lemma bump_mood_lookup (acc : gmap string nat) (m k : string) :
  bump_mood acc m !! k =
    if String.eqb m k then Some (default 0%nat (acc !! k) + 1)%nat else acc !! k.
Proof.
  unfold bump_mood. destruct (String.eqb_spec m k) as [->|Hne].
  - now rewrite lookup_insert_eq.
  - now rewrite lookup_insert_ne.
Qed.

Lemma fold_bump_mood_lookup (rev : Revision) (js : list Journal) :
  forall (acc : gmap string nat) (k : string),
    fold_left (fun acc j => bump_mood acc (mood_key rev j)) js acc !! k =
      match count_key rev k js with
      | O => acc !! k
      | S n => Some (default 0%nat (acc !! k) + S n)%nat
      end.
Proof.
  unfold count_key.
  induction js as [|j js IH]; intros acc k; simpl; [reflexivity|].
  rewrite IH, bump_mood_lookup.
  destruct (String.eqb (mood_key rev j) k); simpl.
  - destruct (length _); simpl; f_equal; lia.
  - reflexivity.
Qed.

Lemma total_insert (m : gmap string nat) (k : string) (n : nat) :
  m !! k = None -> total (<[k := n]> m) = (n + total m)%nat.
Proof.
  intros Hk. unfold total. apply map_fold_insert_L; [|assumption].
  intros. lia.
Qed.

Lemma total_bump (m : gmap string nat) (k : string) :
  total (bump_mood m k) = S (total m).
Proof.
  unfold bump_mood. destruct (m !! k) as [n|] eqn:Hk; simpl.
  - rewrite <- (insert_delete_id m k n Hk) at 2.
    rewrite <- insert_delete_eq.
    rewrite !total_insert by apply lookup_delete_eq. lia.
  - rewrite total_insert by assumption. lia.
Qed.

Lemma total_moodCount (rev : Revision) (js : list Journal) :
  total (moodCount rev js) = length js.
Proof.
  unfold moodCount.
  assert (H : forall acc,
             total (fold_left (fun acc j => bump_mood acc (mood_key rev j)) js acc)
             = (length js + total acc)%nat).
  { induction js as [|j js IH]; intros acc; simpl; [reflexivity|].
    rewrite IH, total_bump. lia. }
  rewrite H. unfold total. rewrite map_fold_empty. lia.
Qed.

Lemma mood_key_agree (j : Journal) :
  j_mood j <> "" -> mood_key Part003Js j = mood_key JournalJs j.
Proof.
  intros H. simpl. apply String.eqb_neq in H. now rewrite H.
Qed.

Lemma moodCount_agree (rev : Revision) (js : list Journal) :
  Forall (fun j => j_mood j <> "") js -> moodCount rev js = moodCount JournalJs js.
Proof.
  intros H. unfold moodCount. generalize (∅ : gmap string nat).
  induction H as [|j js Hj _ IH]; intros acc; simpl; [reflexivity|].
  replace (mood_key rev j) with (mood_key JournalJs j); [apply IH|].
  destruct rev; [reflexivity|]. symmetry. now apply mood_key_agree.
Qed.

Lemma in_enum_In (s : string) : in_enum s = true <-> In s MOODS.
Proof.
  unfold in_enum. rewrite existsb_exists. split.
  - intros (m & Hm & He). apply String.eqb_eq in He. now subst.
  - intros H. exists s. split; [assumption|apply String.eqb_refl].
Qed.

(** X8.  GET /api/journals/stats/moods answers 200 with a table that
    gives, for each key, the number of the caller's journals counted under
    it, has no key with count zero, adds up to the number of the caller's
    journals, and leaves the world alone.  In every world the routes can
    produce the two revisions answer the same table, and each of its keys
    is a mood of the enum. *)
Theorem X8_mood_statistics_count_the_callers_journals
        (rev : Revision) (req : Request) (w : World) :
  exists m,
    get_stats_moods rev req w = (w, Ok (reply 200 (AMoods m))) /\
    (forall k, m !! k =
               match count_key rev k (List.filter (owned_by (req_user req)) (journals w)) with
               | O => None
               | S n => Some (S n)
               end) /\
    total m = length (List.filter (owned_by (req_user req)) (journals w)) /\
    (reachable w ->
     m = moodCount JournalJs (List.filter (owned_by (req_user req)) (journals w)) /\
     (forall k, is_Some (m !! k) -> In k MOODS)).
Proof.
  eexists. split; [reflexivity|].
  set (mine := List.filter (owned_by (req_user req)) (journals w)).
  assert (Hlook : forall k, moodCount rev mine !! k =
                            match count_key rev k mine with
                            | O => None
                            | S n => Some (S n)
                            end).
  { intros k. unfold moodCount. now rewrite fold_bump_mood_lookup, lookup_empty. }
  split; [exact Hlook|]. split; [apply total_moodCount|].
  intros Hr. destruct (reachable_tidy w Hr) as [Hwf _].
  assert (Hmine : Forall (fun j => in_enum (j_mood j) = true) mine).
  { apply Forall_forall. intros j Hj. apply list_elem_of_In in Hj.
    apply filter_In in Hj as [Hj _]. rewrite Forall_forall in Hwf.
    now destruct (Hwf j (proj2 (list_elem_of_In _ _) Hj)) as (_ & _ & _ & [_ H] & _). }
  assert (Hne : Forall (fun j => j_mood j <> "") mine).
  { eapply Forall_impl; [exact Hmine|]. simpl. intros j Hj He.
    rewrite He in Hj. discriminate. }
  split; [now apply moodCount_agree|].
  intros k [n Hk]. rewrite Hlook in Hk.
  destruct (count_key rev k mine) eqn:Hc; [discriminate|].
  unfold count_key in Hc.
  destruct (List.filter _ mine) as [|j rest] eqn:Hfil; [discriminate|].
  assert (Hj : In j (List.filter (fun j => String.eqb (mood_key rev j) k) mine))
    by (rewrite Hfil; now left).
  apply filter_In in Hj as [Hj Hkey]. apply String.eqb_eq in Hkey.
  rewrite Forall_forall in Hmine, Hne.
  apply list_elem_of_In in Hj.
  rewrite <- Hkey. replace (mood_key rev j) with (j_mood j).
  - apply in_enum_In. now apply Hmine.
  - destruct rev; [reflexivity|]. symmetry. apply (mood_key_agree j). now apply Hne.
Qed.

Lemma X8_witness :
  exists m,
    get_stats_moods Part003Js (request Sample.alice 0%nat []) Sample.sunny_world
      = (Sample.sunny_world, Ok (reply 200 (AMoods m))) /\
    m = moodCount JournalJs
          (List.filter (owned_by Sample.alice) (journals Sample.sunny_world)) /\
    (forall k, is_Some (m !! k) -> In k MOODS).
Proof.
  destruct (X8_mood_statistics_count_the_callers_journals
              Part003Js (request Sample.alice 0%nat []) Sample.sunny_world)
    as (m & Hrun & _ & _ & Hreach).
  exists m. split; [exact Hrun|]. apply Hreach.
  apply (reachable_call Sample.w0 Part003Js Sample.sunny (Create Sample.monday 5)).
  apply reachable_empty. reflexivity.
Defined.

(** ** The daily trivia of part_003 *)

Lemma trivia_events_shape (parsed : JSValue) (events : list JSValue) :
  trivia_events parsed = Ok events ->
  Forall (fun v => truthy v = true) events /\ (length events <= 3)%nat.
Proof.
  unfold trivia_events. intros H.
  destruct (getProp parsed "event1") as [e1|]; [|discriminate].
  destruct (getProp parsed "event2") as [e2|]; [|discriminate].
  destruct (getProp parsed "event3") as [e3|]; [|discriminate].
  assert (Hall : forall l, Forall (fun v => truthy v = true) (List.filter truthy l)).
  { intros l. apply Forall_forall. intros v Hv. apply list_elem_of_In in Hv.
    now apply filter_In in Hv as [_ Hv]. }
  assert (Hlen : forall l : list JSValue,
             (length (List.filter truthy l) <= length l)%nat).
  { induction l as [|x l IH]; simpl; [lia|]. destruct (truthy x); simpl; lia. }
  injection H as <-. split.
  - exact (Hall [js_or e1 (JStr ""); js_or e2 (JStr ""); js_or e3 (JStr "")]).
  - exact (Hlen [js_or e1 (JStr ""); js_or e2 (JStr ""); js_or e3 (JStr "")]).
Qed.

Lemma trivia_parse_run (E : Env) (text : option string) (w : World) :
  exists o, trivia_parse E text w = (w, o).
Proof.
  unfold trivia_parse, try_catch, lift, ret.
  destruct text as [t|]; [|eauto].
  destruct (JSON_parse E t); [eauto|].
  destruct (match_braces t); [|eauto].
  destruct (JSON_parse E s); eauto.
Qed.

Lemma fallback_facts_shape :
  Forall (fun v => truthy v = true) fallback_facts /\ (length fallback_facts <= 3)%nat.
Proof. split; [repeat constructor|simpl; lia]. Qed.

(** X9.  The trivia route of part_003 never answers an error: whatever
    the provider, the decoder and the stored state do, the answer is 200
    with at most three events, none of them falsy, and the collections and
    the cached client are as before.  It reads the cached client directly:
    while none has been created it answers the three stock sentences
    without a provider call, even with an API key configured; once one
    exists it sends exactly one prompt. *)
Theorem X9_trivia_always_answers
        (C : Calendar) (stringify : SDKResult -> option string)
        (E : Env) (now : Z) (w : World) :
  exists w' date events,
    get_trivia_daily C stringify E now w = (w', Ok (reply 200 (ATrivia date events))) /\
    journals w' = journals w /\ challenges w' = challenges w /\
    next_id w' = next_id w /\ genAI w' = genAI w /\
    Forall (fun v => truthy v = true) events /\ (length events <= 3)%nat /\
    (genAI w = None ->
     w' = w /\ date = trivia_label C now /\ events = offline_facts) /\
    (forall c, genAI w = Some c ->
               calls w' = calls w ++ [trivia_prompt (trivia_label C now)]).
Proof.
  unfold get_trivia_daily, try_catch, bind, read_genAI.
  destruct (genAI w) as [c|] eqn:Hg.
  2:{ exists w, (trivia_label C now), offline_facts. simpl.
      repeat split; auto; try discriminate. repeat constructor. }
  unfold callProvider, lift, ret.
  set (w1 := {| journals := journals w; challenges := challenges w;
                next_id := next_id w; genAI := genAI w;
                calls := calls w ++ [trivia_prompt (trivia_label C now)] |}).
  assert (Hfall : exists w' date events,
             (w1, Ok (reply 200 (ATrivia (locale_date C now) fallback_facts)))
               = (w', Ok (reply 200 (ATrivia date events))) /\
             journals w' = journals w /\ challenges w' = challenges w /\
             next_id w' = next_id w /\ genAI w' = Some c /\
             Forall (fun v => truthy v = true) events /\ (length events <= 3)%nat /\
             (Some c = None ->
              w' = w /\ date = trivia_label C now /\ events = offline_facts) /\
             (forall c0, Some c = Some c0 ->
                         calls w' = calls w ++ [trivia_prompt (trivia_label C now)])).
  { exists w1, (locale_date C now), fallback_facts.
    destruct fallback_facts_shape. repeat split; auto; discriminate. }
  destruct (generateContent E c _) as [result|e]; [|exact Hfall].
  destruct (trivia_text stringify result) as [text|e]; [|exact Hfall].
  destruct (trivia_parse_run E text w1) as [o ->].
  destruct o as [parsed|e]; [|exact Hfall].
  destruct (trivia_events parsed) as [events|e] eqn:Hev; [|exact Hfall].
  destruct (trivia_events_shape parsed events Hev).
  exists w1, (trivia_label C now), events. repeat split; auto; discriminate.
Qed.

Lemma X9_witness :
  exists w' date events,
    get_trivia_daily Fixture.new_year Fixture.no_stringify Sample.sunny 5 Sample.w0
      = (w', Ok (reply 200 (ATrivia date events))) /\
    w' = Sample.w0 /\ date = "January 1" /\ events = offline_facts.
Proof.
  destruct (X9_trivia_always_answers Fixture.new_year Fixture.no_stringify
              Sample.sunny 5 Sample.w0)
    as (w' & date & events & Hrun & _ & _ & _ & _ & _ & _ & Hnone & _).
  exists w', date, events. split; [exact Hrun|]. apply Hnone. reflexivity.
Defined.

(** ** The lazily created client of part_003 *)

Lemma initGenAI_cached (E : Env) (w : World) (c : Client) :
  genAI w = Some c -> Part003.initGenAI E w = (w, Ok (Some c)).
Proof. intros H. unfold Part003.initGenAI. now rewrite H. Qed.

Lemma initGenAI_some (E : Env) (w w1 : World) (c : Client) :
  Part003.initGenAI E w = (w1, Ok (Some c)) -> genAI w1 = Some c /\ calls w1 = calls w.
Proof.
  unfold Part003.initGenAI. destruct (genAI w) as [c0|] eqn:Hg.
  - intros H. injection H as <- <-. auto.
  - destruct (Part003.key_set (GEMINI_API_KEY E)); simpl; [|discriminate].
    unfold try_catch, bind, lift, Part003.set_genAI, ret.
    destruct (newGoogleGenerativeAI E (GEMINI_API_KEY E)); simpl; [|discriminate].
    intros H. injection H as <- <-. auto.
Qed.

Lemma initGenAI_none (E : Env) (w w1 : World) :
  Part003.initGenAI E w = (w1, Ok None) -> w1 = w /\ genAI w = None.
Proof.
  unfold Part003.initGenAI. destruct (genAI w) as [c0|] eqn:Hg; [discriminate|].
  destruct (Part003.key_set (GEMINI_API_KEY E)); simpl.
  - unfold try_catch, bind, lift, Part003.set_genAI, ret.
    destruct (newGoogleGenerativeAI E (GEMINI_API_KEY E)); simpl; [discriminate|].
    intros H. injection H as <-. auto.
  - intros H. injection H as <-. auto.
Qed.

(** X10.  [initGenAI] creates the client at most once.  When it returns a
    client, that client is cached, and every later call returns it as it is,
    whatever the environment has become (a key removed, a constructor that
    would now raise); no prompt is sent.  When it returns null nothing was
    cached and the world is as before, so the next call tries again.  And
    [analyzeWithAI] caches the client before it looks at the content: with a
    key configured and a constructor that succeeds, the client exists after
    the call even for an empty content. *)
Theorem X10_client_is_created_once_and_kept (E : Env) (w : World) :
  (forall w1 c,
      Part003.initGenAI E w = (w1, Ok (Some c)) ->
      genAI w1 = Some c /\ calls w1 = calls w /\
      forall E', Part003.initGenAI E' w1 = (w1, Ok (Some c))) /\
  (forall w1, Part003.initGenAI E w = (w1, Ok None) -> w1 = w /\ genAI w = None) /\
  (forall c content w1 o,
      genAI w = None ->
      Part003.key_set (GEMINI_API_KEY E) = true ->
      newGoogleGenerativeAI E (GEMINI_API_KEY E) = Ok c ->
      Part003.analyzeWithAI E content w = (w1, o) ->
      genAI w1 = Some c).
Proof.
  split; [|split].
  - intros w1 c H. destruct (initGenAI_some E w w1 c H) as [Hg Hc].
    repeat split; auto. intros E'. now apply initGenAI_cached.
  - apply initGenAI_none.
  - intros c content w1 o Hg Hk Hn Hrun.
    unfold Part003.analyzeWithAI, bind in Hrun.
    assert (Hi : exists w0,
               Part003.initGenAI E w = (w0, Ok (Some c)) /\ genAI w0 = Some c).
    { unfold Part003.initGenAI. rewrite Hg, Hk. simpl.
      unfold try_catch, bind, lift, Part003.set_genAI, ret. rewrite Hn. simpl.
      eexists. split; reflexivity. }
    destruct Hi as (w0 & Hi & Hg0). rewrite Hi in Hrun.
    destruct (truthy content); simpl in Hrun.
    + unfold try_catch in Hrun.
      destruct (part_003_try_run E c content w0) as (w' & o' & Hrun' & _ & _ & _).
      assert (Hg' : genAI w' = genAI w0).
      { revert Hrun'. unfold Part003.analyze_try, bind, lift, callProvider.
        destruct (generateContent E c _) as [result|e]; simpl.
        2:{ intros H. now injection H as <- _. }
        destruct (Part003.extract_text result) as [text|e]; simpl.
        2:{ intros H. now injection H as <- _. }
        match goal with |- context [Part003.parse_lenient E text ?w2] =>
          destruct (parse_lenient_run E text w2) as [v ->] end.
        intros H. now injection H as <- _. }
      rewrite Hrun' in Hrun. destruct o'; injection Hrun as <- _; congruence.
    + injection Hrun as <- _. exact Hg0.
Qed.

Lemma X10_witness :
  exists w1 c,
    Part003.initGenAI Sample.sunny Sample.w0 = (w1, Ok (Some c)) /\
    genAI w1 = Some c /\ calls w1 = calls Sample.w0 /\
    forall E', Part003.initGenAI E' w1 = (w1, Ok (Some c)).
Proof.
  eexists _, _. split; [reflexivity|].
  apply (proj1 (X10_client_is_created_once_and_kept Sample.sunny Sample.w0)).
  reflexivity.
Defined.

(** ** The brace span the lenient decode falls back to *)

Local Open Scope string_scope.

Lemma is_char_eq (n : nat) (c : ascii) :
  (n < 256)%nat -> is_char n c = true -> c = ascii_of_nat n.
Proof.
  unfold is_char. intros _ H. apply Nat.eqb_eq in H. subst. symmetry.
  apply ascii_nat_embedding.
Qed.

Lemma from_first_open_some (s suf : string) :
  from_first_open s = Some suf ->
  exists pre r, s = pre ++ suf /\ suf = open_brace ++ r /\ contains 123 pre = false.
Proof.
  revert suf. induction s as [|c s IH]; simpl; intros suf H; [discriminate|].
  destruct (is_char 123 c) eqn:Hc.
  - injection H as <-. exists "", s. repeat split.
    unfold open_brace. push_append. f_equal. apply (is_char_eq 123); [lia|assumption].
  - destruct (IH suf H) as (pre & r & -> & Hr & Hpre).
    exists (String c pre), r. push_append. simpl. rewrite Hc. auto.
Qed.

Lemma from_first_open_none (s : string) :
  from_first_open s = None <-> contains 123 s = false.
Proof.
  induction s as [|c s IH]; simpl; [tauto|].
  destruct (is_char 123 c); simpl; [split; discriminate|exact IH].
Qed.

Lemma through_last_close_none (s : string) :
  through_last_close s = None <-> contains 125 s = false.
Proof.
  induction s as [|c s IH]; simpl; [tauto|].
  destruct (through_last_close s) as [p|].
  - split; [discriminate|]. intros H. apply orb_false_iff in H as [_ H].
    apply IH in H. discriminate.
  - destruct (is_char 125 c); simpl; [split; discriminate|].
    split; [intros _; now apply IH|reflexivity].
Qed.

Lemma through_last_close_some (s p : string) :
  through_last_close s = Some p ->
  exists inner post, s = p ++ post /\ p = inner ++ close_brace /\ contains 125 post = false.
Proof.
  revert p. induction s as [|c s IH]; simpl; intros p H; [discriminate|].
  destruct (through_last_close s) as [q|] eqn:Hq.
  - injection H as <-. destruct (IH q eq_refl) as (inner & post & -> & -> & Hpost).
    exists (String c inner), post. auto.
  - destruct (is_char 125 c) eqn:Hc; [|discriminate]. injection H as <-.
    exists "", s. repeat split.
    + unfold close_brace. push_append. f_equal. apply (is_char_eq 125); [lia|assumption].
    + now apply through_last_close_none.
Qed.

Lemma through_last_close_full (inner : string) :
  through_last_close (inner ++ close_brace) = Some (inner ++ close_brace).
Proof.
  unfold close_brace.
  induction inner as [|c r IH]; push_append; simpl; [reflexivity|]. now rewrite IH.
Qed.

(** X11.  The pattern [/\{[\s\S]*\}/] as the lenient decode uses it: a
    match runs from the first opening brace of the text to its last closing
    brace, so no opening brace is left before it and no closing brace after
    it, and matching the match again returns it.  There is no match exactly
    when the text has no opening brace, or no closing brace after the first
    opening one. *)
Theorem X11_match_spans_first_open_to_last_close (text : string) :
  (forall m, match_braces text = Some m ->
     exists pre inner post,
       text = pre ++ m ++ post /\ m = open_brace ++ inner ++ close_brace /\
       contains 123 pre = false /\ contains 125 post = false /\
       match_braces m = Some m) /\
  (match_braces text = None <->
     contains 123 text = false \/
     exists pre r, text = pre ++ open_brace ++ r /\
                   contains 123 pre = false /\ contains 125 r = false).
Proof.
  unfold match_braces. split.
  - intros m H.
    destruct (from_first_open text) as [suf|] eqn:Hf; [|discriminate].
    destruct (from_first_open_some text suf Hf) as (pre & r & -> & -> & Hpre).
    unfold open_brace in H. rewrite append_cons, append_nil in H.
    destruct (through_last_close r) as [p|] eqn:Hp; [|discriminate].
    injection H as <-.
    destruct (through_last_close_some r p Hp) as (inner & post & -> & -> & Hpost).
    exists pre, inner, post. repeat split; auto.
    simpl. now rewrite through_last_close_full.
  - split.
    + intros H. destruct (from_first_open text) as [suf|] eqn:Hf.
      * right. destruct (from_first_open_some text suf Hf) as (pre & r & -> & -> & Hpre).
        unfold open_brace in H. rewrite append_cons, append_nil in H.
        exists pre, r. repeat split; auto.
        apply through_last_close_none.
        now destruct (through_last_close r).
      * left. now apply from_first_open_none.
    + intros [H | (pre & r & -> & Hpre & Hr)].
      * apply from_first_open_none in H. now rewrite H.
      * assert (Hf : from_first_open (pre ++ open_brace ++ r) = Some (open_brace ++ r)).
        { clear Hr. unfold open_brace.
          induction pre as [|c pre IH]; push_append; simpl; [reflexivity|].
          simpl in Hpre. apply orb_false_iff in Hpre as [Hc Hpre].
          rewrite Hc. auto. }
        rewrite Hf. unfold open_brace. push_append.
        apply through_last_close_none in Hr. now rewrite Hr.
Qed.

Lemma X11_witness :
  exists pre inner post,
    Sample.reply_text "s" "calm" = pre ++ Sample.reply_text "s" "calm" ++ post /\
    Sample.reply_text "s" "calm" = open_brace ++ inner ++ close_brace /\
    contains 123 pre = false /\ contains 125 post = false /\
    match_braces (Sample.reply_text "s" "calm") = Some (Sample.reply_text "s" "calm").
Proof.
  apply (proj1 (X11_match_spans_first_open_to_last_close (Sample.reply_text "s" "calm"))).
  reflexivity.
Defined.


Lemma from_first_open_app (pre rest : string) :
  contains 123 pre = false ->
  from_first_open (pre ++ open_brace ++ rest) = Some (open_brace ++ rest).
Proof.
  unfold open_brace.
  induction pre as [|c pre IH]; push_append; simpl; [reflexivity|].
  intros H. apply orb_false_iff in H as [Hc Hpre]. rewrite Hc. auto.
Qed.

Lemma through_last_close_app (inner post : string) :
  contains 125 post = false ->
  through_last_close ((inner ++ close_brace) ++ post) = Some (inner ++ close_brace).
Proof.
  intros Hpost. apply through_last_close_none in Hpost. unfold close_brace.
  induction inner as [|c r IH]; push_append; simpl.
  - now rewrite Hpost.
  - now rewrite IH.
Qed.

Lemma match_braces_app (pre inner post : string) :
  contains 123 pre = false -> contains 125 post = false ->
  match_braces (pre ++ (open_brace ++ inner ++ close_brace) ++ post)
    = Some (open_brace ++ inner ++ close_brace).
Proof.
  intros Hpre Hpost. unfold match_braces.
  replace (pre ++ (open_brace ++ inner ++ close_brace) ++ post)
    with (pre ++ open_brace ++ ((inner ++ close_brace) ++ post)) by reflexivity.
  rewrite from_first_open_app by assumption.
  unfold open_brace. push_append. now rewrite through_last_close_app.
Qed.

(** X12.  A reply that wraps one JSON object in prose is still decoded
    by part_003: when the strict decode of the text fails, the text has no
    opening brace before the object and no closing brace after it, and the
    object decodes, [analyzeWithAI] returns the summary and mood of that
    object.  journal.js, which has the strict decode only, returns the
    fallback for the same reply. *)
Theorem X12_reply_wrapped_in_prose_is_decoded_by_part_003
        (E : Env) (c : Client) (content : JSValue) (w : World)
        (result : SDKResult) (pre inner post : string) (e : Error)
        (parsed : JSValue) (a : Analysis) :
  genAI w = Some c -> truthy content = true ->
  generateContent E c (Part003.prompt content) = Ok result ->
  Part003.extract_text result = Ok (pre ++ (open_brace ++ inner ++ close_brace) ++ post) ->
  JSON_parse E (pre ++ (open_brace ++ inner ++ close_brace) ++ post) = Throw e ->
  contains 123 pre = false -> contains 125 post = false ->
  JSON_parse E (open_brace ++ inner ++ close_brace) = Ok parsed ->
  normalize parsed = Ok a ->
  (exists w1, Part003.analyzeWithAI E content w = (w1, Ok a)) /\
  (generateContent E (RoutesJournal.genAI E) (RoutesJournal.prompt content)
     = Ok (ResResponse (RespText
             (TextReturns (pre ++ (open_brace ++ inner ++ close_brace) ++ post)))) ->
   exists w1, RoutesJournal.analyzeWithAI E content w = (w1, Ok fallback)).
Proof.
  intros Hc Ht Hg Hx Hp Hpre Hpost Hm Hn. split.
  - unfold Part003.analyzeWithAI, bind, Part003.initGenAI. rewrite Hc, Ht. simpl.
    unfold try_catch, Part003.analyze_try, bind, lift, callProvider.
    rewrite Hg. simpl. rewrite Hx.
    unfold Part003.parse_lenient, try_catch, lift, ret.
    assert (Hne : String.eqb (pre ++ (open_brace ++ inner ++ close_brace) ++ post) ""
                  = false).
    { destruct pre; reflexivity. }
    rewrite Hne, Hp, match_braces_app, Hm by assumption. simpl.
    rewrite Hn. eexists. reflexivity.
  - intros Hg'.
    unfold RoutesJournal.analyzeWithAI, try_catch, RoutesJournal.analyze_try,
      bind, lift, callProvider.
    rewrite Hg'. simpl. rewrite Hp. eexists. reflexivity.
Qed.

Lemma X12_witness :
  (exists w1,
     Part003.analyzeWithAI Fixture.chatty (JStr "Dear diary")
       (world_with_client (mkClient (Some "test-key")))
       = (w1, Ok {| summary := JStr "A good day."; mood := JStr "happy" |})) /\
  (exists w1,
     RoutesJournal.analyzeWithAI Fixture.chatty (JStr "Dear diary")
       (world_with_client (mkClient (Some "test-key")))
       = (w1, Ok fallback)).
Proof.
  pose proof (X12_reply_wrapped_in_prose_is_decoded_by_part_003
                Fixture.chatty (mkClient (Some "test-key")) (JStr "Dear diary")
                (world_with_client (mkClient (Some "test-key")))
                (ResResponse (RespText (TextReturns Fixture.chatty_text)))
                "Here is the analysis: "
                (String.substring 1 38 (Sample.reply_text "A good day." "happy"))
                " Hope it helps."
                (SyntaxError "Unexpected token in JSON")
                (Sample.reply_value "A good day." "happy")
                {| summary := JStr "A good day."; mood := JStr "happy" |}) as H.
  destruct H as [H1 H2]; try reflexivity.
  split; [exact H1|]. apply H2. reflexivity.
Defined.

Local Close Scope string_scope.

(** ** Bounds of the streak *)

Lemma count_run_le (days : list Z) : forall prev, (count_run prev days <= length days)%nat.
Proof.
  induction days as [|d days IH]; intros prev; simpl; [lia|].
  destruct (prev - d =? 1); [|lia]. specialize (IH d). lia.
Qed.

Lemma walk_days_bounds (days : list Z) :
  forall cursor acc,
    (acc <= walk_days cursor days acc <= acc + length days)%nat.
Proof.
  induction days as [|d days IH]; intros cursor acc; simpl; [lia|].
  destruct ((cursor - d =? 0) || (cursor - d =? 1)); [|lia].
  specialize (IH (d - 1) (S acc)). lia.
Qed.

Lemma days_of_length (tz : Z) (js : list Journal) : length (days_of (fixed tz) js) = length js.
Proof. unfold days_of. apply length_map. Qed.

(** The loops never lose what they have counted, and count each entry at
    most once. *)
Lemma streak_loop_bounds (z : Zone) (js : list Journal) :
  forall acc,
    (acc <= RoutesJournal.streak_loop z js acc <= acc + pred (length js))%nat.
Proof.
  induction js as [|j js IH]; intros acc; [simpl; lia|].
  destruct js as [|k rest]; [simpl; lia|].
  rewrite journal_js_loop_step. destruct (_ =? 1); [|lia].
  specialize (IH (S acc)). simpl in IH |- *. lia.
Qed.

Lemma streak_walk_bounds (z : Zone) (js : list Journal) :
  forall cursor acc,
    (acc <= Part003.streak_walk z js cursor acc <= acc + length js)%nat.
Proof.
  induction js as [|j js IH]; intros cursor acc; simpl; [lia|].
  destruct ((_ =? 0) || (_ =? 1)); [|lia].
  match goal with |- context [Part003.streak_walk z js ?c (S acc)] =>
    specialize (IH c (S acc)) end.
  lia.
Qed.

Lemma floor_days_two (a b : Z) :
  (floor_days a b >? 1) = true <-> 2 * day_ms <= a - b.
Proof.
  unfold floor_days. assert (Hd : 0 < day_ms) by (unfold day_ms; lia).
  rewrite Z.gtb_gt. split; intros H.
  - destruct (Z.le_gt_cases (2 * day_ms) (a - b)) as [|Hlt]; [assumption|].
    apply (Z.div_lt_upper_bound _ _ 2 Hd) in Hlt; lia.
  - pose proof (Z.div_le_lower_bound (a - b) day_ms 2 Hd). lia.
Qed.

Lemma floor_days_zero_or_one (a b : Z) :
  (floor_days a b =? 0) || (floor_days a b =? 1) = true <-> 0 <= a - b < 2 * day_ms.
Proof.
  unfold floor_days. assert (Hd : 0 < day_ms) by (unfold day_ms; lia).
  rewrite orb_true_iff, !Z.eqb_eq. split.
  - intros H.
    pose proof (Z.mul_div_le (a - b) day_ms Hd).
    pose proof (Z.mul_succ_div_gt (a - b) day_ms Hd).
    destruct H as [H|H]; rewrite H in *; lia.
  - intros [Hlo Hhi].
    pose proof (Z.div_pos (a - b) day_ms Hlo Hd).
    pose proof (Z.div_lt_upper_bound (a - b) day_ms 2 Hd). lia.
Qed.

(** X13.  Both revisions report a streak of at most the number of
    entries.  journal.js reports 0 exactly when there is no entry or the
    local midnight before the most recent entry lies two whole days (48
    hours) or more before the local midnight before now; part_003 reports 0
    exactly when there is no entry or that distance is negative or two whole
    days or more, so an entry dated after today also gives 0 there.  The
    client's [calculateStreak] is the streak of journal.js on the journals
    sorted most recent first.  In a zone without clock changes the distance
    of two local midnights in whole days is the difference of the calendar
    days. *)
Theorem X13_streak_bounds_and_zero (z : Zone) (now : Z) (js : list Journal) :
  (RoutesJournal.streak_of z now js <= length js)%nat /\
  (Part003.streak_of z now js <= length js)%nat /\
  (RoutesJournal.streak_of z now js = 0%nat <->
   js = [] \/ exists first rest,
                js = first :: rest /\
                2 * day_ms <= setHours0 z now - setHours0 z (j_createdAt first)) /\
  (Part003.streak_of z now js = 0%nat <->
   js = [] \/ exists first rest,
                js = first :: rest /\
                ~ (0 <= setHours0 z now - setHours0 z (j_createdAt first) < 2 * day_ms)) /\
  App.calculateStreak z now js = RoutesJournal.streak_of z now (sort_desc js) /\
  (forall tz a b,
      floor_days (setHours0 (fixed tz) a) (setHours0 (fixed tz) b)
        = local_day (fixed tz) a - local_day (fixed tz) b).
Proof.
  split; [|split; [|split; [|split; [|split]]]].
  - destruct js as [|j rest]; [simpl; lia|].
    unfold RoutesJournal.streak_of. destruct (_ >? 1); [simpl; lia|].
    pose proof (streak_loop_bounds z (j :: rest) 1). simpl in *. lia.
  - destruct js as [|j rest]; [simpl; lia|].
    unfold Part003.streak_of.
    pose proof (streak_walk_bounds z (j :: rest) (setHours0 z now) 0). lia.
  - destruct js as [|j rest].
    + simpl. split; [now left|reflexivity].
    + unfold RoutesJournal.streak_of.
      pose proof (floor_days_two (setHours0 z now) (setHours0 z (j_createdAt j))) as Htwo.
      pose proof (streak_loop_bounds z (j :: rest) 1) as Hb.
      destruct (floor_days _ _ >? 1).
      * split; [|reflexivity]. intros _. right. exists j, rest.
        split; [reflexivity|]. now apply Htwo.
      * split; [lia|]. intros [H|(f & r & H & Hd)]; [discriminate|].
        injection H as <- <-. apply Htwo in Hd. discriminate.
  - destruct js as [|j rest].
    + simpl. split; [now left|reflexivity].
    + unfold Part003.streak_of. cbn [Part003.streak_walk].
      pose proof (floor_days_zero_or_one (setHours0 z now) (setHours0 z (j_createdAt j)))
        as Hz.
      destruct ((_ =? 0) || (_ =? 1)).
      * match goal with |- context [Part003.streak_walk z rest ?c 1] =>
          pose proof (streak_walk_bounds z rest c 1) as Hb end.
        split; [lia|]. intros [H|(f & r & H & Hn)]; [discriminate|].
        injection H as <- <-. exfalso. apply Hn. now apply Hz.
      * split; [|reflexivity]. intros _. right. exists j, rest.
        split; [reflexivity|]. intros H. apply Hz in H. discriminate.
  - unfold App.calculateStreak, RoutesJournal.streak_of.
    destruct js as [|j rest]; reflexivity.
  - apply floor_days_midnights.
Qed.

(** ** The weekly chart and the weekly total of the dashboard *)





(** ** The weekly aggregate: what it can and cannot hold *)

Lemma iso_day_mono (a b : Z) : a <= b -> iso_day a <= iso_day b.
Proof.
  intros H. unfold iso_day. apply Z.div_le_mono; [unfold day_ms; lia|assumption].
Qed.

Lemma weekly_query_split (u : UserId) (since : Z) (l : list Journal) :
  List.filter (weekly_query u since) l =
    List.filter (fun j => since <=? j_createdAt j) (List.filter (owned_by u) l).
Proof.
  unfold weekly_query. induction l as [|x l IH]; simpl; [reflexivity|].
  destruct (owned_by u x); simpl; [|exact IH].
  destruct (since <=? j_createdAt x); simpl; now rewrite IH.
Qed.

(** X15.  In the table the weekly route answers, every count is at least
    1 and no key is a day before the UTC day of [sevenDaysAgo], the same
    local time seven calendar days before now; and the table depends on the
    caller's journals only: journals of other users, added, changed or
    removed, never alter it. *)
Theorem X15_weekly_table_is_the_callers_and_recent
        (z : Zone) (req : Request) (now : Z) (w : World) :
  exists stats,
    get_stats_weekly z req now w = (w, Ok (json (PStats stats))) /\
    (forall d n, stats !! d = Some n ->
                 (1 <= n)%nat /\ iso_day (setDate_back z 7 now) <= d) /\
    (forall w2,
        List.filter (owned_by (req_user req)) (journals w2)
          = List.filter (owned_by (req_user req)) (journals w) ->
        get_stats_weekly z req now w2 = (w2, Ok (json (PStats stats)))).
Proof.
  eexists. split; [reflexivity|]. split.
  - intros d n H. rewrite group_by_day_lookup in H.
    destruct (count_on d _) as [|k] eqn:Hc; [discriminate|].
    injection H as <-. split; [lia|].
    unfold count_on in Hc.
    destruct (List.filter _ _) as [|j rest] eqn:Hfil; [discriminate|].
    assert (Hj : In j (List.filter (fun j => iso_day (j_createdAt j) =? d)
                         (List.filter (weekly_query (req_user req) (setDate_back z 7 now))
                            (journals w))))
      by (rewrite Hfil; now left).
    apply filter_In in Hj as [Hj Hd]. apply filter_In in Hj as [_ Hq].
    unfold weekly_query in Hq. apply andb_true_iff in Hq as [_ Hq].
    apply Z.leb_le in Hq. apply Z.eqb_eq in Hd. rewrite <- Hd.
    now apply iso_day_mono.
  - intros w2 Hsame. unfold get_stats_weekly, try_catch, bind, Journal_find, ret.
    simpl. now rewrite !weekly_query_split, Hsame.
Qed.

Lemma X15_witness :
  exists stats,
    get_stats_weekly Sample.autumn Sample.stats_request Sample.noon Sample.late_entry
      = (Sample.late_entry, Ok (json (PStats stats))) /\
    get_stats_weekly Sample.autumn Sample.stats_request Sample.noon
      (Sample.world_of [Sample.entry 7%nat Sample.bob "sad" Sample.noon;
                        Sample.entry 0%nat Sample.alice "calm"
                                     (Sample.noon - 7 * day_ms - 1800000)])
      = (Sample.world_of [Sample.entry 7%nat Sample.bob "sad" Sample.noon;
                          Sample.entry 0%nat Sample.alice "calm"
                                       (Sample.noon - 7 * day_ms - 1800000)],
         Ok (json (PStats stats))).
Proof.
  destruct (X15_weekly_table_is_the_callers_and_recent
              Sample.autumn Sample.stats_request Sample.noon Sample.late_entry)
    as (stats & Hrun & _ & Hother).
  exists stats. split; [exact Hrun|]. apply Hother. reflexivity.
Defined.

(** ** The client's list follows the server's *)

Lemma insert_desc_newest (j : Journal) (s : list Journal) :
  Forall (fun x => j_createdAt x <= j_createdAt j) s -> insert_desc j s = j :: s.
Proof.
  destruct 1 as [|x s Hx _]; simpl; [reflexivity|].
  apply Z.leb_le in Hx. now rewrite Hx.
Qed.

Lemma insert_desc_under (x j : Journal) (s : list Journal) :
  j_createdAt x < j_createdAt j -> insert_desc x (j :: s) = j :: insert_desc x s.
Proof.
  intros H. simpl. destruct (Z.leb_spec (j_createdAt j) (j_createdAt x)); [lia|reflexivity].
Qed.

Lemma sort_desc_snoc_newest (l : list Journal) (j : Journal) :
  Forall (fun x => j_createdAt x < j_createdAt j) l ->
  sort_desc (l ++ [j]) = j :: sort_desc l.
Proof.
  unfold sort_desc. induction 1 as [|x l Hx _ IH]; simpl; [reflexivity|].
  rewrite IH. now apply insert_desc_under.
Qed.

Lemma not_older_trans : Transitive not_older.
Proof. intros a b c. unfold not_older. lia. Qed.

Lemma sort_desc_strongly_sorted (l : list Journal) : StronglySorted not_older (sort_desc l).
Proof.
  apply Sorted_StronglySorted; [apply not_older_trans|apply sort_desc_sorted].
Qed.

Lemma filter_insert_desc (p : Journal -> bool) (x : Journal) (s : list Journal) :
  StronglySorted not_older s ->
  List.filter p (insert_desc x s) =
    if p x then insert_desc x (List.filter p s) else List.filter p s.
Proof.
  induction 1 as [|y s Hs IH Hy]; simpl.
  - now destruct (p x).
  - destruct (Z.leb_spec (j_createdAt y) (j_createdAt x)) as [Hle|Hlt]; simpl.
    + destruct (p x) eqn:Hp; [|reflexivity].
      symmetry. f_equal. apply insert_desc_newest.
      assert (Hall : Forall (fun z => j_createdAt z <= j_createdAt x) (y :: s)).
      { constructor; [assumption|]. eapply Forall_impl; [exact Hy|].
        unfold not_older. simpl. intros. lia. }
      apply Forall_forall. intros z Hz. apply list_elem_of_In in Hz.
      change (if p y then y :: List.filter p s else List.filter p s)
        with (List.filter p (y :: s)) in Hz.
      apply filter_In in Hz as [Hz _]. rewrite Forall_forall in Hall.
      now apply Hall, list_elem_of_In.
    + rewrite IH. destruct (p y) eqn:Hpy, (p x) eqn:Hpx; try reflexivity.
      symmetry. now apply insert_desc_under.
Qed.

Lemma sort_desc_filter (p : Journal -> bool) (l : list Journal) :
  sort_desc (List.filter p l) = List.filter p (sort_desc l).
Proof.
  induction l as [|x l IH]; simpl; [reflexivity|].
  change (sort_desc (x :: l)) with (insert_desc x (sort_desc l)).
  rewrite filter_insert_desc by apply sort_desc_strongly_sorted.
  destruct (p x); [|exact IH].
  change (sort_desc (x :: List.filter p l))
    with (insert_desc x (sort_desc (List.filter p l))).
  now rewrite IH.
Qed.

Lemma filter_filter_comm (p q : Journal -> bool) (l : list Journal) :
  List.filter p (List.filter q l) = List.filter q (List.filter p l).
Proof.
  induction l as [|x l IH]; simpl; [reflexivity|].
  destruct (p x) eqn:Hp, (q x) eqn:Hq; simpl; rewrite ?Hp, ?Hq, IH; reflexivity.
Qed.

Lemma filter_none_out (p : Journal -> bool) (l : list Journal) :
  (forall x, In x l -> p x = true) -> List.filter p l = l.
Proof.
  induction l as [|x l IH]; simpl; intros H; [reflexivity|].
  rewrite (H x) by now left. f_equal. apply IH. intros y Hy. apply H. now right.
Qed.

Lemma listed_In (u : UserId) (w : World) (x : Journal) :
  In x (listed u w) <-> In x (journals w) /\ j_user x = u.
Proof.
  unfold listed. rewrite <- !list_elem_of_In, (sort_desc_perm _), !list_elem_of_In.
  rewrite filter_In. unfold owned_by. now rewrite Nat.eqb_eq.
Qed.

(** X16.  When every stored journal is older than the request, the list
    the client keeps after [createJournal] is the list GET /api/journals
    would now answer, whether the create succeeded (the new journal is put
    in front) or failed (the list is left alone); and [success] is reported
    exactly when the server answered 201. *)
Theorem X16_client_list_after_create
        (rev : Revision) (E : Env) (req : Request) (now : Z) (w : World) :
  Forall (fun j => j_createdAt j < now) (journals w) ->
  fst (createJournal (body_of (create rev E req now w)) (listed (req_user req) w))
    = listed (req_user req) (fst (create rev E req now w)) /\
  (snd (createJournal (body_of (create rev E req now w)) (listed (req_user req) w)) = true
   <-> status_of (create rev E req now w) = Some 201).
Proof.
  intros Hold.
  destruct (analyzeWithAI_never_raises rev E (field req "content") w)
    as (w1 & a & Ha & _ & Hj & _ & Hn).
  unfold create. rewrite (post_journal_run E _ req now w w1 a Ha).
  destruct (validate E (create_doc req a)) as [f|e]; simpl.
  - split; [|tauto]. unfold listed. simpl. rewrite Hj, List.filter_app. simpl.
    replace (owned_by (req_user req) (document (next_id w1) (req_user req) f now now))
      with true by (unfold owned_by; simpl; now rewrite Nat.eqb_refl).
    symmetry. apply sort_desc_snoc_newest. simpl.
    apply Forall_forall. intros x Hx. apply list_elem_of_In in Hx.
    apply filter_In in Hx as [Hx _]. rewrite Forall_forall in Hold.
    now apply Hold, list_elem_of_In.
  - split; [unfold listed; now rewrite Hj|]. split; discriminate.
Qed.

Lemma X16_witness :
  fst (createJournal (body_of (create JournalJs Sample.sunny Sample.monday 50 Fixture.shared))
         (listed (req_user Sample.monday) Fixture.shared))
    = listed (req_user Sample.monday)
        (fst (create JournalJs Sample.sunny Sample.monday 50 Fixture.shared)) /\
  (snd (createJournal (body_of (create JournalJs Sample.sunny Sample.monday 50 Fixture.shared))
          (listed (req_user Sample.monday) Fixture.shared)) = true
   <-> status_of (create JournalJs Sample.sunny Sample.monday 50 Fixture.shared) = Some 201).
Proof.
  apply (X16_client_list_after_create JournalJs Sample.sunny Sample.monday 50 Fixture.shared).
  repeat constructor.
Defined.

Lemma unique_by_id (w : World) (id : IdParam) (j x : Journal) :
  reachable w ->
  find (has_id id) (journals w) = Some j -> In x (journals w) -> has_id id x = true ->
  x = j.
Proof.
  intros Hr Hf Hx Hid. destruct (reachable_tidy w Hr) as (_ & Hnd & _).
  pose proof (find_by_own_id _ x Hnd Hx) as H.
  destruct id as [n|raw]; simpl in Hid; [|discriminate].
  apply Nat.eqb_eq in Hid. rewrite Hid, Hf in H. congruence.
Qed.

(** X17.  In every world the routes can produce, the list the client
    keeps after [deleteJournal] is the list GET /api/journals would now
    answer, whatever the server answered: after a 200 the journal is gone
    from both, and after a 404, a 403 or a 500 the client's filter removes
    nothing, because no journal of the caller's list has that id. *)
Theorem X17_client_list_after_delete (req : Request) (w : World) :
  reachable w ->
  fst (deleteJournal (req_id req) (body_of (delete_journal req w))
         (listed (req_user req) w))
    = listed (req_user req) (fst (delete_journal req w)).
Proof.
  intros Hr. unfold deleteJournal. simpl.
  destruct (find (has_id (req_id req)) (journals w)) as [j|] eqn:Hf.
  2:{ rewrite delete_journal_none by assumption. simpl.
      apply filter_none_out. intros x Hx. apply listed_In in Hx as [Hx _].
      pose proof (find_none _ _ Hf x Hx) as H. now rewrite H. }
  rewrite (delete_journal_found req w j Hf).
  destruct (not_owner j req) eqn:Ho; simpl.
  - apply filter_none_out. intros x Hx. apply listed_In in Hx as [Hx Hu].
    destruct (has_id (req_id req) x) eqn:Hid; [|reflexivity].
    rewrite (unique_by_id w _ j x Hr Hf Hx Hid) in Hu.
    apply not_owner_iff in Ho. contradiction.
  - unfold listed. simpl. destruct (find_has_id _ _ _ Hf) as [-> _].
    rewrite (filter_filter_comm (owned_by (req_user req))).
    symmetry. apply sort_desc_filter.
Qed.

Lemma X17_witness :
  fst (deleteJournal (ObjectId 0%nat) (body_of (delete_journal (request Sample.alice 0%nat [])
                                                    Sample.sunny_world))
         (listed Sample.alice Sample.sunny_world))
    = listed Sample.alice
        (fst (delete_journal (request Sample.alice 0%nat []) Sample.sunny_world)).
Proof.
  apply (X17_client_list_after_delete (request Sample.alice 0%nat []) Sample.sunny_world).
  apply (reachable_call Sample.w0 Part003Js Sample.sunny (Create Sample.monday 5)).
  apply reachable_empty. reflexivity.
Defined.

Lemma insert_desc_map (g : Journal -> Journal) (x : Journal) (s : list Journal) :
  j_createdAt (g x) = j_createdAt x ->
  Forall (fun y => j_createdAt (g y) = j_createdAt y) s ->
  insert_desc (g x) (map g s) = map g (insert_desc x s).
Proof.
  intros Hx. induction 1 as [|y s Hy _ IH]; simpl; [reflexivity|].
  rewrite Hx, Hy. destruct (j_createdAt y <=? j_createdAt x); simpl; [reflexivity|].
  now rewrite IH.
Qed.

Lemma sort_desc_map (g : Journal -> Journal) (l : list Journal) :
  Forall (fun y => j_createdAt (g y) = j_createdAt y) l ->
  sort_desc (map g l) = map g (sort_desc l).
Proof.
  induction 1 as [|x l Hx Hl IH]; simpl; [reflexivity|].
  change (sort_desc (g x :: map g l)) with (insert_desc (g x) (sort_desc (map g l))).
  change (sort_desc (x :: l)) with (insert_desc x (sort_desc l)).
  rewrite IH. apply insert_desc_map; [assumption|].
  apply Forall_forall. intros y Hy. rewrite (sort_desc_perm l) in Hy.
  rewrite Forall_forall in Hl. now apply Hl.
Qed.

Lemma filter_map_same (p : Journal -> bool) (g : Journal -> Journal) (l : list Journal) :
  Forall (fun y => p (g y) = p y) l ->
  List.filter p (map g l) = map g (List.filter p l).
Proof.
  induction 1 as [|x l Hx _ IH]; simpl; [reflexivity|].
  rewrite Hx. destruct (p x); simpl; now rewrite IH.
Qed.

(** X18.  In every world the routes can produce, the list the client
    keeps after [updateJournal] is the list GET /api/journals would now
    answer: after a 200 the stored journal and the listed one are replaced
    by the same document, in place, and after a 404, a 403 or a 500 both are
    left alone. *)
Theorem X18_client_list_after_update
        (rev : Revision) (E : Env) (req : Request) (now : Z) (w : World) :
  reachable w ->
  fst (updateJournal (req_id req) (body_of (update rev E req now w))
         (listed (req_user req) w))
    = listed (req_user req) (fst (update rev E req now w)).
Proof.
  intros Hr. unfold update.
  destruct (find (has_id (req_id req)) (journals w)) as [j|] eqn:Hf.
  2:{ rewrite put_journal_none by assumption. now destruct (req_id req). }
  destruct (not_owner j req) eqn:Ho.
  { now rewrite (put_journal_forbidden E _ req now w j Hf Ho). }
  destruct (update_analysis_run (analyzeWithAI rev E) req j w
              (analyzeWithAI_never_raises rev E)) as (w1 & a & Ha & Hj & _).
  rewrite (put_journal_run E _ req now w w1 j a Hf Ho Ha).
  destruct (validate E (update_doc j req a)) as [f|e]; simpl.
  2:{ unfold listed. now rewrite Hj. }
  destruct (modified j f) eqn:Hm; simpl.
  2:{ unfold listed, body_of, updateJournal. simpl. rewrite Hj.
      rewrite <- (map_id (sort_desc _)) at 2. apply map_ext_in.
      intros y Hy. apply listed_In in Hy as [Hy _].
      destruct (has_id (req_id req) y) eqn:Hy'; [|reflexivity].
      symmetry. exact (unique_by_id w _ j y Hr Hf Hy Hy'). }
  set (j' := saved j f now).
  assert (Hj' : j' = document (j_id j) (j_user j) f (j_createdAt j) now).
  { unfold j', saved. now rewrite Hm. }
  destruct (find_has_id _ _ _ Hf) as [Hid _].
  unfold listed, body_of, updateJournal. simpl. rewrite Hj. unfold replace_doc.
  replace (j_id j') with (j_id j) by (now rewrite Hj'). rewrite <- Hid.
  set (g := fun x => if has_id (req_id req) x then j' else x).
  assert (Hsame : Forall (fun y => j_createdAt (g y) = j_createdAt y
                                   /\ j_user (g y) = j_user y) (journals w)).
  { apply Forall_forall. intros y Hy. apply list_elem_of_In in Hy. unfold g.
    destruct (has_id (req_id req) y) eqn:Hy'; [|auto].
    rewrite (unique_by_id w _ j y Hr Hf Hy Hy'), Hj'. auto. }
  rewrite filter_map_same.
  - rewrite sort_desc_map; [reflexivity|].
    apply Forall_forall. intros y Hy. apply list_elem_of_In in Hy.
    apply filter_In in Hy as [Hy _]. rewrite Forall_forall in Hsame.
    now apply Hsame, list_elem_of_In.
  - eapply Forall_impl; [exact Hsame|]. simpl. intros y [_ Hu].
    unfold owned_by. now rewrite Hu.
Qed.

Lemma X18_witness :
  fst (updateJournal (ObjectId 0%nat) (body_of (update Part003Js Sample.sunny Sample.retitle 9
                                            Sample.sunny_world))
         (listed (req_user Sample.retitle) Sample.sunny_world))
    = listed (req_user Sample.retitle)
        (fst (update Part003Js Sample.sunny Sample.retitle 9 Sample.sunny_world)).
Proof.
  apply (X18_client_list_after_update Part003Js Sample.sunny Sample.retitle 9
           Sample.sunny_world).
  apply (reachable_call Sample.w0 Part003Js Sample.sunny (Create Sample.monday 5)).
  apply reachable_empty. reflexivity.
Defined.

(** ** The tags field of the journal form *)

Local Open Scope string_scope.

Lemma split_commas_cons (s : string) : exists h t, split_commas s = h :: t.
Proof.
  induction s as [|c r (h & t & IH)]; simpl; [eauto|].
  destruct (is_char 44 c); [eauto|]. rewrite IH. eauto.
Qed.

Lemma split_commas_free (s : string) :
  Forall (fun t => contains 44 t = false) (split_commas s).
Proof.
  induction s as [|c r IH]; simpl; [repeat constructor|].
  destruct (is_char 44 c) eqn:Hc; [now constructor|].
  destruct (split_commas r) as [|h t]; [repeat constructor; simpl; now rewrite Hc|].
  apply Forall_cons in IH as [Hh Ht]. constructor; [|assumption].
  simpl. now rewrite Hc, Hh.
Qed.

Lemma trim_left_contains (n : nat) (s : string) :
  contains n s = false -> contains n (trim_left s) = false.
Proof.
  functional induction (trim_left s); auto; simpl; intros H;
    repeat (apply orb_false_iff in H as [_ H]); auto.
Qed.

Lemma trim_right_contains (n : nat) (s : string) :
  contains n s = false -> contains n (trim_right s) = false.
Proof.
  induction s as [|c r IH]; [reflexivity|].
  cbn [trim_right contains]. intros H. apply orb_false_iff in H as [Hc Hr].
  destruct (blank (String c r)); [reflexivity|]. simpl. now rewrite Hc, IH.
Qed.

Lemma trim_contains (n : nat) (s : string) :
  contains n s = false -> contains n (trim s) = false.
Proof. intros H. unfold trim. now apply trim_right_contains, trim_left_contains. Qed.

Lemma split_commas_single (t : string) :
  contains 44 t = false -> split_commas t = [t].
Proof.
  induction t as [|c r IH]; simpl; [reflexivity|].
  intros H. apply orb_false_iff in H as [Hc Hr]. now rewrite Hc, IH.
Qed.

Lemma split_commas_app (t rest : string) :
  contains 44 t = false ->
  split_commas (t ++ "," ++ rest) = t :: split_commas rest.
Proof.
  induction t as [|c r IH]; [reflexivity|].
  rewrite append_cons. simpl.
  intros H. apply orb_false_iff in H as [Hc Hr]. now rewrite Hc, IH.
Qed.

Lemma filter_none_strings (l : list string) :
  Forall (fun t => t <> "") l ->
  List.filter (fun t => negb (String.eqb t "")) l = l.
Proof.
  induction 1 as [|x l Hx _ IH]; simpl; [reflexivity|].
  apply String.eqb_neq in Hx. now rewrite Hx, IH.
Qed.

Lemma split_commas_space (s : string) :
  split_commas (" " ++ s) =
    match split_commas s with
    | h :: t => (" " ++ h) :: t
    | [] => [" "]
    end.
Proof. reflexivity. Qed.

Lemma split_shown (t : string) (ts : list string) :
  Forall (fun t => contains 44 t = false) (t :: ts) ->
  split_commas (shown_tags (t :: ts)) = t :: map (String.append " ") ts.
Proof.
  unfold shown_tags. revert t. induction ts as [|u ts IH]; intros t H.
  - simpl. apply split_commas_single. now inversion H.
  - apply Forall_cons in H as [Ht Hts].
    change (String.concat ", " (t :: u :: ts))
      with (t ++ "," ++ " " ++ String.concat ", " (u :: ts)).
    rewrite split_commas_app by assumption. f_equal.
    rewrite split_commas_space, (IH u Hts). reflexivity.
Qed.

Lemma trim_after_space (t : string) : trim t = t -> trim (" " ++ t) = t.
Proof. intros H. exact H. Qed.

(** X19.  The tags the journal form sends are clean: none is empty, none
    has white space at either end, none holds a comma.  And clean tags
    survive the round trip through the form: shown joined by ", " and parsed
    again, they come back as they were, so editing a journal without
    touching the tags field sends the same tags. *)
Theorem X19_form_tags_are_clean_and_round_trip (text : string) (tags : list string) :
  Forall clean_tag (parse_tags text) /\
  (Forall clean_tag tags -> parse_tags (shown_tags tags) = tags).
Proof.
  split.
  - unfold parse_tags. apply Forall_forall. intros t Ht. apply list_elem_of_In in Ht.
    apply filter_In in Ht as [Ht Hne]. apply in_map_iff in Ht as (s & <- & Hs).
    pose proof (split_commas_free text) as Hfree. rewrite Forall_forall in Hfree.
    apply list_elem_of_In, Hfree in Hs.
    repeat split.
    + apply negb_true_iff in Hne. now apply String.eqb_neq.
    + apply trim_idem.
    + now apply trim_contains.
  - intros Hclean. unfold parse_tags.
    destruct tags as [|t ts]; [reflexivity|].
    rewrite split_shown.
    2:{ eapply Forall_impl; [exact Hclean|]. simpl. now intros x (_ & _ & H). }
    rewrite map_cons, map_map.
    assert (Hmap : map (fun x => trim (" " ++ x)) ts = ts).
    { apply Forall_cons in Hclean as [_ Hts]. clear t.
      induction Hts as [|u ts (_ & Hu & _) _ IH]; simpl; [reflexivity|].
      now rewrite (trim_after_space u Hu), IH. }
    rewrite Hmap. apply Forall_cons in Hclean as [(Hne & Ht & _) Hts]. rewrite Ht.
    apply filter_none_strings.
    constructor; [assumption|].
    eapply Forall_impl; [exact Hts|]. simpl. now intros x (H & _).
Qed.

Lemma X19_witness : parse_tags (shown_tags ["rain"; "grey"]) = ["rain"; "grey"].
Proof.
  apply (proj2 (X19_form_tags_are_clean_and_round_trip "" ["rain"; "grey"])).
  repeat constructor; discriminate.
Defined.

(** ** The daily challenge kept in the browser *)

Lemma trim_nonempty (a : string) : trim a <> "" -> a <> "".
Proof. intros H ->. now apply H. Qed.

(** X20.  The answer to the daily challenge is kept in the browser under
    the date alone.  After a submit, loading on a day with the same date
    string shows the answer as submitted, provided it is not the empty
    string (which the submit button, disabled while the trimmed answer is
    empty, rules out); loading under any other date string shows an empty,
    open form.  A logout removes only the token, so the answer is still
    shown as submitted to whoever logs in next on that day. *)
Theorem X20_challenge_answer_round_trip
        (answer today today' : string) (ls : gmap string string) :
  challenge_load today' (challenge_submit answer today ls) =
    (if negb (String.eqb answer "") && String.eqb today' today
     then (answer, true) else ("", false)) /\
  (trim answer <> "" ->
   challenge_load today (challenge_submit answer today ls) = (answer, true)) /\
  challenge_load today' (logout_storage (challenge_submit answer today ls)) =
    challenge_load today' (challenge_submit answer today ls).
Proof.
  assert (Hload : challenge_load today' (challenge_submit answer today ls) =
                  (if negb (String.eqb answer "") && String.eqb today' today
                   then (answer, true) else ("", false))).
  { unfold challenge_load, challenge_submit.
    rewrite lookup_insert_ne by discriminate.
    rewrite !lookup_insert_eq.
    destruct (negb (String.eqb answer "")); simpl; [|reflexivity].
    destruct (String.eqb_spec today' today) as [->|Hne].
    - now rewrite bool_decide_eq_true_2.
    - rewrite bool_decide_eq_false_2; [reflexivity|]. congruence. }
  split; [exact Hload|]. split.
  - intros Ht. apply trim_nonempty, String.eqb_neq in Ht.
    unfold challenge_load, challenge_submit.
    rewrite lookup_insert_ne by discriminate.
    rewrite !lookup_insert_eq, Ht. simpl.
    now rewrite bool_decide_eq_true_2.
  - unfold challenge_load, logout_storage.
    now rewrite !lookup_delete_ne by discriminate.
Qed.

Lemma X20_witness :
  challenge_load "Mon Jan 06 2025"
    (challenge_submit "Went for a walk." "Mon Jan 06 2025" ∅)
    = ("Went for a walk.", true).
Proof.
  apply (proj1 (proj2 (X20_challenge_answer_round_trip
                         "Went for a walk." "Mon Jan 06 2025" "Mon Jan 06 2025" ∅))).
  vm_compute. discriminate.
Defined.

Local Close Scope string_scope.
